(** * PyMove: convergence cleaning (preprocessing/filters.py) and
      similarity queries (query/query.py)

    A shallow embedding of the two modules over a small model of the pandas
    operations they use, followed by the properties of the cleaning loop and
    of the range and k-nearest-neighbour queries.

    Numbers are binary64 floats, as numpy has them: NaN compares false with
    everything, which is what decides the fate of every first point of a
    trajectory in the filters below. *)

From Stdlib Require Import String ZArith Lia Bool Relations List Permutation.
From Stdlib Require Import Floats.
Import ListNotations.

(* ===================================================================== *)
(** ** The pandas operations the two modules rely on *)
(* ===================================================================== *)

Module Pandas.

(** Python exceptions the modelled code can raise; a ValueError carries its
    message. *)
Inductive exn : Type :=
| ValueError (msg : string)
| KeyError
| IndexError
| TypeError
| NameError.

Inductive result (A : Type) : Type :=
| Ok (a : A)
| Raise (e : exn).

Arguments Ok {A} a.
Arguments Raise {A} e.

Definition bind {A B : Type} (c : result A) (k : A -> result B) : result B :=
  match c with
  | Ok a => k a
  | Raise e => Raise e
  end.

Notation "x <- c ;; k" := (bind c (fun x => k))
  (at level 61, c at next level, right associativity).

(** A trajectory identifier: PyMove frames use integers or strings. *)
Inductive Id : Type :=
| IdInt (z : Z)
| IdStr (s : string).

Definition Id_eqb (a b : Id) : bool :=
  match a, b with
  | IdInt x, IdInt y => Z.eqb x y
  | IdStr x, IdStr y => String.eqb x y
  | _, _ => false
  end.

(** The derived columns whose presence the cleaning functions test
    (constants of pymove.utils.constants). *)
Inductive Column : Type := DIST_TO_PREV | TIME_TO_PREV | SPEED_TO_PREV | OUTLIER.

Definition Column_eqb (a b : Column) : bool :=
  match a, b with
  | DIST_TO_PREV, DIST_TO_PREV | TIME_TO_PREV, TIME_TO_PREV
  | SPEED_TO_PREV, SPEED_TO_PREV | OUTLIER, OUTLIER => true
  | _, _ => false
  end.

(** One row of a move dataframe: its index label and its cells. The cells of
    a derived column that the frame does not carry are never read. *)
Record Row : Type := mkRow {
  label : Z;
  traj_id : Id;
  lat : float;
  lon : float;
  datetime : float;          (* seconds *)
  dist_to_prev : float;
  time_to_prev : float;
  speed_to_prev : float;
  outlier : bool
}.

Record DataFrame : Type := mkDF {
  index_name : option string;
  columns : list Column;     (* the derived columns present *)
  rows : list Row
}.

Definition has_column (c : Column) (df : DataFrame) : bool :=
  existsb (Column_eqb c) (columns df).

Definition shape0 (df : DataFrame) : nat := length (rows df).

Definition index (df : DataFrame) : list Z := map label (rows df).

Definition set_rows (df : DataFrame) (rs : list Row) : DataFrame :=
  {| index_name := index_name df; columns := columns df; rows := rs |}.

(** The numeric reading of a cell (a boolean cell reads as 1.0 or 0.0). *)
Definition cell (c : Column) (r : Row) : float :=
  match c with
  | DIST_TO_PREV => dist_to_prev r
  | TIME_TO_PREV => time_to_prev r
  | SPEED_TO_PREV => speed_to_prev r
  | OUTLIER => if outlier r then 1%float else 0%float
  end.

(** [df[c]]: the column as a series of values, KeyError when absent. *)
Definition series (df : DataFrame) (c : Column) : result (list float) :=
  if has_column c df then Ok (map (cell c) (rows df)) else Raise KeyError.

(** [df[mask]] for a boolean mask of the frame's length: the rows at the
    true positions, labels kept. *)
Fixpoint mask_rows (rs : list Row) (m : list bool) : list Row :=
  match rs, m with
  | r :: rs', b :: m' => if b then r :: mask_rows rs' m' else mask_rows rs' m'
  | _, _ => []
  end.

Definition mask (df : DataFrame) (m : list bool) : DataFrame :=
  set_rows df (mask_rows (rows df) m).

Definition mem_label (l : Z) (ls : list Z) : bool := existsb (Z.eqb l) ls.

(** [df.drop(index=labels, inplace=True)] with the default [errors='raise']:
    KeyError when a label is not in the index; otherwise every row carrying
    one of the labels goes. *)
Definition drop (labels : list Z) (df : DataFrame) : result DataFrame :=
  if forallb (fun l => mem_label l (index df)) labels
  then Ok (set_rows df (filter (fun r => negb (mem_label (label r) labels)) (rows df)))
  else Raise KeyError.

Fixpoint relabel (n : Z) (rs : list Row) : list Row :=
  match rs with
  | [] => []
  | r :: rs' =>
      {| label := n; traj_id := traj_id r; lat := lat r; lon := lon r;
         datetime := datetime r; dist_to_prev := dist_to_prev r;
         time_to_prev := time_to_prev r; speed_to_prev := speed_to_prev r;
         outlier := outlier r |} :: relabel (n + 1) rs'
  end.

(** The labels PyMove gives the columns of a move dataframe
    (pymove.utils.constants, outside these files). *)
Definition id_label : string := "id".

Definition column_label (c : Column) : string :=
  match c with
  | DIST_TO_PREV => "dist_to_prev"%string
  | TIME_TO_PREV => "time_to_prev"%string
  | SPEED_TO_PREV => "speed_to_prev"%string
  | OUTLIER => "outlier"%string
  end.

Definition labels (df : DataFrame) : list string :=
  [id_label; "lat"%string; "lon"%string; "datetime"%string]
  ++ map column_label (columns df).

Definition is_label (df : DataFrame) (name : string) : bool :=
  existsb (String.eqb name) (labels df).

(** The index is named like a column of the frame. *)
Definition index_clashes (df : DataFrame) : bool :=
  match index_name df with
  | Some name => is_label df name
  | None => false
  end.

(** A fresh index 0, 1, 2, ... without a name. *)
Definition fresh_index (df : DataFrame) : DataFrame :=
  {| index_name := None; columns := columns df; rows := relabel 0 (rows df) |}.

(** [df.reset_index(inplace=True)]: the old index becomes a column under its
    name, a ValueError when the frame has a column of that name already;
    the frame gets a fresh index. (The column of the old labels is read by
    nothing below and is left out of the frame.) *)
Definition reset_index (df : DataFrame) : result DataFrame :=
  match index_name df with
  | Some name =>
      if is_label df name
      then Raise (ValueError
                    (String.append "cannot insert "
                       (String.append name ", already exists")))
      else Ok (fresh_index df)
  | None => Ok (fresh_index df)
  end.

(** [series.shift(1)]: every value moves one position down, a NaN enters at
    the top and the last value falls off. *)
Definition shift1 (s : list float) : list float :=
  firstn (length s) (nan :: s).

(** [np.nan_to_num]: NaN becomes 0.0, the infinities the largest finite
    floats of their sign. *)
Definition max_float : float := 0x1.fffffffffffffp+1023%float.

Definition nan_to_num (x : float) : float :=
  if PrimFloat.is_nan x then 0%float
  else if PrimFloat.eqb x infinity then max_float
  else if PrimFloat.eqb x neg_infinity then PrimFloat.opp max_float
  else x.

(** An integer as float64 holds it, rounded to the nearest one. *)
Definition float_of_int (z : Z) : float :=
  SF2Prim (SpecFloat.binary_normalize FloatOps.prec FloatOps.emax z 0 false).

(** [series.unique()]: the distinct values in order of first appearance. *)
Fixpoint unique_from (seen : list Id) (l : list Id) : list Id :=
  match l with
  | [] => []
  | x :: l' =>
      if existsb (Id_eqb x) seen then unique_from seen l'
      else x :: unique_from (x :: seen) l'
  end.

Definition unique (l : list Id) : list Id := unique_from [] l.

(** [df.loc[df[id] == v]]: the rows of one trajectory, in frame order. *)
Definition rows_of_id (df : DataFrame) (v : Id) : list Row :=
  filter (fun r => Id_eqb (traj_id r) v) (rows df).

Definition loc_id (df : DataFrame) (v : Id) : DataFrame :=
  set_rows df (rows_of_id df v).

End Pandas.

(* ===================================================================== *)
(** ** preprocessing/filters.py *)
(* ===================================================================== *)

Module Filters.
Import Pandas.

(** The keyword arguments [_clean_gps] hands on: [arg1] is a column label for
    the threshold filters and the jump coefficient for the outlier one. *)
Inductive Arg1 : Type :=
| Feature (c : Column)
| Number (x : float).

Record kwargs : Type := mkKwargs {
  arg1 : Arg1;
  arg2 : float;
  outliers_ : bool
}.

(** A filtering function [f(move_data, arg1, arg2, inplace=False)]. *)
Definition Callable : Type := DataFrame -> Arg1 -> float -> result DataFrame.

Definition zip_or (a b : list bool) : list bool :=
  map (fun p => orb (fst p) (snd p)) (combine a b).

(** [move_data[move_data[arg1] <= arg2]] *)
Definition _filter_single_by_max : Callable :=
  fun move_data a1 a2 =>
    match a1 with
    | Feature c =>
        s <- series move_data c ;;
        Ok (mask move_data (map (fun x => PrimFloat.leb x a2) s))
    | Number _ => Raise KeyError
    end.

(** [np.nan_to_num(x) > arg2] *)
Definition exceeds (a2 : float) (x : float) : bool :=
  PrimFloat.ltb a2 (nan_to_num x).

(** [filter_ = (nan_to_num(move_data[arg1].shift(1)) > arg2)
              | (nan_to_num(move_data[arg1]) > arg2)], then
    [move_data[filter_]] *)
Definition _filter_speed_max_radius : Callable :=
  fun move_data a1 a2 =>
    match a1 with
    | Feature c =>
        s <- series move_data c ;;
        let filter_ := zip_or (map (exceeds a2) (shift1 s)) (map (exceeds a2) s) in
        Ok (mask move_data filter_)
    | Number _ => Raise KeyError
    end.

Definition _filter_data (move_data : DataFrame) (f : Callable) (kw : kwargs)
  : result (DataFrame * nat) :=
  if outliers_ kw then
    filter_data_points <- f move_data (arg1 kw) (arg2 kw) ;;
    if has_column OUTLIER filter_data_points then
      let filter_data_points :=
        mask filter_data_points (map outlier (rows filter_data_points)) in
      Ok (filter_data_points, shape0 filter_data_points)
    else Raise KeyError
  else
    filter_data_points <- f move_data (arg1 kw) (arg2 kw) ;;
    Ok (filter_data_points, shape0 filter_data_points).

(** The [while rows_to_drop > 0] loop of [_clean_gps]; [None] is a loop that
    outlives its fuel. The running total [sum_drop] and the row counts are
    only logged. *)
Fixpoint _clean_gps_loop (fuel : nat) (f : Callable) (kw : kwargs)
    (move_data filter_data_points : DataFrame) (rows_to_drop : nat)
  : option (result DataFrame) :=
  match rows_to_drop with
  | O => Some (Ok move_data)
  | S _ =>
      match fuel with
      | O => None
      | S fuel' =>
          match drop (index filter_data_points) move_data with
          | Raise e => Some (Raise e)
          | Ok move_data' =>
              match _filter_data move_data' f kw with
              | Raise e => Some (Raise e)
              | Ok (filter_data_points', rows_to_drop') =>
                  _clean_gps_loop fuel' f kw move_data' filter_data_points' rows_to_drop'
              end
          end
      end
  end.

(** [if move_data.index.name is not None: move_data.reset_index(inplace=True)] *)
Definition enter (move_data : DataFrame) : result DataFrame :=
  match index_name move_data with
  | Some _ => reset_index move_data
  | None => Ok move_data
  end.

Definition _clean_gps (move_data : DataFrame) (f : Callable) (kw : kwargs)
  : option (result DataFrame) :=
  match enter move_data with
  | Raise e => Some (Raise e)
  | Ok move_data =>
      match _filter_data move_data f kw with
      | Raise e => Some (Raise e)
      | Ok (filter_data_points, rows_to_drop) =>
          _clean_gps_loop (S (shape0 move_data)) f kw move_data filter_data_points
            rows_to_drop
      end
  end.

(** One pass through the body of the loop: the predicate selected at least
    one row of [move_data] and the drop of the selected labels went through. *)
Inductive iteration (f : Callable) (kw : kwargs) : DataFrame -> DataFrame -> Prop :=
| iteration_intro (move_data filter_data_points move_data' : DataFrame) (n : nat) :
    _filter_data move_data f kw = Ok (filter_data_points, S n) ->
    drop (index filter_data_points) move_data = Ok move_data' ->
    iteration f kw move_data move_data'.

(** How a run of the loop from [move_data] ends: it stops on a frame on which
    the predicate selects no row; or the predicate raises; or the drop of
    the selected labels raises; or it goes through one pass and ends as the
    run from the frame after the pass ends. *)
Inductive ends (f : Callable) (kw : kwargs) : DataFrame -> result DataFrame -> Prop :=
| ends_stop (move_data filter_data_points : DataFrame) :
    _filter_data move_data f kw = Ok (filter_data_points, O) ->
    ends f kw move_data (Ok move_data)
| ends_predicate (move_data : DataFrame) (e : exn) :
    _filter_data move_data f kw = Raise e ->
    ends f kw move_data (Raise e)
| ends_drop (move_data filter_data_points : DataFrame) (n : nat) (e : exn) :
    _filter_data move_data f kw = Ok (filter_data_points, S n) ->
    drop (index filter_data_points) move_data = Raise e ->
    ends f kw move_data (Raise e)
| ends_pass (move_data move_data' : DataFrame) (r : result DataFrame) :
    iteration f kw move_data move_data' ->
    ends f kw move_data' r ->
    ends f kw move_data r.

(** The frame the loop starts from, after the index reset. *)
Definition entry (move_data : DataFrame) : DataFrame :=
  match index_name move_data with
  | Some _ => fresh_index move_data
  | None => move_data
  end.

(** What a cleaning call leaves behind: the caller's frame after the call
    and the value returned ([None] when [inplace]). *)
Definition outcome (inplace : bool) (original cleaned : DataFrame)
  : DataFrame * option DataFrame :=
  if inplace then (cleaned, None) else (original, Some cleaned).

Definition lift_outcome (inplace : bool) (original : DataFrame)
    (r : option (result DataFrame))
  : option (result (DataFrame * option DataFrame)) :=
  match r with
  | None => None
  | Some (Raise e) => Some (Raise e)
  | Some (Ok cleaned) => Some (Ok (outcome inplace original cleaned))
  end.

Section Cleaning.

(** The collaborators outside these two files: the feature generators of the
    move dataframe and the outlier detector of pymove.semantic. The label
    arguments ([label_id], [label_dtype]) go to the generators only. *)
Variable generate_dist_features : DataFrame -> result DataFrame.
Variable generate_dist_time_speed_features : DataFrame -> result DataFrame.
Variable outliers : Callable.

Definition ensure (c : Column) (gen : DataFrame -> result DataFrame)
    (move_data : DataFrame) : result DataFrame :=
  if has_column c move_data then Ok move_data else gen move_data.

Definition clean_gps_jumps_by_distance (move_data : DataFrame)
    (jump_coefficient threshold : float) (inplace : bool)
  : option (result (DataFrame * option DataFrame)) :=
  let original := move_data in
  match ensure DIST_TO_PREV generate_dist_features move_data with
  | Raise e => Some (Raise e)
  | Ok move_data =>
      lift_outcome inplace original
        (_clean_gps move_data outliers
           {| arg1 := Number jump_coefficient; arg2 := threshold;
              outliers_ := true |})
  end.

Definition clean_gps_nearby_points_by_distances (move_data : DataFrame)
    (radius_area : float) (inplace : bool)
  : option (result (DataFrame * option DataFrame)) :=
  let original := move_data in
  match ensure DIST_TO_PREV generate_dist_features move_data with
  | Raise e => Some (Raise e)
  | Ok move_data =>
      lift_outcome inplace original
        (_clean_gps move_data _filter_single_by_max
           {| arg1 := Feature DIST_TO_PREV; arg2 := radius_area;
              outliers_ := false |})
  end.

Definition clean_gps_nearby_points_by_speed (move_data : DataFrame)
    (speed_radius : float) (inplace : bool)
  : option (result (DataFrame * option DataFrame)) :=
  let original := move_data in
  match ensure SPEED_TO_PREV generate_dist_time_speed_features move_data with
  | Raise e => Some (Raise e)
  | Ok move_data =>
      lift_outcome inplace original
        (_clean_gps move_data _filter_single_by_max
           {| arg1 := Feature SPEED_TO_PREV; arg2 := speed_radius;
              outliers_ := false |})
  end.

Definition clean_gps_speed_max_radius (move_data : DataFrame)
    (speed_max : float) (inplace : bool)
  : option (result (DataFrame * option DataFrame)) :=
  let original := move_data in
  match ensure SPEED_TO_PREV generate_dist_time_speed_features move_data with
  | Raise e => Some (Raise e)
  | Ok move_data =>
      lift_outcome inplace original
        (_clean_gps move_data _filter_speed_max_radius
           {| arg1 := Feature SPEED_TO_PREV; arg2 := speed_max;
              outliers_ := false |})
  end.

(** The grouped ['sum'] of the storage engine over one group's values (NaN
    cells are skipped there; the order of summation is the engine's). *)
Variable group_sum : list float -> float.

Definition isin (ids : list Id) (r : Row) : bool :=
  existsb (Id_eqb (traj_id r)) ids.

(** The ids of [groupby(label_id).agg({TIME_TO_PREV: 'sum'})
    .query('time_to_prev < time_max')]. pandas lists the groups by sorted
    key; only membership in the list is used afterwards. [time_max] is
    spliced into the text of the query, where the text of a NaN is a name
    the query does not know (an UndefinedVariableError, a NameError). *)
Definition ids_below (move_data : DataFrame) (time_max : float) : list Id :=
  filter
    (fun i =>
       PrimFloat.ltb (group_sum (map time_to_prev (rows_of_id move_data i))) time_max)
    (unique (map traj_id (rows move_data))).

(** [groupby([label_id])] on a frame whose index is named like the id
    column: the key is both an index level and a column label. *)
Definition id_is_index (move_data : DataFrame) : bool :=
  match index_name move_data with
  | Some name => String.eqb name id_label
  | None => false
  end.

Definition ambiguous_id : exn :=
  ValueError "'id' is both an index level and a column label, which is ambiguous.".

Definition clean_id_by_time_max (move_data : DataFrame) (time_max : float)
    (inplace : bool) : result (DataFrame * option DataFrame) :=
  let original := move_data in
  move_data <- ensure TIME_TO_PREV generate_dist_time_speed_features move_data ;;
  if id_is_index move_data then Raise ambiguous_id
  else if negb (has_column TIME_TO_PREV move_data) then Raise KeyError
  else if PrimFloat.is_nan time_max then Raise NameError
  else
    let move_dataid_drop := ids_below move_data time_max in
    match move_dataid_drop with
    | _ :: _ =>
        let filter_ := map (isin move_dataid_drop) (rows move_data) in
        let idx := index (mask move_data filter_) in
        move_data <- drop idx move_data ;;
        Ok (outcome inplace original move_data)
    | [] => Ok (outcome inplace original move_data)
    end.

End Cleaning.

End Filters.

(* ===================================================================== *)
(** ** query/query.py *)
(* ===================================================================== *)

Module Query.
Import Pandas.

(** A finished call: what it returned or raised, and the candidate ids whose
    distance to the reference was measured, in order. The trace is not a
    value of the program; it records the calls of [dist_measure]. *)
Record run (A : Type) : Type := mkRun {
  returned : result A;
  measured : list Id
}.

Arguments mkRun {A} returned measured.
Arguments returned {A} r.
Arguments measured {A} r.

Definition option_string_eqb (a b : option string) : bool :=
  match a, b with
  | Some x, Some y => String.eqb x y
  | None, None => true
  | _, _ => false
  end.

(** [a.append(b)]: the rows of [a] followed by those of [b], labels kept;
    the columns of both; the index keeps its name when both agree on it. *)
Definition append (a b : DataFrame) : DataFrame :=
  {| index_name :=
       if option_string_eqb (index_name a) (index_name b) then index_name a else None;
     columns :=
       columns a ++ filter (fun c => negb (existsb (Column_eqb c) (columns a))) (columns b);
     rows := rows a ++ rows b |}.

(** A cell of the Top-K frame: a number (the distances, and the NaN that
    fills a new column) or an object (a trajectory id, the string 'empty'). *)
Inductive kcell : Type :=
| KNum (x : float)
| KObj (i : Id).

(** The Top-K frame [k_list]: its columns by label, each with one cell per
    slot. *)
Definition KFrame : Type := list (string * list kcell).

Definition named (col : string) (c : string * list kcell) : bool :=
  String.eqb (fst c) col.

(** [k_list.loc[n, col]]: KeyError for an unknown label. Two columns under
    one label select a pair of cells, and the truth value of a comparison
    on it is ambiguous (ValueError). *)
Definition kl_get (k_list : KFrame) (n : nat) (col : string) : result kcell :=
  match filter (named col) k_list with
  | [] => Raise KeyError
  | [(_, cells)] =>
      match nth_error cells n with
      | Some c => Ok c
      | None => Raise KeyError
      end
  | _ :: _ :: _ => Raise (ValueError "The truth value of a Series is ambiguous")
  end.

Fixpoint set_nth (n : nat) (v : kcell) (cells : list kcell) : list kcell :=
  match cells, n with
  | [], _ => []
  | _ :: cs, O => v :: cs
  | c :: cs, S n' => c :: set_nth n' v cs
  end.

Definition slots (k_list : KFrame) : nat :=
  match k_list with
  | [] => O
  | (_, cells) :: _ => length cells
  end.

Definition is_num (c : kcell) : bool :=
  match c with
  | KNum _ => true
  | KObj _ => false
  end.

(** What a column with the cells [cells] keeps of a value written to it: a
    column of numbers is a float64 column and holds an integer as a float;
    a string turns the column into a column of objects, which hold what they
    are given. *)
Definition coerce (cells : list kcell) (v : kcell) : kcell :=
  match v with
  | KObj (IdInt z) => if forallb is_num cells then KNum (float_of_int z) else v
  | _ => v
  end.

(** [k_list.loc[n, col] = v]: an unknown label becomes a new last column,
    NaN in every slot, before the value is written. *)
Definition kl_set (k_list : KFrame) (n : nat) (col : string) (v : kcell) : KFrame :=
  if existsb (named col) k_list
  then map (fun c =>
              if named col c then (fst c, set_nth n (coerce (snd c) v) (snd c)) else c)
         k_list
  else
    let cells := repeat (KNum nan) (slots k_list) in
    k_list ++ [(col, set_nth n (coerce cells v) cells)].

(** [move_df[id_] == cell], row by row: an id against a float is compared
    as a float (NaN equals nothing), a string equals no number. *)
Definition cell_is (c : kcell) (r : Row) : bool :=
  match c, traj_id r with
  | KObj i, _ => Id_eqb (traj_id r) i
  | KNum x, IdInt z => PrimFloat.eqb (float_of_int z) x
  | KNum _, IdStr _ => false
  end.

Definition loc_cell (move_df : DataFrame) (c : kcell) : DataFrame :=
  set_rows move_df (filter (cell_is c) (rows move_df)).

Section Queries.

(** The constants of pymove.utils.constants the module imports and the two
    distance measures of pymove.utils.distances, all outside these files.
    The column-label arguments of the queries select the id, position and
    time cells of a row and go to the measures only. *)
Variables MEDP MEDT TRAJ_ID : string.
Variables medp medt : DataFrame -> DataFrame -> float.

Definition Measure : Type := DataFrame -> DataFrame -> float.

Definition unknown_measure : exn :=
  ValueError "Unknown distance measure. Use MEDP or MEDT".

(** The [if distance == MEDP ... elif distance == MEDT ... else raise]. *)
Definition dist_measure (distance : string) : result Measure :=
  if String.eqb distance MEDP then Ok (fun traj this => medp traj this)
  else if String.eqb distance MEDT then Ok (fun traj this => medt traj this)
  else Raise unknown_measure.

Fixpoint range_loop (m : Measure) (traj move_df : DataFrame) (min_dist : float)
    (ids : list Id) (result_ : DataFrame) (trace : list Id)
  : DataFrame * list Id :=
  match ids with
  | [] => (result_, trace)
  | traj_id :: ids' =>
      let this := loc_id move_df traj_id in
      let trace := trace ++ [traj_id] in
      if PrimFloat.ltb (m traj this) min_dist
      then range_loop m traj move_df min_dist ids' (append result_ this) trace
      else range_loop m traj move_df min_dist ids' result_ trace
  end.

Definition range_query (traj move_df : DataFrame) (min_dist : float)
    (distance : string) : run DataFrame :=
  let result_ := set_rows traj [] in
  match dist_measure distance with
  | Raise e => {| returned := Raise e; measured := [] |}
  | Ok m =>
      let '(result_, trace) :=
        range_loop m traj move_df min_dist
          (unique (map traj_id (rows move_df))) result_ [] in
      {| returned := Ok result_; measured := trace |}
  end.

(** [pd.DataFrame([[np.Inf, 'empty']] * k, columns=['distance', TRAJ_ID])] *)
Definition new_k_list (k : nat) : KFrame :=
  [("distance"%string, repeat (KNum infinity) k);
   (TRAJ_ID, repeat (KObj (IdStr "empty"%string)) k)].

(** The [for n in range(k)] scan for one candidate. *)
Fixpoint scan (ns : list nat) (k_list : KFrame) (this_distance : float)
    (traj_id : Id) : result KFrame :=
  match ns with
  | [] => Ok k_list
  | n :: ns' =>
      c <- kl_get k_list n "distance"%string ;;
      match c with
      | KNum x =>
          if PrimFloat.ltb this_distance x
          then
            let k_list := kl_set k_list n "distance"%string (KNum this_distance) in
            let k_list := kl_set k_list n "traj_id"%string (KObj traj_id) in
            Ok k_list
          else scan ns' k_list this_distance traj_id
      | KObj _ => Raise TypeError
      end
  end.

Fixpoint knn_loop (m : Measure) (traj move_df : DataFrame) (k : nat)
    (ids : list Id) (k_list : KFrame) (trace : list Id)
  : result KFrame * list Id :=
  match ids with
  | [] => (Ok k_list, trace)
  | traj_id :: ids' =>
      match rows traj with
      | [] => (Raise IndexError, trace)          (* traj[id_].values[0] *)
      | first :: _ =>
          if negb (Id_eqb traj_id (Pandas.traj_id first)) then
            let this := loc_id move_df traj_id in
            let this_distance := m traj this in
            let trace := trace ++ [traj_id] in
            match scan (seq 0 k) k_list this_distance traj_id with
            | Raise e => (Raise e, trace)
            | Ok k_list => knn_loop m traj move_df k ids' k_list trace
            end
          else knn_loop m traj move_df k ids' k_list trace
      end
  end.

(** The closing [for n in range(k)] that gathers the rows of each slot. *)
Fixpoint gather (ns : list nat) (k_list : KFrame) (move_df result_ : DataFrame)
  : result DataFrame :=
  match ns with
  | [] => Ok result_
  | n :: ns' =>
      c <- kl_get k_list n "traj_id"%string ;;
      gather ns' k_list move_df (append result_ (loc_cell move_df c))
  end.

(** The Top-K frame as the candidate loop leaves it. *)
Definition knn_k_list (traj move_df : DataFrame) (k : Z) (distance : string)
  : run KFrame :=
  let k := Z.to_nat k in
  let k_list := new_k_list k in
  match dist_measure distance with
  | Raise e => {| returned := Raise e; measured := [] |}
  | Ok m =>
      let '(r, trace) :=
        knn_loop m traj move_df k (unique (map traj_id (rows move_df))) k_list [] in
      {| returned := r; measured := trace |}
  end.

Definition knn_query (traj move_df : DataFrame) (k : Z) (distance : string)
  : run DataFrame :=
  let r := knn_k_list traj move_df k distance in
  {| returned :=
       k_list <- returned r ;;
       let result_ := traj in
       gather (seq 0 (Z.to_nat k)) k_list move_df result_;
     measured := measured r |}.

End Queries.

End Query.

(* ===================================================================== *)
(** ** The feature provider and the statements of the specification *)
(* ===================================================================== *)

Module Provider.
Import Pandas.

Definition with_features (r : Row) (d t : float) : Row :=
  {| label := label r; traj_id := traj_id r; lat := lat r; lon := lon r;
     datetime := datetime r; dist_to_prev := d; time_to_prev := t;
     speed_to_prev := PrimFloat.div d t; outlier := outlier r |}.

(** The point before [r] in its own trajectory, among the rows that precede
    it in the frame (nearest first). *)
Definition predecessor (before : list Row) (r : Row) : option Row :=
  find (fun p => Id_eqb (traj_id p) (traj_id r)) before.

Section GreatCircle.

(** The great-circle distance between the positions of two rows. *)
Variable haversine : Row -> Row -> float.

(** Modelled from the spec: the Motion Feature Provider (the feature
    generators of the move dataframe, outside these two files), which
    "produces per-point distance/time/speed-to-previous-point features, NaN
    at each trajectory's first point", with speed_to_prev = dist_to_prev /
    time_to_prev. *)
Fixpoint features (before : list Row) (rs : list Row) : list Row :=
  match rs with
  | [] => []
  | r :: rs' =>
      let r' :=
        match predecessor before r with
        | Some p => with_features r (haversine p r)
                      (PrimFloat.sub (datetime r) (datetime p))
        | None => with_features r nan nan
        end in
      r' :: features (r :: before) rs'
  end.

Definition add_columns (cs : list Column) (df : DataFrame) : list Column :=
  columns df ++ filter (fun c => negb (has_column c df)) cs.

(** Modelled from the spec: the two generators of the move dataframe built
    on the provider ("must treat each group's first point's features as
    NaN"); they differ in the columns they declare. *)
Definition generate_dist_features (df : DataFrame) : result DataFrame :=
  Ok {| index_name := index_name df;
        columns := add_columns [DIST_TO_PREV] df;
        rows := features [] (rows df) |}.

Definition generate_dist_time_speed_features (df : DataFrame) : result DataFrame :=
  Ok {| index_name := index_name df;
        columns := add_columns [DIST_TO_PREV; TIME_TO_PREV; SPEED_TO_PREV] df;
        rows := features [] (rows df) |}.

Definition same_float (a b : float) : bool :=
  (PrimFloat.is_nan a && PrimFloat.is_nan b) || PrimFloat.eqb a b.

(** Follows the spec's words (feature consistency): "for every trajectory,
    the first point's dist_to_prev/time_to_prev is NaN and every other
    point's features reflect distance/time to its current immediate
    predecessor in that trajectory". *)
Fixpoint consistent_from (before : list Row) (rs : list Row) : bool :=
  match rs with
  | [] => true
  | r :: rs' =>
      match predecessor before r with
      | Some p =>
          same_float (dist_to_prev r) (haversine p r)
          && same_float (time_to_prev r) (PrimFloat.sub (datetime r) (datetime p))
      | None => PrimFloat.is_nan (dist_to_prev r) && PrimFloat.is_nan (time_to_prev r)
      end
      && consistent_from (r :: before) rs'
  end.

Definition features_consistent (df : DataFrame) : bool :=
  consistent_from [] (rows df).

End GreatCircle.

End Provider.

Module Statements.
Import Pandas Filters Query.

(** [index.is_unique] *)
Fixpoint is_unique (ls : list Z) : bool :=
  match ls with
  | [] => true
  | l :: ls' => negb (mem_label l ls') && is_unique ls'
  end.

(** What [_filter_speed_max_radius] computes, position by position: a row is
    flagged for its own value or for the value of the row before it. *)
Fixpoint own_or_previous (a2 : float) (prev : float) (s : list float) : list bool :=
  match s with
  | [] => []
  | x :: s' => (exceeds a2 prev || exceeds a2 x) :: own_or_previous a2 x s'
  end.

(** Follows the spec's words (speed-max-radius predicate): a row is flagged
    for its own value or for the value of the row that follows it, NaN (and
    the missing follower of the last row) read as zero. *)
Fixpoint own_or_following (a2 : float) (s : list float) : list bool :=
  match s with
  | [] => []
  | x :: s' => (exceeds a2 x || exceeds a2 (hd nan s')) :: own_or_following a2 s'
  end.

(** The sum of one trajectory's [time_to_prev] as [clean_id_by_time_max]
    aggregates it. *)
Definition total_time (group_sum : list float -> float) (df : DataFrame) (i : Id)
  : float :=
  group_sum (map time_to_prev (rows_of_id df i)).

(** The keyword arguments of a threshold cleaning and its test on a row. *)
Definition threshold_kwargs (c : Column) (thr : float) : kwargs :=
  {| arg1 := Feature c; arg2 := thr; outliers_ := false |}.

Definition at_or_below (c : Column) (thr : float) (r : Row) : bool :=
  PrimFloat.leb (cell c r) thr.

(** A candidate of the range query is near when its distance to the
    reference is strictly below [min_dist]. *)
Definition near (m : Measure) (traj move_df : DataFrame) (min_dist : float)
    (i : Id) : bool :=
  PrimFloat.ltb (m traj (loc_id move_df i)) min_dist.

(** A slot of the Top-K list: its distance and the id cell recorded in it. *)
Definition Slot : Type := (float * kcell)%type.

(** Follows the spec's words (KNN query): "scan the Top-K List in order; at
    the first slot whose current distance exceeds the candidate's distance,
    overwrite that slot's (distance, id) and stop scanning this candidate". *)
Fixpoint overwrite_first_dominated (d : float) (i : Id) (l : list Slot) : list Slot :=
  match l with
  | [] => []
  | (x, c) :: l' =>
      if PrimFloat.ltb d x then (d, KObj i) :: l'
      else (x, c) :: overwrite_first_dominated d i l'
  end.

(** The same scan with the cell to write given. *)
Fixpoint overwrite_with (d : float) (id_cell : kcell) (l : list Slot) : list Slot :=
  match l with
  | [] => []
  | (x, c) :: l' =>
      if PrimFloat.ltb d x then (d, id_cell) :: l'
      else (x, c) :: overwrite_with d id_cell l'
  end.

(** What the scan of the code records for a candidate: its distance and its
    id as the column of the recorded ids keeps it. *)
Definition record_first_dominated (d : float) (i : Id) (l : list Slot) : list Slot :=
  overwrite_with d (coerce (map snd l) (KObj i)) l.

(** What a slot that was never overwritten shows as its id: the string
    'empty' when the frame's id column is the one the loop writes, the NaN
    of a column created on the first write otherwise. *)
Definition sentinel (TRAJ_ID : string) : kcell :=
  if String.eqb TRAJ_ID "traj_id" then KObj (IdStr "empty") else KNum nan.

(** Follows the spec's words: the Top-K List after the candidates [ids],
    the reference's own id skipped, from [k] sentinel slots of infinite
    distance. *)
Definition top_k (TRAJ_ID : string) (m : Measure) (traj move_df : DataFrame)
    (k : nat) (own : Id) (ids : list Id) : list Slot :=
  fold_left
    (fun l i => overwrite_first_dominated (m traj (loc_id move_df i)) i l)
    (filter (fun i => negb (Id_eqb i own)) ids)
    (repeat (infinity, sentinel TRAJ_ID) k).

(** The Top-K list as the code records it after the candidates [ids], the
    reference's own id skipped, from [k] sentinel slots of infinite
    distance. *)
Definition recorded (TRAJ_ID : string) (m : Measure) (traj move_df : DataFrame)
    (k : nat) (own : Id) (ids : list Id) : list Slot :=
  fold_left
    (fun l i => record_first_dominated (m traj (loc_id move_df i)) i l)
    (filter (fun i => negb (Id_eqb i own)) ids)
    (repeat (infinity, sentinel TRAJ_ID) k).

(** The cells of a column of the Top-K frame. *)
Definition column (k_list : KFrame) (col : string) : option (list kcell) :=
  option_map snd (find (named col) k_list).

(** The Top-K frame read slot by slot: the distance cell and the cell of
    column 'traj_id' (NaN as long as the column does not exist). *)
Definition view (k_list : KFrame) : list (kcell * kcell) :=
  match column k_list "distance" with
  | Some ds =>
      combine ds
        (match column k_list "traj_id" with
         | Some ts => ts
         | None => repeat (KNum nan) (length ds)
         end)
  | None => []
  end.

Definition as_cells (l : list Slot) : list (kcell * kcell) :=
  map (fun s => (KNum (fst s), snd s)) l.

Definition distances (v : list Slot) : list kcell :=
  map (fun s => KNum (fst s)) v.

(** The frames the Top-K list goes through, for the slots [v] they hold:
    the id column is the column the loop writes; or it is another one and
    no slot was written yet; or it is another one and the written column
    stands last. *)
Inductive represents (TRAJ_ID : string) (v : list Slot) : KFrame -> Prop :=
| rep_same :
    TRAJ_ID = "traj_id"%string ->
    represents TRAJ_ID v
      [("distance"%string, distances v); ("traj_id"%string, map snd v)]
| rep_fresh (es : list kcell) :
    TRAJ_ID <> "traj_id"%string -> TRAJ_ID <> "distance"%string ->
    map snd v = repeat (KNum nan) (length v) ->
    represents TRAJ_ID v
      [("distance"%string, distances v); (TRAJ_ID, es)]
| rep_added (es : list kcell) :
    TRAJ_ID <> "traj_id"%string -> TRAJ_ID <> "distance"%string ->
    represents TRAJ_ID v
      [("distance"%string, distances v); (TRAJ_ID, es);
       ("traj_id"%string, map snd v)].

(** Follows the spec's words (KNN result): "the concatenation, in slot
    order, of all points belonging to each slot's recorded trajectory id". *)
Definition slot_points (move_df : DataFrame) (l : list (kcell * kcell)) : list Row :=
  flat_map (fun s => filter (cell_is (snd s)) (rows move_df)) l.

End Statements.

Module Examples.
Import Pandas Filters.

Local Open Scope float_scope.

(** The points of the examples sit on one line: [lat] is the position along
    it in metres, and the distance between two points is the gap. *)
Definition line_distance (p r : Row) : float := abs (lat r - lat p).

Definition generate_dist_features := Provider.generate_dist_features line_distance.
Definition generate_dist_time_speed_features :=
  Provider.generate_dist_time_speed_features line_distance.

(** [pandas] grouped sum, NaN skipped. *)
Definition nansum (l : list float) : float :=
  fold_left (fun acc x => if is_nan x then acc else acc + x) l 0.

Definition point (l : Z) (i : Z) (position time d t s : float) : Row :=
  {| label := l; traj_id := IdInt i; lat := position; lon := 0;
     datetime := time; dist_to_prev := d; time_to_prev := t;
     speed_to_prev := s; outlier := false |}.

Definition with_all (rs : list Row) : DataFrame :=
  {| index_name := None;
     columns := [DIST_TO_PREV; TIME_TO_PREV; SPEED_TO_PREV];
     rows := rs |}.

(** One trajectory: 5 m in 10 s, then 20 m in 10 s. *)
Definition P0 : Row := point 0 1 0 0 nan nan nan.
Definition P1 : Row := point 1 1 5 10 5 10 0.5.
Definition P2 : Row := point 2 1 25 20 20 10 2.
Definition near_then_far : DataFrame := with_all [P0; P1; P2].

(** Two trajectories; the first ends on a fast leg (200 m in 2 s). *)
Definition Q0 : Row := point 0 1 0 0 nan nan nan.
Definition Q1 : Row := point 1 1 200 2 200 2 100.
Definition Q2 : Row := point 2 2 0 0 nan nan nan.
Definition Q3 : Row := point 3 2 10 10 10 10 1.
Definition two_trajectories : DataFrame := with_all [Q0; Q1; Q2; Q3].

(** A, B, C with a fast first leg and a slow second one (speeds 100, 10). *)
Definition FA : Row := point 0 1 0 0 nan nan nan.
Definition FB : Row := point 1 1 1000 10 1000 10 100.
Definition FC : Row := point 2 1 1100 20 100 10 10.
Definition fast_then_slow : DataFrame := with_all [FA; FB; FC].

(** A, B, C with a slow first leg and a fast second one (speeds 10, 100). *)
Definition SA : Row := point 0 1 0 0 nan nan nan.
Definition SB : Row := point 1 1 100 10 100 10 10.
Definition SC : Row := point 2 1 1100 20 1000 10 100.
Definition slow_then_fast : DataFrame := with_all [SA; SB; SC].

(** Two ids: the first gathers 30 s, the second 4000 s. *)
Definition T0 : Row := point 0 1 0 0 nan nan nan.
Definition T1 : Row := point 1 1 5 30 5 30 (5 / 30).
Definition T2 : Row := point 2 2 0 0 nan nan nan.
Definition T3 : Row := point 3 2 9 4000 9 4000 (9 / 4000).
Definition short_and_long : DataFrame := with_all [T0; T1; T2; T3].

(** Two frames put one after the other, each with its own labels: the
    trajectory of [short_and_long] that gathers 30 s under the labels 0 and
    1, the one that gathers 4000 s under the labels 0 and 5. *)
Definition U0 : Row := point 0 1 0 0 nan nan nan.
Definition U1 : Row := point 1 1 5 30 5 30 (5 / 30).
Definition V0 : Row := point 0 2 0 0 nan nan nan.
Definition V1 : Row := point 5 2 9 4000 9 4000 (9 / 4000).
Definition concatenated : DataFrame := with_all [U0; U1; V0; V1].

(** The values PyMove gives the imported constants. *)
Definition MEDP : string := "MEDP".
Definition MEDT : string := "MEDT".
Definition TRAJ_ID : string := "id".

Definition mean (l : list float) : float :=
  fold_left PrimFloat.add l 0 / fold_left (fun n _ => n + 1) l 0.

(** Stand-ins for the two measures on the line of the examples: the mean gap
    between the points paired by position, up to the shorter length; the
    second adds the gap between the paired timestamps. *)
Definition line_medp (traj this : DataFrame) : float :=
  mean (map (fun p => line_distance (fst p) (snd p))
          (combine (rows traj) (rows this))).

Definition line_medt (traj this : DataFrame) : float :=
  mean (map (fun p => line_distance (fst p) (snd p)
                      + abs (datetime (snd p) - datetime (fst p)))
          (combine (rows traj) (rows this))).

Definition named_point (l : Z) (i : string) (position time : float) : Row :=
  {| label := l; traj_id := IdStr i; lat := position; lon := 0;
     datetime := time; dist_to_prev := nan; time_to_prev := nan;
     speed_to_prev := nan; outlier := false |}.

Definition plain (rs : list Row) : DataFrame :=
  {| index_name := None; columns := []; rows := rs |}.

(** The reference trajectory R: one point at the origin. *)
Definition R0 : Row := named_point 0 "R" 0 0.
Definition reference : DataFrame := plain [R0].

(** Candidates A (5 m away), B (2 m), C (9 m), D (1 m), met in this order,
    with R itself among them and a second point of A at the end. *)
Definition KA0 : Row := named_point 0 "A" 5 0.
Definition KR0 : Row := named_point 1 "R" 0 0.
Definition KB0 : Row := named_point 2 "B" 2 0.
Definition KC0 : Row := named_point 3 "C" 9 0.
Definition KD0 : Row := named_point 4 "D" 1 0.
Definition KA1 : Row := named_point 5 "A" 6 10.
Definition neighbours : DataFrame := plain [KA0; KR0; KB0; KC0; KD0; KA1].

(** Candidates A (800 m away), B (1500 m), C (950 m), points interleaved. *)
Definition RA0 : Row := named_point 0 "A" 800 0.
Definition RB0 : Row := named_point 1 "B" 1500 0.
Definition RC0 : Row := named_point 2 "C" 950 0.
Definition RA1 : Row := named_point 3 "A" 810 10.
Definition RC1 : Row := named_point 4 "C" 960 10.
Definition in_range : DataFrame := plain [RA0; RB0; RC0; RA1; RC1].

(** Only the reference itself is around. *)
Definition alone : DataFrame := plain [KR0].

End Examples.

(* ===================================================================== *)
(** ** preprocessing/filters.py: the single-pass filters *)
(* ===================================================================== *)

Module Selection.
Import Pandas Filters.

(** A column label as a frame resolves it: the cell the column holds in each
    row, or nothing when the frame has no such column (then [move_data[label]]
    raises KeyError). *)
Definition Label (V : Type) : Type := option (Row -> V).

(** The id column, which every frame of the model carries. *)
Definition TRAJ_ID : Label Id := Some traj_id.

(** [move_data.drop(index=move_data[~filter_].index, inplace=inplace)]: the
    labels of the rows outside the mask go; with [inplace] the caller's frame
    changes and None is returned, otherwise the caller's frame stays and the
    new one is returned. *)
Definition drop_outside (move_data : DataFrame) (filter_ : list bool) (inplace : bool)
  : result (DataFrame * option DataFrame) :=
  kept <- drop (index (mask move_data (map negb filter_))) move_data ;;
  Ok (outcome inplace move_data kept).

Definition inside (bbox : float * float * float * float) (r : Row) : bool :=
  let '(b0, b1, b2, b3) := bbox in
  PrimFloat.leb b0 (lat r) && PrimFloat.leb b1 (lon r)
  && PrimFloat.leb (lat r) b2 && PrimFloat.leb (lon r) b3.

Definition by_bbox (move_data : DataFrame) (bbox : float * float * float * float)
    (filter_out inplace : bool) : result (DataFrame * option DataFrame) :=
  let filter_ := map (inside bbox) (rows move_data) in
  let filter_ := if filter_out then map negb filter_ else filter_ in
  drop_outside move_data filter_ inplace.

Section ByDatetime.

(** What pandas answers when the time column is compared with None (both
    bounds left out): its own business, kept as it is. *)
Variable compared_with_None : DataFrame -> result (list bool).

Definition by_datetime (move_data : DataFrame)
    (start_datetime end_datetime : option float) (filter_out inplace : bool)
  : result (DataFrame * option DataFrame) :=
  filter_ <-
    match start_datetime, end_datetime with
    | Some s, Some e =>
        Ok (map (fun r => PrimFloat.leb s (datetime r) && PrimFloat.leb (datetime r) e)
              (rows move_data))
    | _, Some e => Ok (map (fun r => PrimFloat.leb (datetime r) e) (rows move_data))
    | Some s, None => Ok (map (fun r => PrimFloat.leb s (datetime r)) (rows move_data))
    | None, None => compared_with_None move_data
    end ;;
  let filter_ := if filter_out then map negb filter_ else filter_ in
  drop_outside move_data filter_ inplace.

End ByDatetime.

Section ByLabel.

(** The values of the column and their [==]. *)
Variable V : Type.
Variable eqb : V -> V -> bool.

Definition by_label (move_data : DataFrame) (value : V) (label_name : Label V)
    (filter_out inplace : bool) : result (DataFrame * option DataFrame) :=
  match label_name with
  | None => Raise KeyError
  | Some column =>
      let filter_ := map (fun r => eqb (column r) value) (rows move_data) in
      let filter_ := if filter_out then map negb filter_ else filter_ in
      drop_outside move_data filter_ inplace
  end.

End ByLabel.

Arguments by_label {V} eqb move_data value label_name filter_out inplace.

Definition by_id (move_data : DataFrame) (id_ : Id) (label_id : Label Id)
    (filter_out inplace : bool) : result (DataFrame * option DataFrame) :=
  by_label Id_eqb move_data id_ label_id filter_out inplace.

Section ByTid.

(** The column the constant TID names, which the rows of the model do not
    carry. *)
Variable TID : Label Id.

Definition by_tid (move_data : DataFrame) (tid_ : Id) (filter_out inplace : bool)
  : result (DataFrame * option DataFrame) :=
  by_label Id_eqb move_data tid_ TID filter_out inplace.

End ByTid.

(** The columns of a frame that [clean_consecutive_duplicates] can compare. *)
Inductive ColName : Type :=
| C_TRAJ_ID | C_LATITUDE | C_LONGITUDE | C_DATETIME
| C_derived (c : Column).

(** A cell as [!=] sees it; [VNaN] is the NaN that a shift puts into a column
    of objects. *)
Inductive value : Type :=
| VId (i : Id)
| VNum (x : float)
| VBool (b : bool)
| VNaN.

Definition value_of (c : ColName) (r : Row) : value :=
  match c with
  | C_TRAJ_ID => VId (traj_id r)
  | C_LATITUDE => VNum (lat r)
  | C_LONGITUDE => VNum (lon r)
  | C_DATETIME => VNum (datetime r)
  | C_derived OUTLIER => VBool (outlier r)
  | C_derived c => VNum (cell c r)
  end.

(** [a != b], cell by cell: NaN differs from everything, itself included.
    Ids reach the comparison as they are only from a column of objects; the
    ids of an int64 column reach it as floats (see [compared] below). *)
Definition ne (a b : value) : bool :=
  match a, b with
  | VId i, VId j => negb (Id_eqb i j)
  | VNum x, VNum y => negb (PrimFloat.eqb x y)
  | VBool x, VBool y => negb (Bool.eqb x y)
  | _, _ => true
  end.

Definition present (df : DataFrame) (c : ColName) : bool :=
  match c with
  | C_derived d => has_column d df
  | _ => true
  end.

Definition all_columns (df : DataFrame) : list ColName :=
  [C_TRAJ_ID; C_LATITUDE; C_LONGITUDE; C_DATETIME] ++ map C_derived (columns df).

Inductive Keep : Type := keep_first | keep_last | keep_False.

(** The id column is an int64 column: every id is an integer of 64 bits. *)
Definition int64 (z : Z) : bool := (- 2 ^ 63 <=? z)%Z && (z <? 2 ^ 63)%Z.

Definition int64_ids (df : DataFrame) : bool :=
  forallb (fun r => match traj_id r with
                    | IdInt z => int64 z
                    | IdStr _ => false
                    end) (rows df).

(** A cell as the comparison with the shifted frame sees it. The shift puts
    a NaN into every column, which turns an int64 column into a float64
    column: there the ids are compared as floats. *)
Definition compared (as_float64 : bool) (c : ColName) (r : Row) : value :=
  match c, traj_id r with
  | C_TRAJ_ID, IdInt z =>
      if as_float64 then VNum (float_of_int z) else VId (IdInt z)
  | _, _ => value_of c r
  end.

(** [(frame.shift(n) != frame).any(axis=1)] over the columns [cs]: each row
    against the row [n] places before it, the rows a shift leaves without a
    partner against NaN in every column. *)
Definition differs (as_float64 : bool) (cs : list ColName) (partner : option Row)
    (r : Row) : bool :=
  match partner with
  | Some p =>
      existsb (fun c => ne (compared as_float64 c p) (compared as_float64 c r)) cs
  | None => existsb (fun c => ne VNaN (compared as_float64 c r)) cs
  end.

Fixpoint differs_from_previous (as_float64 : bool) (cs : list ColName)
    (prev : option Row) (rs : list Row) : list bool :=
  match rs with
  | [] => []
  | r :: rs' =>
      differs as_float64 cs prev r
      :: differs_from_previous as_float64 cs (Some r) rs'
  end.

Fixpoint differs_from_next (as_float64 : bool) (cs : list ColName) (rs : list Row)
  : list bool :=
  match rs with
  | [] => []
  | r :: rs' =>
      differs as_float64 cs (hd_error rs') r :: differs_from_next as_float64 cs rs'
  end.

Inductive Subset : Type :=
| no_subset
| one_label (c : ColName)
| labels (cs : list ColName).

(** The columns the comparison runs over: all of them without a subset;
    [move_data[subset]] otherwise, a KeyError when a label is missing. A
    single label selects a series, which has no axis 1 for [any]. *)
Definition compared_columns (move_data : DataFrame) (subset : Subset)
  : result (list ColName) :=
  match subset with
  | no_subset => Ok (all_columns move_data)
  | one_label c =>
      if present move_data c
      then Raise (ValueError "No axis named 1 for object type Series")
      else Raise KeyError
  | labels cs =>
      if forallb (present move_data) cs then Ok cs else Raise KeyError
  end.

Definition clean_consecutive_duplicates (move_data : DataFrame) (subset : Subset)
    (keep : Keep) (inplace : bool) : result (DataFrame * option DataFrame) :=
  cs <- compared_columns move_data subset ;;
  let as_float64 := int64_ids move_data in
  let filter_ :=
    match keep with
    | keep_first =>                                                  (* n = 1 *)
        differs_from_previous as_float64 cs None (rows move_data)
    | _ => differs_from_next as_float64 cs (rows move_data)          (* n = -1 *)
    end in
  drop_outside move_data filter_ inplace.

End Selection.

(* ===================================================================== *)
(** ** preprocessing/filters.py: the filters on whole trajectories *)
(* ===================================================================== *)

Module Trajectories.
Import Pandas Filters Selection.

(** [groupby(label).size()] at one key. *)
Definition group_size (column : Row -> Id) (df : DataFrame) (i : Id) : nat :=
  length (filter (fun r => Id_eqb (column r) i) (rows df)).

Definition is_in (column : Row -> Id) (ids : list Id) (r : Row) : bool :=
  existsb (Id_eqb (column r)) ids.

Definition clean_trajectories_with_few_points (move_data : DataFrame)
    (label_tid : Label Id) (min_points_per_trajectory : Z) (inplace : bool)
  : result (DataFrame * option DataFrame) :=
  let original := move_data in
  match label_tid with
  | None => Raise KeyError
  | Some tid =>
      move_data <- enter move_data ;;
      let tids_with_few_points :=
        filter
          (fun i => Z.ltb (Z.of_nat (group_size tid move_data i))
                      min_points_per_trajectory)
          (unique (map tid (rows move_data))) in
      let idx :=
        index (mask move_data (map (is_in tid tids_with_few_points) (rows move_data))) in
      match idx with
      | _ :: _ =>
          move_data <- drop idx move_data ;;
          Ok (outcome inplace original move_data)
      | [] => Ok (outcome inplace original move_data)
      end
  end.

Section ShortAndFew.

Variable generate_dist_features : DataFrame -> result DataFrame.
Variable group_sum : list float -> float.



End ShortAndFew.

End Trajectories.

Module Grouping.
Import Pandas Trajectories.

(** The group of [i] has fewer than [min_points] rows in [df]. *)
Definition too_few (column : Row -> Id) (min_points : Z) (df : DataFrame) (i : Id)
  : bool :=
  Z.ltb (Z.of_nat (group_size column df i)) min_points.




End Grouping.

Module Slots.
Import Pandas Query Statements.

(** The cell [c] holds the id [i] as a column of recorded ids keeps it: as
    it is, or, for an integer in a float64 column, as its float. *)
Definition holds (c : kcell) (i : Id) : Prop :=
  c = KObj i \/ exists z, i = IdInt z /\ c = KNum (float_of_int z).

(** A slot of the Top-K list over the candidates [cs]: the sentinel under an
    infinite distance, or a candidate under its distance, which is below
    infinity. *)
Definition slot_of (TRAJ_ID : string) (m : Measure) (traj move_df : DataFrame)
    (cs : list Id) (s : Slot) : Prop :=
  (fst s = infinity /\ snd s = sentinel TRAJ_ID) \/
  exists i, In i cs /\ fst s = m traj (loc_id move_df i) /\ holds (snd s) i /\
            PrimFloat.ltb (fst s) infinity = true.

(** The candidates of the k-nearest-neighbour query: the distinct ids of the
    candidate frame in order of first appearance, the reference's own id
    left out. *)
Definition candidates (move_df : DataFrame) (own : Id) : list Id :=
  filter (fun i => negb (Id_eqb i own)) (unique (map traj_id (rows move_df))).

(** No two integer ids among [ids] are one number to float64. *)
Definition float64_distinct (ids : list Id) : Prop :=
  forall z z', In (IdInt z) ids -> In (IdInt z') ids ->
    PrimFloat.eqb (float_of_int z) (float_of_int z') = true -> z = z'.

End Slots.

(** The closing step of the order lemmas below: cases on what two
    comparisons say, then linear arithmetic. *)
Ltac order_steps :=
  repeat match goal with
         | H : _ /\ _ |- _ => destruct H
         | H : _ \/ _ |- _ => destruct H
         end;
  subst;
  first [ split; reflexivity
        | left; lia
        | right; split; [reflexivity | lia] ].

(* ===================================================================== *)
(** ** Frames for the examples of the filters *)
(* ===================================================================== *)

Module Samples.
Import Pandas.

Local Open Scope float_scope.

Definition at_ (l : Z) (i : Z) (latitude longitude time : float) : Row :=
  {| label := l; traj_id := IdInt i; lat := latitude; lon := longitude;
     datetime := time; dist_to_prev := nan; time_to_prev := nan;
     speed_to_prev := nan; outlier := false |}.

Definition bare (rs : list Row) : DataFrame :=
  {| index_name := None; columns := []; rows := rs |}.

(** Three points of trajectory 1 and two of trajectory 2; the second point
    of trajectory 1 has no latitude. *)
Definition S0 : Row := at_ 0 1 1 1 0.
Definition S1 : Row := at_ 1 1 nan 2 10.
Definition S2 : Row := at_ 2 1 5 5 20.
Definition S3 : Row := at_ 3 2 2 2 0.
Definition S4 : Row := at_ 4 2 9 9 30.
Definition scattered : DataFrame := bare [S0; S1; S2; S3; S4].

(** A point recorded twice in a row, then a move, then the first point
    again. *)
Definition D0 : Row := at_ 0 1 1 1 0.
Definition D1 : Row := at_ 1 1 1 1 0.
Definition D2 : Row := at_ 2 1 2 2 10.
Definition D3 : Row := at_ 3 1 1 1 0.
Definition repeated : DataFrame := bare [D0; D1; D2; D3].

(** Three points alike but for their ids, 2^53, 2^53 + 1 and 2^53 + 3:
    float64 holds the first two as one number. *)
Definition G0 : Row := at_ 0 9007199254740992 1 1 0.
Definition G1 : Row := at_ 1 9007199254740993 1 1 0.
Definition G2 : Row := at_ 2 9007199254740995 1 1 0.
Definition close_ids : DataFrame := bare [G0; G1; G2].


(** The same rows under an index named like the id column. *)
Definition by_id : DataFrame :=
  {| index_name := Some "id"%string; columns := [];
     rows := [at_ 0 1 1 1 0; at_ 0 2 3 3 0; at_ 10 2 4 4 10] |}.

(** One trajectory of one point between two of two points, with distances
    to the previous point. *)
Definition leg (l : Z) (i : Z) (position time d : float) : Row :=
  {| label := l; traj_id := IdInt i; lat := position; lon := 0;
     datetime := time; dist_to_prev := d; time_to_prev := nan;
     speed_to_prev := nan; outlier := false |}.

Definition with_dist (rs : list Row) : DataFrame :=
  {| index_name := None; columns := [DIST_TO_PREV]; rows := rs |}.

Definition L0 : Row := leg 0 1 0 0 nan.
Definition L1 : Row := leg 1 1 500 60 500.
Definition L2 : Row := leg 2 2 0 0 nan.
Definition L3 : Row := leg 3 3 0 0 nan.
Definition L4 : Row := leg 4 3 20 60 20.
Definition legs : DataFrame := with_dist [L0; L1; L2; L3; L4].

(** Three points of one trajectory, the first two under one label. *)
Definition H0 : Row := Examples.point 0 1 0 0 nan nan nan.
Definition H1 : Row := Examples.point 0 1 5 10 5 10 0.5.
Definition H2 : Row := Examples.point 1 1 25 20 20 10 2.
Definition shared_labels : DataFrame := Examples.with_all [H0; H1; H2].

(** A candidate that no finite distance reaches, next to the reference. *)
Definition Z0 : Row := Examples.named_point 0 "Z" infinity 0.
Definition out_of_reach : DataFrame := Examples.plain [Examples.KR0; Z0].

(** A reference with the integer id 0 and its candidates 1 (5 m away), 0
    itself, 2 (2 m) and 3 (9 m). *)
Definition numbered_reference : DataFrame := bare [at_ 0 0 0 0 0].
Definition N1 : Row := at_ 0 1 5 0 0.
Definition N0 : Row := at_ 1 0 0 0 0.
Definition N2 : Row := at_ 2 2 2 0 0.
Definition N3 : Row := at_ 3 3 9 0 0.
Definition numbered : DataFrame := bare [N1; N0; N2; N3].

(** A reference with the id 2^53 and, next to it in the candidate frame, a
    trajectory with the id 2^53 + 1, 3 m away. *)
Definition twin_reference : DataFrame := bare [at_ 0 9007199254740992 0 0 0].
Definition W0 : Row := at_ 0 9007199254740992 0 0 0.
Definition W1 : Row := at_ 1 9007199254740993 3 0 0.
Definition twins : DataFrame := bare [W0; W1].

(** The same three points under an index named like the latitude column. *)
Definition by_lat : DataFrame :=
  {| index_name := Some "lat"%string;
     columns := [DIST_TO_PREV; TIME_TO_PREV; SPEED_TO_PREV];
     rows := [H0; H1; H2] |}.

End Samples.

(* ===================================================================== *)
(** ** Properties of the cleaning loop *)
(* ===================================================================== *)

Section LoopFacts.
Import Pandas Filters.

Lemma filter_length_le {A : Type} (p : A -> bool) (l : list A) :
  length (filter p l) <= length l.
Proof.
  induction l as [|x l IH]; simpl; [lia|].
  destruct (p x); simpl; lia.
Qed.

Lemma filter_length_lt {A : Type} (p : A -> bool) (l : list A) (x : A) :
  In x l -> p x = false -> length (filter p l) < length l.
Proof.
  induction l as [|y l IH]; simpl; intros Hin Hp; [contradiction|].
  destruct Hin as [-> | Hin].
  - rewrite Hp. pose proof (filter_length_le p l). lia.
  - specialize (IH Hin Hp). destruct (p y); simpl; lia.
Qed.

Lemma mem_label_In (l : Z) (ls : list Z) : mem_label l ls = true <-> In l ls.
Proof.
  unfold mem_label. rewrite existsb_exists. split.
  - intros [y [Hy Heq]]. apply Z.eqb_eq in Heq. now subst.
  - intros H. exists l. split; [assumption | apply Z.eqb_refl].
Qed.

Lemma drop_shrinks (labels : list Z) (md md' : DataFrame) :
  labels <> [] -> drop labels md = Ok md' -> shape0 md' < shape0 md.
Proof.
  unfold drop, shape0. intros Hne H.
  destruct (forallb _ labels) eqn:Hall; [|discriminate].
  injection H as <-. simpl.
  destruct labels as [|l ls]; [congruence|].
  simpl in Hall. apply andb_prop in Hall as [Hl _].
  apply mem_label_In in Hl. unfold index in Hl.
  apply in_map_iff in Hl as [r [Hr Hin]].
  apply (filter_length_lt _ _ r Hin).
  rewrite Hr. simpl. now rewrite Z.eqb_refl.
Qed.

Lemma _filter_data_count (md : DataFrame) (f : Callable) (kw : kwargs)
    (fdp : DataFrame) (n : nat) :
  _filter_data md f kw = Ok (fdp, n) -> n = shape0 fdp.
Proof.
  unfold _filter_data.
  destruct (outliers_ kw); destruct (f md (arg1 kw) (arg2 kw)) as [d|e]; simpl;
    try discriminate.
  - destruct (has_column OUTLIER d); [|discriminate].
    intros H. injection H as <- <-. reflexivity.
  - intros H. injection H as <- <-. reflexivity.
Qed.

Lemma iteration_shrinks (f : Callable) (kw : kwargs) (md md' : DataFrame) :
  iteration f kw md md' -> shape0 md' < shape0 md.
Proof.
  intros [m fdp m' n Hf Hd].
  apply drop_shrinks with (labels := index fdp); [|assumption].
  apply _filter_data_count in Hf. unfold shape0 in Hf. unfold index.
  destruct (rows fdp); [discriminate|]. simpl. discriminate.
Qed.

Lemma loop_stops (f : Callable) (kw : kwargs) (fuel : nat) (md fdp : DataFrame) :
  _clean_gps_loop fuel f kw md fdp O = Some (Ok md).
Proof. destruct fuel; reflexivity. Qed.

Lemma loop_has_fuel (f : Callable) (kw : kwargs) (fuel : nat) :
  forall md fdp, shape0 md < fuel ->
    exists r, _clean_gps_loop fuel f kw md fdp (shape0 fdp) = Some r.
Proof.
  induction fuel as [|fuel IH]; intros md fdp Hlt; [lia|].
  destruct (shape0 fdp) as [|n] eqn:Hn.
  - simpl. eauto.
  - simpl. destruct (drop (index fdp) md) as [md'|e] eqn:Hd; [|eauto].
    destruct (_filter_data md' f kw) as [[fdp' n']|e] eqn:Hf; [|eauto].
    rewrite (_filter_data_count _ _ _ _ _ Hf).
    apply IH.
    assert (shape0 md' < shape0 md); [|lia].
    apply drop_shrinks with (labels := index fdp); [|assumption].
    unfold index, shape0 in *. destruct (rows fdp); [discriminate|]. simpl. discriminate.
Qed.

Lemma loop_fuel_mono (f : Callable) (kw : kwargs) (fuel : nat) :
  forall md fdp n r fuel',
    _clean_gps_loop fuel f kw md fdp n = Some r ->
    fuel <= fuel' ->
    _clean_gps_loop fuel' f kw md fdp n = Some r.
Proof.
  induction fuel as [|fuel IH]; intros md fdp n r fuel' Hrun Hle.
  - destruct n; simpl in Hrun; [|discriminate].
    rewrite loop_stops. exact Hrun.
  - destruct fuel' as [|fuel']; [lia|].
    destruct n as [|n]; simpl in *; [exact Hrun|].
    destruct (drop (index fdp) md) as [md'|e]; [|exact Hrun].
    destruct (_filter_data md' f kw) as [[fdp' n']|e]; [|exact Hrun].
    apply IH; [exact Hrun | lia].
Qed.

Lemma loop_reaches (f : Callable) (kw : kwargs) (fuel : nat) :
  forall md fdp n out,
    _filter_data md f kw = Ok (fdp, n) ->
    _clean_gps_loop fuel f kw md fdp n = Some (Ok out) ->
    clos_refl_trans _ (iteration f kw) md out /\
    exists fdp', _filter_data out f kw = Ok (fdp', O).
Proof.
  induction fuel as [|fuel IH]; intros md fdp n out Hf Hrun.
  - destruct n; simpl in Hrun; [|discriminate].
    injection Hrun as <-. split; [apply rt_refl | eauto].
  - destruct n as [|n]; simpl in Hrun.
    + injection Hrun as <-. split; [apply rt_refl | eauto].
    + destruct (drop (index fdp) md) as [md'|e] eqn:Hd; [|discriminate].
      destruct (_filter_data md' f kw) as [[fdp' n']|e] eqn:Hf'; [|discriminate].
      destruct (IH _ _ _ _ Hf' Hrun) as [Hsteps Hend].
      split; [|assumption].
      apply rt_trans with md'; [|assumption].
      apply rt_step. econstructor; eassumption.
Qed.

Lemma drop_incl (labels : list Z) (md md' : DataFrame) :
  drop labels md = Ok md' -> incl (rows md') (rows md).
Proof.
  unfold drop. destruct (forallb _ labels); [|discriminate].
  intros H. injection H as <-. simpl. intros r Hin.
  now apply filter_In in Hin as [Hin _].
Qed.

Lemma passes_incl (f : Callable) (kw : kwargs) (md out : DataFrame) :
  clos_refl_trans _ (iteration f kw) md out -> incl (rows out) (rows md).
Proof.
  induction 1 as [x y Hit | x | x y z _ IH1 _ IH2].
  - destruct Hit as [m fdp m' n _ Hd]. exact (drop_incl _ _ _ Hd).
  - apply incl_refl.
  - eapply incl_tran; eassumption.
Qed.

Lemma enter_entry (md md' : DataFrame) : enter md = Ok md' -> md' = entry md.
Proof.
  unfold enter, entry, reset_index. destruct (index_name md) as [name|].
  - destruct (is_label md name); [discriminate|]. now intros [= <-].
  - now intros [= <-].
Qed.

Lemma enter_unnamed (md : DataFrame) : index_name md = None -> enter md = Ok md.
Proof. unfold enter. now intros ->. Qed.

(** The index reset goes through exactly when the index is not named like a
    column of the frame. *)
Lemma enter_clear (md : DataFrame) :
  index_clashes md = false -> enter md = Ok (entry md).
Proof.
  unfold index_clashes, enter, entry, reset_index.
  destruct (index_name md) as [name|]; [|reflexivity]. now intros ->.
Qed.

Lemma enter_clash (md : DataFrame) :
  index_clashes md = true -> exists msg, enter md = Raise (ValueError msg).
Proof.
  unfold index_clashes, enter, reset_index.
  destruct (index_name md) as [name|]; [|discriminate]. intros ->. eauto.
Qed.

(** The loop removes rows and writes no cell: every row of the frame it
    returns is a row of the frame it started from. *)
Lemma clean_gps_rows_kept (f : Callable) (kw : kwargs) (move_data out : DataFrame) :
  _clean_gps move_data f kw = Some (Ok out) ->
  incl (rows out) (rows (entry move_data)).
Proof.
  unfold _clean_gps. intros H.
  destruct (enter move_data) as [md|e] eqn:He; [|discriminate].
  apply enter_entry in He. subst md.
  destruct (_filter_data (entry move_data) f kw) as [[fdp n]|e] eqn:Hf; [|discriminate].
  apply passes_incl with (f := f) (kw := kw).
  exact (proj1 (loop_reaches _ _ _ _ _ _ _ Hf H)).
Qed.

(** A run that returns started from the frame after the reset. *)
Lemma clean_gps_entered (f : Callable) (kw : kwargs) (move_data out : DataFrame) :
  _clean_gps move_data f kw = Some (Ok out) -> enter move_data = Ok (entry move_data).
Proof.
  unfold _clean_gps. destruct (enter move_data) as [md|e] eqn:He; [|discriminate].
  intros _. now rewrite (enter_entry _ _ He).
Qed.

Lemma clean_gps_from_entry (f : Callable) (kw : kwargs) (move_data : DataFrame) :
  enter move_data = Ok (entry move_data) ->
  _clean_gps move_data f kw
  = match _filter_data (entry move_data) f kw with
    | Raise e => Some (Raise e)
    | Ok (fdp, n) =>
        _clean_gps_loop (S (shape0 (entry move_data))) f kw (entry move_data) fdp n
    end.
Proof. unfold _clean_gps. now intros ->. Qed.

(** What the loop computes is a run of passes. *)
Lemma loop_ends (f : Callable) (kw : kwargs) (fuel : nat) :
  forall md fdp n r,
    _filter_data md f kw = Ok (fdp, n) ->
    _clean_gps_loop fuel f kw md fdp n = Some r ->
    ends f kw md r.
Proof.
  induction fuel as [|fuel IH]; intros md fdp n r Hf Hrun.
  - destruct n; simpl in Hrun; [|discriminate].
    injection Hrun as <-. eapply ends_stop; eassumption.
  - destruct n as [|n]; simpl in Hrun.
    + injection Hrun as <-. eapply ends_stop; eassumption.
    + destruct (drop (index fdp) md) as [md'|e] eqn:Hd.
      * assert (Hit : iteration f kw md md') by (econstructor; eassumption).
        destruct (_filter_data md' f kw) as [[fdp' n']|e] eqn:Hf'.
        -- eapply ends_pass; [exact Hit|]. eapply IH; eassumption.
        -- injection Hrun as <-. eapply ends_pass; [exact Hit|].
           now apply ends_predicate.
      * injection Hrun as <-. eapply ends_drop; eassumption.
Qed.

Lemma ends_reaches (f : Callable) (kw : kwargs) (md : DataFrame) (r : result DataFrame) :
  ends f kw md r ->
  forall out, r = Ok out ->
    clos_refl_trans _ (iteration f kw) md out /\
    exists fdp, _filter_data out f kw = Ok (fdp, O).
Proof.
  induction 1 as [md fdp Hf | md e Hf | md fdp n e Hf Hd | md md' r Hit _ IH];
    intros out Hr; try discriminate.
  - injection Hr as <-. split; [apply rt_refl | eauto].
  - destruct (IH out Hr) as [Hsteps Hend]. split; [|exact Hend].
    apply rt_trans with md'; [now apply rt_step | exact Hsteps].
Qed.

Lemma ends_at_once (f : Callable) (kw : kwargs) (md fdp : DataFrame)
    (r : result DataFrame) :
  _filter_data md f kw = Ok (fdp, O) -> ends f kw md r -> r = Ok md.
Proof.
  intros Hf H. inversion H; subst; try congruence.
  match goal with Hit : iteration _ _ _ _ |- _ => inversion Hit; subst end.
  congruence.
Qed.

Lemma iteration_once (f : Callable) (kw : kwargs) (md md1 md2 : DataFrame) :
  iteration f kw md md1 -> iteration f kw md md2 -> md1 = md2.
Proof.
  intros H1 H2. inversion H1; subst. inversion H2; subst. congruence.
Qed.

(** A run ends in one way only. *)
Lemma ends_once (f : Callable) (kw : kwargs) (md : DataFrame) (r : result DataFrame) :
  ends f kw md r -> forall r', ends f kw md r' -> r = r'.
Proof.
  induction 1 as [md fdp Hf | md e Hf | md fdp n e Hf Hd | md md' r Hit _ IH];
    intros r' H'.
  - symmetry. eapply ends_at_once; eassumption.
  - inversion H'; subst; try congruence.
    match goal with Hit : iteration _ _ _ _ |- _ => inversion Hit; subst end.
    congruence.
  - inversion H'; subst; try congruence.
    match goal with Hit : iteration _ _ _ _ |- _ => inversion Hit; subst end.
    congruence.
  - inversion H'; subst.
    + inversion Hit; subst. congruence.
    + inversion Hit; subst. congruence.
    + inversion Hit; subst. congruence.
    + match goal with
      | Hit' : iteration _ _ md ?m |- _ =>
          rewrite <- (iteration_once f kw md md' m Hit Hit') in *
      end.
      now apply IH.
Qed.

(** After a pass the run goes on as the run from the frame that is left. *)
Lemma ends_after_pass (f : Callable) (kw : kwargs) (md md' : DataFrame)
    (r : result DataFrame) :
  iteration f kw md md' -> ends f kw md r -> ends f kw md' r.
Proof.
  intros Hit H. inversion H; subst.
  - inversion Hit; subst. congruence.
  - inversion Hit; subst. congruence.
  - inversion Hit; subst. congruence.
  - match goal with
    | Hit' : iteration _ _ md ?m |- _ =>
        rewrite (iteration_once f kw md md' m Hit Hit')
    end.
    assumption.
Qed.

End LoopFacts.

(** C7. The loop of [_clean_gps] terminates for every frame and every
    filtering function: the run never outlives its fuel, and more fuel never
    changes its outcome. Once the index reset has gone through, what the
    run does is a sequence of passes of the loop body, in one way only:
    as long as the predicate selects at least one row the selected labels
    are dropped and the loop goes on from the frame that is left, which has
    strictly fewer rows; the run stops, and returns the frame, exactly on a
    frame on which the predicate selects no row; and it ends in an error
    only where the predicate or the drop raises one. *)
Theorem clean_gps_loop_terminates (f : Filters.Callable) (kw : Filters.kwargs)
    (move_data : Pandas.DataFrame) :
  (exists r, Filters._clean_gps move_data f kw = Some r) /\
  (forall md r, Filters.enter move_data = Pandas.Ok md ->
     Filters._clean_gps move_data f kw = Some r -> Filters.ends f kw md r) /\
  (forall md md', Filters.iteration f kw md md' ->
     Pandas.shape0 md' < Pandas.shape0 md) /\
  (forall md r r', Filters.ends f kw md r -> Filters.ends f kw md r' -> r = r') /\
  (forall md out, Filters.ends f kw md (Pandas.Ok out) ->
     clos_refl_trans _ (Filters.iteration f kw) md out /\
     exists fdp, Filters._filter_data out f kw = Pandas.Ok (fdp, O)) /\
  (forall md fdp, Filters._filter_data md f kw = Pandas.Ok (fdp, O) ->
     Filters.ends f kw md (Pandas.Ok md)) /\
  (forall md md' r, Filters.iteration f kw md md' ->
     Filters.ends f kw md r -> Filters.ends f kw md' r) /\
  (forall fuel fuel' md fdp n r,
     Filters._clean_gps_loop fuel f kw md fdp n = Some r ->
     fuel <= fuel' ->
     Filters._clean_gps_loop fuel' f kw md fdp n = Some r).
Proof.
  split; [|split; [|split; [|split; [|split; [|split; [|split]]]]]].
  - unfold Filters._clean_gps.
    destruct (Filters.enter move_data) as [md|e]; [|eauto].
    destruct (Filters._filter_data md f kw) as [[fdp n]|e] eqn:Hf; [|eauto].
    rewrite (_filter_data_count _ _ _ _ _ Hf).
    apply loop_has_fuel. lia.
  - intros md r He. unfold Filters._clean_gps. rewrite He.
    destruct (Filters._filter_data md f kw) as [[fdp n]|e] eqn:Hf.
    + apply loop_ends. exact Hf.
    + intros [= <-]. now apply Filters.ends_predicate.
  - apply iteration_shrinks.
  - intros md r r' H. now apply ends_once.
  - intros md out H. exact (ends_reaches f kw md _ H out eq_refl).
  - intros md fdp Hf. eapply Filters.ends_stop. exact Hf.
  - intros md md' r. apply ends_after_pass.
  - intros fuel fuel' m fdp n r. apply loop_fuel_mono.
Qed.

(* ===================================================================== *)
(** ** The threshold predicates *)
(* ===================================================================== *)

Section MaskFacts.
Import Pandas Filters Statements.

Lemma mask_rows_map (p : Row -> bool) (rs : list Row) :
  mask_rows rs (map p rs) = filter p rs.
Proof.
  induction rs as [|r rs IH]; simpl; [reflexivity|].
  rewrite IH. reflexivity.
Qed.

Lemma is_unique_NoDup (ls : list Z) : is_unique ls = true -> NoDup ls.
Proof.
  induction ls as [|l ls IH]; simpl; intros H; [constructor|].
  apply andb_prop in H as [Hl Hu]. constructor; [|auto].
  intros Hin. apply mem_label_In in Hin. rewrite Hin in Hl. discriminate.
Qed.

(** With unique labels, a row's label is among the labels of the selected
    rows exactly when the row itself is selected. *)
Lemma label_selected (p : Row -> bool) (rs : list Row) :
  NoDup (map label rs) ->
  forall r, In r rs -> mem_label (label r) (map label (filter p rs)) = p r.
Proof.
  induction rs as [|x rs IH]; simpl; intros Hnd r Hin; [contradiction|].
  inversion Hnd as [|? ? Hx Hnd']; subst.
  destruct Hin as [-> | Hin].
  - destruct (p r) eqn:Hp; simpl.
    + now rewrite Z.eqb_refl.
    + destruct (mem_label (label r) (map label (filter p rs))) eqn:Hm; [|reflexivity].
      exfalso. apply Hx. apply mem_label_In in Hm.
      apply in_map_iff in Hm as [y [Hy Hiny]].
      apply filter_In in Hiny as [Hiny _].
      rewrite <- Hy. now apply in_map.
  - destruct (p x) eqn:Hp; simpl; [|now apply IH].
    destruct (Z.eqb (label r) (label x)) eqn:He; simpl; [|now apply IH].
    exfalso. apply Hx. apply Z.eqb_eq in He. rewrite <- He. now apply in_map.
Qed.

Lemma drop_selected (p : Row -> bool) (md : DataFrame) :
  NoDup (index md) ->
  drop (map label (filter p (rows md))) md
  = Ok (set_rows md (filter (fun r => negb (p r)) (rows md))).
Proof.
  intros Hnd. unfold drop.
  replace (forallb _ _) with true.
  - f_equal. f_equal. apply filter_ext_in. intros r Hin.
    now rewrite (label_selected p _ Hnd r Hin).
  - symmetry. apply forallb_forall. intros l Hl.
    apply mem_label_In. unfold index.
    apply in_map_iff in Hl as [r [Hr Hin]]. apply filter_In in Hin as [Hin _].
    rewrite <- Hr. now apply in_map.
Qed.

Lemma filter_single_by_max_selects (c : Column) (thr : float) (md : DataFrame) :
  has_column c md = true ->
  _filter_single_by_max md (Feature c) thr
  = Ok (set_rows md (filter (fun r => PrimFloat.leb (cell c r) thr) (rows md))).
Proof.
  intros Hc. unfold _filter_single_by_max, series. rewrite Hc. simpl.
  unfold mask. rewrite map_map. now rewrite mask_rows_map.
Qed.

Lemma filter_neg_twice {A : Type} (p : A -> bool) (l : list A) :
  filter p (filter (fun x => negb (p x)) l) = [].
Proof.
  induction l as [|x l IH]; simpl; [reflexivity|].
  destruct (p x) eqn:Hp; simpl; [assumption|].
  now rewrite Hp.
Qed.

Lemma filter_none {A : Type} (p : A -> bool) (l : list A) :
  filter p l = [] -> filter (fun x => negb (p x)) l = l.
Proof.
  induction l as [|x l IH]; simpl; [reflexivity|].
  destruct (p x); simpl; [discriminate|].
  intros H. now rewrite IH.
Qed.

End MaskFacts.

Section MaxThreshold.
Import Pandas Filters Statements.

Variable c : Column.
Variable thr : float.

Lemma max_threshold_selected (md : DataFrame) :
  has_column c md = true ->
  _filter_data md _filter_single_by_max (threshold_kwargs c thr)
  = Ok (set_rows md (filter (at_or_below c thr) (rows md)),
        length (filter (at_or_below c thr) (rows md))).
Proof.
  intros Hc. unfold _filter_data, threshold_kwargs. cbn [outliers_ arg1 arg2].
  rewrite (filter_single_by_max_selects _ _ _ Hc). reflexivity.
Qed.

Lemma max_threshold_pass (md md' : DataFrame) :
  has_column c md = true -> NoDup (index md) ->
  iteration _filter_single_by_max (threshold_kwargs c thr) md md' ->
  md' = set_rows md (filter (fun r => negb (at_or_below c thr r)) (rows md)).
Proof.
  intros Hc Hnd Hit. inversion Hit as [m fdp m' n Hf Hd]; subst.
  rewrite (max_threshold_selected _ Hc) in Hf. injection Hf as <- _.
  unfold index at 1 in Hd. simpl in Hd.
  rewrite (drop_selected (at_or_below c thr) _ Hnd) in Hd. now injection Hd as <-.
Qed.

Lemma max_threshold_run (md : DataFrame) :
  has_column c md = true -> NoDup (index md) -> index_name md = None ->
  _clean_gps md _filter_single_by_max (threshold_kwargs c thr)
  = Some (Ok (set_rows md (filter (fun r => negb (at_or_below c thr r)) (rows md)))).
Proof.
  intros Hc Hnd Hname. unfold _clean_gps. rewrite (enter_unnamed _ Hname).
  rewrite (max_threshold_selected _ Hc).
  destruct (filter (at_or_below c thr) (rows md)) as [|r rs] eqn:Hsel.
  - simpl. rewrite (filter_none _ _ Hsel). now destruct md.
  - cbn [length _clean_gps_loop]. unfold index at 1. cbn [rows set_rows].
    rewrite <- Hsel. rewrite (drop_selected (at_or_below c thr) _ Hnd).
    set (md' := set_rows md _).
    assert (Hc' : has_column c md' = true) by exact Hc.
    rewrite (max_threshold_selected _ Hc').
    unfold md'. cbn [rows set_rows]. rewrite filter_neg_twice.
    apply loop_stops.
Qed.

End MaxThreshold.

(** C2 (as amended). On every pass of the loop run with the max-threshold
    predicate, the rows the predicate selects, and the loop removes, are
    exactly the rows where [feature <= threshold] holds; the rows kept are
    the complement, the rows where [feature <= threshold] is false (a larger
    value, or NaN). With the features left as they are between passes, the
    whole run is that one removal. Stated for a frame that carries the
    feature column and has unique index labels. *)
Theorem max_threshold_drops_at_or_below (c : Pandas.Column) (thr : float)
    (md : Pandas.DataFrame) :
  Pandas.has_column c md = true ->
  Statements.is_unique (Pandas.index md) = true ->
  let kw := {| Filters.arg1 := Filters.Feature c; Filters.arg2 := thr;
               Filters.outliers_ := false |} in
  let at_or_below := fun r => PrimFloat.leb (Pandas.cell c r) thr in
  Filters._filter_data md Filters._filter_single_by_max kw
    = Pandas.Ok (Pandas.set_rows md (filter at_or_below (Pandas.rows md)),
                 length (filter at_or_below (Pandas.rows md))) /\
  (forall md', Filters.iteration Filters._filter_single_by_max kw md md' ->
     md' = Pandas.set_rows md
             (filter (fun r => negb (at_or_below r)) (Pandas.rows md))) /\
  (Pandas.index_name md = None ->
     Filters._clean_gps md Filters._filter_single_by_max kw
     = Some (Pandas.Ok (Pandas.set_rows md
               (filter (fun r => negb (at_or_below r)) (Pandas.rows md))))).
Proof.
  intros Hc Hu kw at_or_below.
  pose proof (is_unique_NoDup _ Hu) as Hnd.
  split; [|split].
  - apply max_threshold_selected; assumption.
  - intros md'. apply max_threshold_pass; assumption.
  - intros Hname. apply max_threshold_run; assumption.
Qed.

(** On the trajectory P0, P1, P2 with radius 10 the cleaning keeps P0 (NaN)
    and P2 (20 m) and removes P1 (5 m). *)
Lemma max_threshold_drops_at_or_below_witness :
  Pandas.has_column Pandas.DIST_TO_PREV Examples.near_then_far = true /\
  Statements.is_unique (Pandas.index Examples.near_then_far) = true /\
  Filters._clean_gps Examples.near_then_far Filters._filter_single_by_max
    {| Filters.arg1 := Filters.Feature Pandas.DIST_TO_PREV;
       Filters.arg2 := 10%float; Filters.outliers_ := false |}
  = Some (Pandas.Ok (Examples.with_all [Examples.P0; Examples.P2])).
Proof.
  split; [reflexivity | split; [reflexivity |]].
  rewrite (proj2 (proj2 (max_threshold_drops_at_or_below
             Pandas.DIST_TO_PREV 10%float Examples.near_then_far
             eq_refl eq_refl)) eq_refl).
  reflexivity.
Defined.

(** C2 (as stated) fails: the pass over P0, P1, P2 with radius 10 keeps P0
    and P2, not the rows where [dist_to_prev <= 10] holds (P1 alone). *)
Lemma max_threshold_keeps_at_or_below_counterexample :
  Filters.iteration Filters._filter_single_by_max
    {| Filters.arg1 := Filters.Feature Pandas.DIST_TO_PREV;
       Filters.arg2 := 10%float; Filters.outliers_ := false |}
    Examples.near_then_far (Examples.with_all [Examples.P0; Examples.P2]) /\
  filter (fun r => PrimFloat.leb (Pandas.dist_to_prev r) 10%float)
    (Pandas.rows Examples.near_then_far) = [Examples.P1] /\
  Pandas.rows (Examples.with_all [Examples.P0; Examples.P2])
  <> filter (fun r => PrimFloat.leb (Pandas.dist_to_prev r) 10%float)
       (Pandas.rows Examples.near_then_far).
Proof.
  split; [|split].
  - apply Filters.iteration_intro
      with (filter_data_points := Examples.with_all [Examples.P1]) (n := O);
      reflexivity.
  - reflexivity.
  - intros H. vm_compute in H. discriminate H.
Qed.

(* ===================================================================== *)
(** ** The speed-max-radius predicate *)
(* ===================================================================== *)

Section SpeedMax.
Import Pandas Filters Statements.

Lemma zip_or_shift (a2 prev : float) (s : list float) :
  zip_or (map (exceeds a2) (firstn (length s) (prev :: s))) (map (exceeds a2) s)
  = own_or_previous a2 prev s.
Proof.
  revert prev. induction s as [|x s IH]; intros prev; [reflexivity|].
  cbn [length firstn map]. unfold zip_or in *. cbn [combine map fst snd own_or_previous].
  f_equal. apply IH.
Qed.

(** The mask of [_filter_speed_max_radius]: own value or the value of the
    row before, the first row reading NaN as the value before it. *)
Lemma speed_max_radius_mask (c : Column) (a2 : float) (md : DataFrame) :
  has_column c md = true ->
  _filter_speed_max_radius md (Feature c) a2
  = Ok (mask md (own_or_previous a2 nan (map (cell c) (rows md)))).
Proof.
  intros Hc. unfold _filter_speed_max_radius, series. rewrite Hc.
  cbn [bind]. unfold shift1. now rewrite zip_or_shift.
Qed.

End SpeedMax.

(** C4. What the code does. On every frame that carries the column the
    mask flags a row for its own value or for the value of the row before
    it, never for the row after it. On two three-point trajectories with
    [speed_max = 50]. Slow leg then fast leg (speeds NaN, 10, 100): the
    predicate flags C only, although the row after B arrives too fast, where
    the stated predicate flags B and C. Fast leg then slow leg (speeds NaN,
    100, 10): it flags B and C, C for the speed of the row before it, where
    the stated predicate flags A and B. *)
Theorem speed_max_radius_reads_previous_row :
  (forall (c : Pandas.Column) (a2 : float) (md : Pandas.DataFrame),
     Pandas.has_column c md = true ->
     Filters._filter_speed_max_radius md (Filters.Feature c) a2
     = Pandas.Ok (Pandas.mask md
         (Statements.own_or_previous a2 nan (map (Pandas.cell c) (Pandas.rows md))))) /\
  Filters._filter_speed_max_radius Examples.slow_then_fast
    (Filters.Feature Pandas.SPEED_TO_PREV) 50%float
  = Pandas.Ok (Examples.with_all [Examples.SC]) /\
  Statements.own_or_following 50%float
    (map Pandas.speed_to_prev (Pandas.rows Examples.slow_then_fast))
  = [false; true; true] /\
  Filters._filter_speed_max_radius Examples.fast_then_slow
    (Filters.Feature Pandas.SPEED_TO_PREV) 50%float
  = Pandas.Ok (Examples.with_all [Examples.FB; Examples.FC]) /\
  Statements.own_or_following 50%float
    (map Pandas.speed_to_prev (Pandas.rows Examples.fast_then_slow))
  = [true; true; false] /\
  Filters.clean_gps_speed_max_radius Examples.generate_dist_time_speed_features
    Examples.fast_then_slow 50%float false
  = Some (Pandas.Ok (Examples.fast_then_slow,
                     Some (Examples.with_all [Examples.FA]))).
Proof.
  split; [exact speed_max_radius_mask|].
  repeat split; reflexivity.
Qed.

(* ===================================================================== *)
(** ** Features after cleaning *)
(* ===================================================================== *)

(** C1. What the code leaves behind. Whatever the predicate, every row of
    the frame [_clean_gps] returns is a row of the frame the loop started
    from, with the cells it had there. The frame P0, P1, P2 enters with
    consistent features; cleaning by distance with radius 10 removes P1 and
    returns P2 with the distance (20 m) and time (10 s) to the removed P1,
    while its predecessor is now P0, 25 m and 20 s away. Cleaning the two
    trajectories Q0, Q1 and Q2, Q3 by maximal speed 50 removes Q1 and Q2 and
    returns Q3 as the first point of its trajectory with features that are
    not NaN. *)
Theorem cleaning_leaves_features_stale :
  (forall f kw move_data out,
     Filters._clean_gps move_data f kw = Some (Pandas.Ok out) ->
     incl (Pandas.rows out) (Pandas.rows (Filters.entry move_data))) /\
  Provider.features_consistent Examples.line_distance Examples.near_then_far = true /\
  Filters.clean_gps_nearby_points_by_distances Examples.generate_dist_features
    Examples.near_then_far 10%float false
  = Some (Pandas.Ok (Examples.near_then_far,
                     Some (Examples.with_all [Examples.P0; Examples.P2]))) /\
  Provider.features_consistent Examples.line_distance
    (Examples.with_all [Examples.P0; Examples.P2]) = false /\
  (Pandas.dist_to_prev Examples.P2 = 20%float /\
   Examples.line_distance Examples.P0 Examples.P2 = 25%float) /\
  (Pandas.time_to_prev Examples.P2 = 10%float /\
   PrimFloat.sub (Pandas.datetime Examples.P2) (Pandas.datetime Examples.P0) = 20%float) /\
  Provider.features_consistent Examples.line_distance Examples.two_trajectories = true /\
  Filters.clean_gps_speed_max_radius Examples.generate_dist_time_speed_features
    Examples.two_trajectories 50%float false
  = Some (Pandas.Ok (Examples.two_trajectories,
                     Some (Examples.with_all [Examples.Q0; Examples.Q3]))) /\
  Provider.features_consistent Examples.line_distance
    (Examples.with_all [Examples.Q0; Examples.Q3]) = false /\
  PrimFloat.is_nan (Pandas.dist_to_prev Examples.Q3) = false.
Proof.
  split; [exact clean_gps_rows_kept|].
  repeat split; reflexivity.
Qed.

(* ===================================================================== *)
(** ** The filter by summed time *)
(* ===================================================================== *)

Section FloatOrder.

Lemma SFcompare_antisym (a b : SpecFloat.spec_float) :
  SpecFloat.SFcompare b a = option_map CompOpp (SpecFloat.SFcompare a b).
Proof.
  destruct a as [sa|sa| |sa ma ea], b as [sb|sb| |sb mb eb]; simpl;
    try reflexivity;
    try (destruct sa; reflexivity);
    try (destruct sb; reflexivity);
    try (destruct sa, sb; reflexivity).
  destruct sa, sb; simpl; try reflexivity; f_equal;
    rewrite (Z.compare_antisym ea eb);
    destruct (Z.compare ea eb); simpl; try reflexivity;
    rewrite (Pos.compare_cont_antisym ma mb Eq); simpl;
    try rewrite CompOpp_involutive; reflexivity.
Qed.

(** [y <= x] excludes [x < y], NaN included. *)
Lemma leb_excludes_ltb (x y : float) :
  PrimFloat.leb y x = true -> PrimFloat.ltb x y = false.
Proof.
  rewrite FloatAxioms.leb_spec, FloatAxioms.ltb_spec.
  unfold SpecFloat.SFleb, SpecFloat.SFltb.
  rewrite (SFcompare_antisym (Prim2SF y) (Prim2SF x)).
  destruct (SpecFloat.SFcompare (Prim2SF y) (Prim2SF x)) as [[| |]|]; simpl;
    congruence.
Qed.

End FloatOrder.

Section Groups.
Import Pandas Filters Statements.

Lemma Id_eqb_eq (a b : Id) : Id_eqb a b = true <-> a = b.
Proof.
  destruct a as [x|x], b as [y|y]; simpl; split; intros H; try discriminate.
  - apply Z.eqb_eq in H. now subst.
  - injection H as ->. apply Z.eqb_refl.
  - apply String.eqb_eq in H. now subst.
  - injection H as ->. apply String.eqb_refl.
Qed.

Lemma Id_eqb_refl (a : Id) : Id_eqb a a = true.
Proof. now apply Id_eqb_eq. Qed.

Lemma seen_In (x : Id) (seen : list Id) :
  existsb (Id_eqb x) seen = true <-> In x seen.
Proof.
  rewrite existsb_exists. split.
  - intros [y [Hy He]]. apply Id_eqb_eq in He. now subst.
  - intros H. exists x. split; [assumption | apply Id_eqb_refl].
Qed.

Lemma unique_from_In (x : Id) (l seen : list Id) :
  In x (unique_from seen l) <-> In x l /\ ~ In x seen.
Proof.
  revert seen. induction l as [|y l IH]; intros seen; simpl; [tauto|].
  destruct (existsb (Id_eqb y) seen) eqn:Hs.
  - apply seen_In in Hs. rewrite IH. split.
    + tauto.
    + intros [[-> | Hin] Hn]; [contradiction | tauto].
  - assert (Hn : ~ In y seen).
    { intros Hin. apply seen_In in Hin. congruence. }
    simpl. rewrite IH. simpl. split.
    + intros [-> | [Hin Hns]]; [tauto|]. split; [tauto|]. intros Hx. apply Hns. tauto.
    + intros [[-> | Hin] Hns]; [tauto|].
      destruct (Id_eqb y x) eqn:He.
      * apply Id_eqb_eq in He. tauto.
      * right. split; [assumption|]. intros [-> | Hx]; [|contradiction].
        rewrite Id_eqb_refl in He. discriminate.
Qed.

Lemma unique_In (x : Id) (l : list Id) : In x (unique l) <-> In x l.
Proof. unfold unique. rewrite unique_from_In. simpl. tauto. Qed.

Lemma unique_from_NoDup (l seen : list Id) : NoDup (unique_from seen l).
Proof.
  revert seen. induction l as [|y l IH]; intros seen; simpl; [constructor|].
  destruct (existsb (Id_eqb y) seen); [apply IH|].
  constructor; [|apply IH].
  rewrite unique_from_In. simpl. tauto.
Qed.

Lemma unique_NoDup (l : list Id) : NoDup (unique l).
Proof. apply unique_from_NoDup. Qed.

Lemma unique_from_seen (l : list Id) :
  forall s1 s2,
    (forall z, existsb (Id_eqb z) s1 = existsb (Id_eqb z) s2) ->
    unique_from s1 l = unique_from s2 l.
Proof.
  induction l as [|y l IH]; intros s1 s2 Hs; simpl; [reflexivity|].
  rewrite <- (Hs y). destruct (existsb (Id_eqb y) s1); [now apply IH|].
  f_equal. apply IH. intros z. simpl. now rewrite Hs.
Qed.

Lemma filter_twice {A : Type} (p : A -> bool) (l : list A) :
  filter p (filter p l) = filter p l.
Proof.
  induction l as [|x l IH]; simpl; [reflexivity|].
  destruct (p x) eqn:Hp; simpl; [now rewrite Hp, IH | assumption].
Qed.

Lemma Id_eqb_sym (a b : Id) : Id_eqb a b = Id_eqb b a.
Proof.
  destruct (Id_eqb a b) eqn:Hab.
  - apply Id_eqb_eq in Hab. subst. symmetry. apply Id_eqb_refl.
  - destruct (Id_eqb b a) eqn:Hba; [|reflexivity].
    apply Id_eqb_eq in Hba. subst. now rewrite Id_eqb_refl in Hab.
Qed.

Lemma unique_from_cons (x : Id) (l : list Id) :
  forall seen,
    unique_from (x :: seen) l
    = filter (fun y => negb (Id_eqb y x)) (unique_from seen l).
Proof.
  induction l as [|y l IH]; intros seen; [reflexivity|].
  cbn [unique_from existsb].
  destruct (existsb (Id_eqb y) seen) eqn:Hs.
  - rewrite orb_true_r. apply IH.
  - rewrite orb_false_r. destruct (Id_eqb y x) eqn:Hyx.
    + cbn [filter]. rewrite Hyx. cbn [negb].
      apply Id_eqb_eq in Hyx. subst y.
      now rewrite (IH seen), filter_twice.
    + cbn [filter]. rewrite Hyx. cbn [negb]. f_equal.
      rewrite <- (IH (y :: seen)). apply unique_from_seen.
      intros z. simpl. now rewrite !orb_assoc, (orb_comm (Id_eqb z y)).
Qed.

(** First-seen order: the first id comes first, and the rest are the
    distinct ids of the remainder without it. *)
Lemma unique_first_seen (x : Id) (l : list Id) :
  unique (x :: l) = x :: filter (fun y => negb (Id_eqb y x)) (unique l).
Proof.
  unfold unique. cbn [unique_from existsb]. f_equal. apply unique_from_cons.
Qed.

Variable group_sum : list float -> float.

Lemma isin_ids_below (md : DataFrame) (time_max : float) (r : Row) :
  In r (rows md) ->
  isin (ids_below group_sum md time_max) r
  = PrimFloat.ltb (total_time group_sum md (traj_id r)) time_max.
Proof.
  intros Hin. unfold isin, ids_below, total_time.
  destruct (PrimFloat.ltb _ time_max) eqn:Hlt.
  - apply seen_In. apply filter_In. split; [|assumption].
    apply unique_In. now apply in_map.
  - destruct (existsb _ _) eqn:He; [|reflexivity].
    apply seen_In in He. apply filter_In in He as [_ He]. congruence.
Qed.

Variable gen : DataFrame -> result DataFrame.

Lemma clean_id_by_time_max_rows (move_data md : DataFrame) (time_max : float)
    (inplace : bool) :
  ensure TIME_TO_PREV gen move_data = Ok md ->
  id_is_index md = false ->
  has_column TIME_TO_PREV md = true ->
  NoDup (index md) ->
  PrimFloat.is_nan time_max = false ->
  clean_id_by_time_max gen group_sum move_data time_max inplace
  = Ok (outcome inplace move_data
          (set_rows md
             (filter
                (fun r => negb (PrimFloat.ltb (total_time group_sum md (traj_id r)) time_max))
                (rows md)))).
Proof.
  intros He Hi Hc Hnd Hnum. unfold clean_id_by_time_max. rewrite He. cbn [bind].
  rewrite Hi, Hc, Hnum. cbn [negb].
  set (keep := fun r => negb (PrimFloat.ltb (total_time group_sum md (traj_id r)) time_max)).
  assert (Hsel : filter (isin (ids_below group_sum md time_max)) (rows md)
                 = filter (fun r => negb (keep r)) (rows md)).
  { apply filter_ext_in. intros r Hin. unfold keep.
    rewrite negb_involutive. now apply isin_ids_below. }
  destruct (ids_below group_sum md time_max) as [|i ids] eqn:Hids.
  - f_equal. f_equal.
    assert (Hall : filter (fun r => negb (keep r)) (rows md) = []).
    { rewrite <- Hsel. clear. induction (rows md); [reflexivity | simpl; assumption]. }
    apply filter_none in Hall.
    assert (Hk : filter keep (rows md) = rows md).
    { rewrite <- Hall at 2. apply filter_ext. intros r. now rewrite negb_involutive. }
    rewrite Hk. now destruct md.
  - unfold mask, index. cbn [rows set_rows].
    rewrite mask_rows_map, Hsel.
    rewrite (drop_selected (fun r => negb (keep r)) _ Hnd). cbn [bind].
    f_equal. f_equal. f_equal. apply filter_ext. intros r. now rewrite negb_involutive.
Qed.

End Groups.

(** C9. What the code does. On a frame with unique index labels (the time
    column carried or received from the generator, the bound a number, the
    index not named like the id column) [clean_id_by_time_max] removes
    exactly the rows of the id groups whose summed [time_to_prev] is
    strictly below [time_max], whole groups only, as stated. The rows go by
    index label, though. On the frame U0, U1, V0, V1 (ids 1, 1, 2, 2 under
    the labels 0, 1, 0, 5; 30 s and 4000 s gathered) with [time_max = 3600]
    the group of id 1 is the one selected, and the drop of its labels 0 and
    1 takes V0 of the other group along: the call returns V1 alone, where
    the rows of the groups not below the bound are V0 and V1. *)
Theorem clean_id_by_time_max_drops_by_label :
  (forall (gen : Pandas.DataFrame -> Pandas.result Pandas.DataFrame)
          (group_sum : list float -> float)
          (move_data md : Pandas.DataFrame) (time_max : float) (inplace : bool),
     Filters.ensure Pandas.TIME_TO_PREV gen move_data = Pandas.Ok md ->
     Filters.id_is_index md = false ->
     Pandas.has_column Pandas.TIME_TO_PREV md = true ->
     Statements.is_unique (Pandas.index md) = true ->
     PrimFloat.is_nan time_max = false ->
     let total := fun r => Statements.total_time group_sum md (Pandas.traj_id r) in
     exists out,
       Filters.clean_id_by_time_max gen group_sum move_data time_max inplace
       = Pandas.Ok (Filters.outcome inplace move_data out) /\
       Pandas.rows out
       = filter (fun r => negb (PrimFloat.ltb (total r) time_max)) (Pandas.rows md) /\
       (forall r, In r (Pandas.rows md) ->
          (~ In r (Pandas.rows out) <-> PrimFloat.ltb (total r) time_max = true)) /\
       (forall r, In r (Pandas.rows md) ->
          PrimFloat.leb time_max (total r) = true -> In r (Pandas.rows out)) /\
       (forall r r', In r (Pandas.rows md) -> In r' (Pandas.rows md) ->
          Pandas.traj_id r = Pandas.traj_id r' ->
          (In r (Pandas.rows out) <-> In r' (Pandas.rows out)))) /\
  Statements.is_unique (Pandas.index Examples.concatenated) = false /\
  Filters.ids_below Examples.nansum Examples.concatenated 3600%float
  = [Pandas.IdInt 1] /\
  Filters.clean_id_by_time_max Examples.generate_dist_time_speed_features
    Examples.nansum Examples.concatenated 3600%float false
  = Pandas.Ok (Examples.concatenated, Some (Examples.with_all [Examples.V1])) /\
  filter
    (fun r => negb (PrimFloat.ltb
                      (Statements.total_time Examples.nansum Examples.concatenated
                         (Pandas.traj_id r)) 3600%float))
    (Pandas.rows Examples.concatenated)
  = [Examples.V0; Examples.V1].
Proof.
  split; [|repeat split; reflexivity].
  intros gen group_sum move_data md time_max inplace He Hi Hc Hu Hnum total.
  pose proof (is_unique_NoDup _ Hu) as Hnd.
  eexists. split; [apply clean_id_by_time_max_rows; eassumption|].
  cbn [Pandas.rows Pandas.set_rows]. split; [reflexivity|]. repeat split.
  - intros Hout. destruct (PrimFloat.ltb (total r) time_max) eqn:Hlt; [reflexivity|].
    exfalso. apply Hout. apply filter_In. split; [assumption|].
    fold (total r). now rewrite Hlt.
  - intros Hlt Hin. apply filter_In in Hin as [_ Hk].
    fold (total r) in Hk. rewrite Hlt in Hk. discriminate.
  - intros r Hin Hle. apply filter_In. split; [assumption|].
    fold (total r). now rewrite (leb_excludes_ltb _ _ Hle).
  - intros Hin. apply filter_In in Hin as [_ Hk]. apply filter_In.
    split; [assumption|]. now rewrite <- H1.
  - intros Hin. apply filter_In in Hin as [_ Hk]. apply filter_In.
    split; [assumption|]. now rewrite H1.
Qed.

(* ===================================================================== *)
(** ** The range query *)
(* ===================================================================== *)

Section RangeFacts.
Import Pandas Query Statements.

Variables MEDP MEDT : string.
Variables medp medt : Measure.

Lemma dist_measure_MEDP : exists m,
  dist_measure MEDP MEDT medp medt MEDP = Ok m /\ forall traj this, m traj this = medp traj this.
Proof.
  unfold dist_measure. rewrite String.eqb_refl. eauto.
Qed.

Lemma dist_measure_cases (distance : string) :
  (distance = MEDP /\ exists m, dist_measure MEDP MEDT medp medt distance = Ok m) \/
  (distance = MEDT /\ exists m, dist_measure MEDP MEDT medp medt distance = Ok m) \/
  (distance <> MEDP /\ distance <> MEDT /\
   dist_measure MEDP MEDT medp medt distance
   = Raise unknown_measure).
Proof.
  unfold dist_measure.
  destruct (String.eqb_spec distance MEDP) as [-> | Hp]; [left; eauto|].
  destruct (String.eqb_spec distance MEDT) as [-> | Ht]; [right; left; eauto|].
  right; right. auto.
Qed.

Variable m : Measure.
Variables traj move_df : DataFrame.
Variable min_dist : float.

Lemma range_loop_collects (ids : list Id) :
  forall result_ trace,
    rows (fst (range_loop m traj move_df min_dist ids result_ trace))
    = rows result_ ++ flat_map (rows_of_id move_df) (filter (near m traj move_df min_dist) ids) /\
    snd (range_loop m traj move_df min_dist ids result_ trace) = trace ++ ids.
Proof.
  induction ids as [|i ids IH]; intros result_ trace; simpl.
  - now rewrite !app_nil_r.
  - fold (near m traj move_df min_dist i). destruct (near m traj move_df min_dist i); simpl.
    + destruct (IH (append result_ (loc_id move_df i)) (trace ++ [i])) as [Hr Ht].
      rewrite Hr, Ht. simpl. now rewrite <- !app_assoc.
    + destruct (IH result_ (trace ++ [i])) as [Hr Ht].
      rewrite Hr, Ht. now rewrite <- app_assoc.
Qed.

Lemma range_query_collects (distance : string) :
  dist_measure MEDP MEDT medp medt distance = Ok m ->
  let q := range_query MEDP MEDT medp medt traj move_df min_dist distance in
  let ids := unique (map traj_id (rows move_df)) in
  measured q = ids /\
  exists out, returned q = Ok out /\
    rows out = flat_map (rows_of_id move_df) (filter (near m traj move_df min_dist) ids).
Proof.
  intros Hm. unfold range_query. rewrite Hm.
  destruct (range_loop_collects (unique (map traj_id (rows move_df)))
              (set_rows traj []) []) as [Hr Ht].
  destruct (range_loop _ _ _ _ _ _ _) as [result_ trace].
  simpl in *. split; [assumption|]. eauto.
Qed.

End RangeFacts.

(** C5. [range_query] measures every distinct id of the candidate frame
    once, in order of first appearance (each id of the id column occurs once
    in the list of visits, the first id of the column first, the others as
    in the remainder), and returns, in that order, all the
    rows of exactly the candidates whose distance to the reference is
    strictly below [min_dist]. With distances A: 800, B: 1500, C: 950 and
    [min_dist = 1000] the result holds the rows of A, then those of C. *)
Theorem range_query_collects_near :
  (forall (MEDP MEDT : string) (medp medt : Query.Measure)
          (traj move_df : Pandas.DataFrame) (min_dist : float)
          (distance : string) (m : Query.Measure),
     Query.dist_measure MEDP MEDT medp medt distance = Pandas.Ok m ->
     let q := Query.range_query MEDP MEDT medp medt traj move_df min_dist distance in
     let ids := Pandas.unique (map Pandas.traj_id (Pandas.rows move_df)) in
     NoDup ids /\
     (forall i, In i ids <-> In i (map Pandas.traj_id (Pandas.rows move_df))) /\
     (forall x l, Pandas.unique (x :: l)
                  = x :: filter (fun y => negb (Pandas.Id_eqb y x)) (Pandas.unique l)) /\
     Query.measured q = ids /\
     exists out, Query.returned q = Pandas.Ok out /\
       Pandas.rows out
       = flat_map (Pandas.rows_of_id move_df)
           (filter (fun i => PrimFloat.ltb (m traj (Pandas.loc_id move_df i)) min_dist)
              ids)) /\
  (forall (MEDP MEDT : string) (medp medt : Query.Measure),
     medp Examples.reference (Pandas.loc_id Examples.in_range (Pandas.IdStr "A"))
       = 800%float ->
     medp Examples.reference (Pandas.loc_id Examples.in_range (Pandas.IdStr "B"))
       = 1500%float ->
     medp Examples.reference (Pandas.loc_id Examples.in_range (Pandas.IdStr "C"))
       = 950%float ->
     exists out,
       Query.returned (Query.range_query MEDP MEDT medp medt Examples.reference
                         Examples.in_range 1000%float MEDP) = Pandas.Ok out /\
       Pandas.rows out = [Examples.RA0; Examples.RA1; Examples.RC0; Examples.RC1]).
Proof.
  split.
  - intros MEDP MEDT medp medt traj move_df min_dist distance m Hm q ids.
    split; [apply unique_NoDup|]. split; [intros i; apply unique_In|].
    split; [exact unique_first_seen|].
    apply range_query_collects. assumption.
  - intros MEDP MEDT medp medt HA HB HC.
    destruct (dist_measure_MEDP MEDP MEDT medp medt) as [m [Hm Hmedp]].
    destruct (range_query_collects MEDP MEDT medp medt m Examples.reference
                Examples.in_range 1000%float MEDP Hm) as [_ [out [Hout Hrows]]].
    exists out. split; [assumption|]. rewrite Hrows.
    change (Pandas.unique (map Pandas.traj_id (Pandas.rows Examples.in_range)))
      with [Pandas.IdStr "A"; Pandas.IdStr "B"; Pandas.IdStr "C"].
    unfold Statements.near. cbn [filter]. rewrite !Hmedp, HA, HB, HC.
    reflexivity.
Qed.

(** The stand-in measure of the examples gives the three distances. *)
Lemma range_query_collects_near_witness :
  Examples.line_medp Examples.reference
    (Pandas.loc_id Examples.in_range (Pandas.IdStr "A")) = 800%float /\
  Examples.line_medp Examples.reference
    (Pandas.loc_id Examples.in_range (Pandas.IdStr "B")) = 1500%float /\
  Examples.line_medp Examples.reference
    (Pandas.loc_id Examples.in_range (Pandas.IdStr "C")) = 950%float /\
  exists out,
    Query.returned (Query.range_query Examples.MEDP Examples.MEDT
                      Examples.line_medp Examples.line_medt Examples.reference
                      Examples.in_range 1000%float Examples.MEDP) = Pandas.Ok out /\
    Pandas.rows out = [Examples.RA0; Examples.RA1; Examples.RC0; Examples.RC1].
Proof.
  split; [reflexivity | split; [reflexivity | split; [reflexivity |]]].
  exact (proj2 range_query_collects_near Examples.MEDP Examples.MEDT
           Examples.line_medp Examples.line_medt eq_refl eq_refl eq_refl).
Defined.

(* ===================================================================== *)
(** ** The choice of the measure, and the reference's own id *)
(* ===================================================================== *)

Section KnnErrors.
Import Pandas Query.

Variable TRAJ_ID : string.

Lemma kl_get_known (k_list : KFrame) (n : nat) (col : string) (e : exn) :
  kl_get k_list n col = Raise e -> e <> unknown_measure.
Proof.
  unfold kl_get. destruct (filter (named col) k_list) as [|[c cells] [|? ?]];
    try destruct (nth_error cells n); intros H; try discriminate H;
    injection H as <-; discriminate.
Qed.

Lemma scan_known (ns : list nat) (this_distance : float) (traj_id : Id) :
  forall k_list e,
    scan ns k_list this_distance traj_id = Raise e -> e <> unknown_measure.
Proof.
  induction ns as [|n ns IH]; intros k_list e; simpl; [discriminate|].
  pose proof (kl_get_known k_list n "distance") as Hg.
  destruct (kl_get k_list n "distance") as [[x|i]|e']; simpl.
  - destruct (PrimFloat.ltb this_distance x); [discriminate | apply IH].
  - intros H. injection H as <-. discriminate.
  - intros H. injection H as <-. now apply Hg.
Qed.

Lemma knn_loop_known (m : Measure) (traj move_df : DataFrame) (k : nat)
    (ids : list Id) :
  forall k_list trace e,
    fst (knn_loop m traj move_df k ids k_list trace) = Raise e ->
    e <> unknown_measure.
Proof.
  induction ids as [|i ids IH]; intros k_list trace e; simpl; [discriminate|].
  destruct (rows traj) as [|first rest] eqn:Hrows; simpl.
  - intros H. injection H as <-. discriminate.
  - destruct (negb (Id_eqb i (traj_id first))).
    + pose proof (scan_known (seq 0 k) (m traj (loc_id move_df i)) i k_list) as Hs.
      destruct (scan (seq 0 k) k_list (m traj (loc_id move_df i)) i) as [kl|e'];
        simpl.
      * apply IH.
      * intros H. injection H as <-. now apply Hs.
    + apply IH.
Qed.

Lemma gather_known (ns : list nat) (k_list : KFrame) (move_df : DataFrame) :
  forall result_ e,
    gather ns k_list move_df result_ = Raise e -> e <> unknown_measure.
Proof.
  induction ns as [|n ns IH]; intros result_ e; simpl; [discriminate|].
  pose proof (kl_get_known k_list n "traj_id") as Hg.
  destruct (kl_get k_list n "traj_id") as [c|e']; simpl; [apply IH|].
  intros H. injection H as <-. now apply Hg.
Qed.

Lemma knn_loop_skips_own (m : Measure) (traj move_df : DataFrame) (k : nat)
    (first : Row) (rest : list Row) (ids : list Id) :
  rows traj = first :: rest ->
  forall k_list trace,
    ~ In (traj_id first) trace ->
    ~ In (traj_id first) (snd (knn_loop m traj move_df k ids k_list trace)).
Proof.
  intros Hrows. induction ids as [|i ids IH]; intros k_list trace Hn; simpl;
    [assumption|].
  rewrite Hrows. destruct (Id_eqb i (traj_id first)) eqn:He; simpl.
  { now apply IH. }
  assert (Hn' : ~ In (traj_id first) (trace ++ [i])).
  { intros Hin. apply in_app_or in Hin as [Hin | [Hi | []]]; [contradiction|].
    rewrite Hi, Id_eqb_refl in He. discriminate. }
  destruct (scan (seq 0 k) k_list (m traj (loc_id move_df i)) i); simpl;
    [now apply IH | assumption].
Qed.

End KnnErrors.

(** C8. With a selector other than MEDP and MEDT both queries raise the
    ValueError of the unknown measure with no candidate measured; with MEDP
    or MEDT neither raises it. (The queries read their arguments and write
    none of them.) *)
Theorem unknown_measure_raises_first (MEDP MEDT TRAJ_ID : string)
    (medp medt : Query.Measure) (traj move_df : Pandas.DataFrame)
    (min_dist : float) (k : Z) (distance : string) :
  (distance <> MEDP -> distance <> MEDT ->
     Query.range_query MEDP MEDT medp medt traj move_df min_dist distance
     = {| Query.returned :=
            Pandas.Raise Query.unknown_measure;
          Query.measured := [] |} /\
     Query.knn_query MEDP MEDT TRAJ_ID medp medt traj move_df k distance
     = {| Query.returned :=
            Pandas.Raise Query.unknown_measure;
          Query.measured := [] |}) /\
  (distance = MEDP \/ distance = MEDT ->
     Query.returned (Query.range_query MEDP MEDT medp medt traj move_df min_dist distance)
     <> Pandas.Raise Query.unknown_measure /\
     Query.returned (Query.knn_query MEDP MEDT TRAJ_ID medp medt traj move_df k distance)
     <> Pandas.Raise Query.unknown_measure).
Proof.
  split.
  - intros Hp Ht.
    destruct (dist_measure_cases MEDP MEDT medp medt distance)
      as [[-> _] | [[-> _] | [_ [_ Hr]]]]; try congruence.
    unfold Query.range_query, Query.knn_query, Query.knn_k_list. rewrite Hr.
    split; reflexivity.
  - intros Hd.
    assert (Hm : exists m, Query.dist_measure MEDP MEDT medp medt distance = Pandas.Ok m).
    { destruct (dist_measure_cases MEDP MEDT medp medt distance)
        as [[_ H] | [[_ H] | [Hp [Ht _]]]]; try assumption.
      destruct Hd; contradiction. }
    destruct Hm as [m Hm]. split.
    + unfold Query.range_query. rewrite Hm.
      destruct (Query.range_loop _ _ _ _ _ _ _). discriminate.
    + unfold Query.knn_query, Query.knn_k_list. rewrite Hm.
      pose proof (knn_loop_known m traj move_df (Z.to_nat k)
                    (Pandas.unique (map Pandas.traj_id (Pandas.rows move_df)))
                    (Query.new_k_list TRAJ_ID (Z.to_nat k)) []) as Hl.
      destruct (Query.knn_loop _ _ _ _ _ _ _) as [r trace]. simpl in *.
      destruct r as [k_list|e]; simpl.
      * intros H. exact (gather_known _ _ _ _ _ H eq_refl).
      * intros H. injection H as ->. exact (Hl _ eq_refl eq_refl).
Qed.

(** The selector "X" on the frames of the examples. *)
Lemma unknown_measure_raises_first_witness :
  ("X"%string <> Examples.MEDP /\ "X"%string <> Examples.MEDT) /\
  Query.knn_query Examples.MEDP Examples.MEDT Examples.TRAJ_ID
    Examples.line_medp Examples.line_medt Examples.reference Examples.neighbours
    2 "X"
  = {| Query.returned :=
         Pandas.Raise Query.unknown_measure;
       Query.measured := [] |}.
Proof.
  assert (Hp : "X"%string <> Examples.MEDP) by discriminate.
  assert (Ht : "X"%string <> Examples.MEDT) by discriminate.
  split; [split; assumption|].
  exact (proj2 (proj1 (unknown_measure_raises_first Examples.MEDP Examples.MEDT
                         Examples.TRAJ_ID Examples.line_medp Examples.line_medt
                         Examples.reference Examples.neighbours 1000%float 2 "X")
                  Hp Ht)).
Defined.

(** C10. [range_query] does not set the reference's own id apart: when the
    id occurs in the candidate frame it is measured like the others, and
    every row of the candidate frame that carries it is in the result
    whenever its distance is strictly below [min_dist], thus whenever the
    distance is 0 and [0 < min_dist]. [knn_query] never measures it. *)
Theorem range_query_keeps_own_id (MEDP MEDT TRAJ_ID : string)
    (medp medt : Query.Measure) (traj move_df : Pandas.DataFrame)
    (min_dist : float) (k : Z) (distance : string) (m : Query.Measure)
    (first : Pandas.Row) (rest : list Pandas.Row) :
  Query.dist_measure MEDP MEDT medp medt distance = Pandas.Ok m ->
  Pandas.rows traj = first :: rest ->
  In (Pandas.traj_id first) (map Pandas.traj_id (Pandas.rows move_df)) ->
  let own := Pandas.traj_id first in
  let q := Query.range_query MEDP MEDT medp medt traj move_df min_dist distance in
  In own (Query.measured q) /\
  (PrimFloat.ltb (m traj (Pandas.loc_id move_df own)) min_dist = true ->
     exists out, Query.returned q = Pandas.Ok out /\
       forall r, In r (Pandas.rows move_df) -> Pandas.traj_id r = own ->
                 In r (Pandas.rows out)) /\
  (m traj (Pandas.loc_id move_df own) = 0%float ->
   PrimFloat.ltb 0%float min_dist = true ->
     exists out, Query.returned q = Pandas.Ok out /\
       forall r, In r (Pandas.rows move_df) -> Pandas.traj_id r = own ->
                 In r (Pandas.rows out)) /\
  ~ In own (Query.measured
              (Query.knn_query MEDP MEDT TRAJ_ID medp medt traj move_df k distance)).
Proof.
  intros Hm Hrows Hocc own q.
  destruct (range_query_collects MEDP MEDT medp medt m traj move_df min_dist
              distance Hm) as [Hmeas [out [Hout Hr]]].
  fold q in Hmeas, Hout.
  assert (Hnear : PrimFloat.ltb (m traj (Pandas.loc_id move_df own)) min_dist = true ->
                  exists out, Query.returned q = Pandas.Ok out /\
                    forall r, In r (Pandas.rows move_df) -> Pandas.traj_id r = own ->
                              In r (Pandas.rows out)).
  { intros Hlt. exists out. split; [assumption|]. rewrite Hr.
    intros r Hin Hid. apply in_flat_map. exists own. split.
    - apply filter_In. split; [now apply unique_In | exact Hlt].
    - unfold Pandas.rows_of_id. apply filter_In. split; [exact Hin|].
      rewrite Hid. apply Id_eqb_refl. }
  split; [rewrite Hmeas; now apply unique_In|].
  split; [exact Hnear|]. split.
  - intros H0 Hlt. apply Hnear. now rewrite H0.
  - unfold Query.knn_query, Query.knn_k_list. rewrite Hm. simpl.
    pose proof (knn_loop_skips_own m traj move_df (Z.to_nat k) first rest
                  (Pandas.unique (map Pandas.traj_id (Pandas.rows move_df)))
                  Hrows (Query.new_k_list TRAJ_ID (Z.to_nat k)) []) as Hs.
    destruct (Query.knn_loop _ _ _ _ _ _ _) as [r trace]. simpl in *.
    apply Hs. intros [].
Qed.

(** The reference R among its own candidates, [min_dist = 1000]: R is
    measured at distance 0 and its row KR0 of the candidate frame is in the
    result; [knn_query] does not measure R. *)
Lemma range_query_keeps_own_id_witness :
  Query.dist_measure Examples.MEDP Examples.MEDT Examples.line_medp Examples.line_medt
    Examples.MEDP = Pandas.Ok (fun traj this => Examples.line_medp traj this) /\
  Pandas.rows Examples.reference = [Examples.R0] /\
  In (Pandas.traj_id Examples.R0)
     (map Pandas.traj_id (Pandas.rows Examples.neighbours)) /\
  Examples.line_medp Examples.reference
    (Pandas.loc_id Examples.neighbours (Pandas.IdStr "R")) = 0%float /\
  In (Pandas.IdStr "R")
     (Query.measured
        (Query.range_query Examples.MEDP Examples.MEDT Examples.line_medp
           Examples.line_medt Examples.reference Examples.neighbours 1000%float
           Examples.MEDP)) /\
  (exists out,
     Query.returned
       (Query.range_query Examples.MEDP Examples.MEDT Examples.line_medp
          Examples.line_medt Examples.reference Examples.neighbours 1000%float
          Examples.MEDP) = Pandas.Ok out /\
     In Examples.KR0 (Pandas.rows out)) /\
  ~ In (Pandas.IdStr "R")
      (Query.measured
         (Query.knn_query Examples.MEDP Examples.MEDT Examples.TRAJ_ID
            Examples.line_medp Examples.line_medt Examples.reference
            Examples.neighbours 2 Examples.MEDP)).
Proof.
  assert (Hocc : In (Pandas.traj_id Examples.R0)
                   (map Pandas.traj_id (Pandas.rows Examples.neighbours))).
  { simpl. right. left. reflexivity. }
  split; [reflexivity | split; [reflexivity | split; [exact Hocc |]]].
  split; [reflexivity|].
  pose proof (range_query_keeps_own_id Examples.MEDP Examples.MEDT Examples.TRAJ_ID
                Examples.line_medp Examples.line_medt Examples.reference
                Examples.neighbours 1000%float 2 Examples.MEDP
                (fun traj this => Examples.line_medp traj this)
                Examples.R0 [] eq_refl eq_refl Hocc) as [Hin [_ [Hzero Hout]]].
  split; [exact Hin|]. split; [|exact Hout].
  destruct (Hzero eq_refl eq_refl) as [out [Hret Hrows]].
  exists out. split; [exact Hret|].
  apply (Hrows Examples.KR0); [|reflexivity].
  simpl. right. left. reflexivity.
Defined.

(* ===================================================================== *)
(** ** The k-nearest-neighbour query *)
(* ===================================================================== *)

Section TopK.
Import Pandas Query Statements.

Variable TRAJ_ID : string.

Lemma set_nth_app (c y : kcell) (l1 l2 : list kcell) (n : nat) :
  n = length l1 -> set_nth n c (l1 ++ y :: l2) = l1 ++ c :: l2.
Proof.
  intros ->. induction l1 as [|x l1 IH]; simpl; [reflexivity|]. now rewrite IH.
Qed.

Lemma nth_error_middle {A : Type} (l1 l2 : list A) (y : A) (n : nat) :
  n = length l1 -> nth_error (l1 ++ y :: l2) n = Some y.
Proof.
  intros ->. induction l1 as [|x l1 IH]; simpl; [reflexivity | assumption].
Qed.

Lemma overwrite_with_length (d : float) (c : kcell) (l : list Slot) :
  length (overwrite_with d c l) = length l.
Proof.
  induction l as [|[x e] l IH]; simpl; [reflexivity|].
  destruct (PrimFloat.ltb d x); simpl; [reflexivity | now rewrite IH].
Qed.

Lemma overwrite_length (d : float) (i : Id) (l : list Slot) :
  length (record_first_dominated d i l) = length l.
Proof. apply overwrite_with_length. Qed.

(** The rule of the spec is the scan that writes the id as it is. *)
Lemma overwrite_exact (d : float) (i : Id) (l : list Slot) :
  overwrite_first_dominated d i l = overwrite_with d (KObj i) l.
Proof.
  induction l as [|[x e] l IH]; simpl; [reflexivity|].
  destruct (PrimFloat.ltb d x); [reflexivity | now rewrite IH].
Qed.

Lemma distances_length (v : list Slot) : length (distances v) = length v.
Proof. unfold distances. apply length_map. Qed.

Lemma represents_view (v : list Slot) (k_list : KFrame) :
  represents TRAJ_ID v k_list -> view k_list = as_cells v.
Proof.
  assert (Hc : forall w : list Slot, combine (distances w) (map snd w) = as_cells w).
  { induction w as [|[x c] w IH]; simpl; [reflexivity | now rewrite IH]. }
  intros [Hs | es Hn Hd Hnan | es Hn Hd]; unfold view, column, named.
  - simpl. apply Hc.
  - apply String.eqb_neq in Hn, Hd. cbn [find fst]. rewrite Hd, Hn. simpl.
    rewrite distances_length, <- Hnan. apply Hc.
  - apply String.eqb_neq in Hn, Hd. cbn [find fst]. rewrite Hd, Hn. simpl. apply Hc.
Qed.

Lemma represents_distance (v : list Slot) (k_list : KFrame) (n : nat) :
  represents TRAJ_ID v k_list ->
  kl_get k_list n "distance"
  = match nth_error (distances v) n with
    | Some c => Ok c
    | None => Raise KeyError
    end.
Proof.
  intros [Hs | es Hn Hd Hnan | es Hn Hd]; unfold kl_get, named.
  - reflexivity.
  - apply String.eqb_neq in Hd. cbn [filter fst]. rewrite Hd. reflexivity.
  - apply String.eqb_neq in Hd. cbn [filter fst]. rewrite Hd. reflexivity.
Qed.

Lemma coerce_num (cells : list kcell) (d : float) : coerce cells (KNum d) = KNum d.
Proof. reflexivity. Qed.

(** Writing slot [length pre] of a frame that holds [pre ++ x :: post]:
    the id goes in as the column of the ids keeps it. *)
Lemma represents_write (pre post : list Slot) (x : Slot) (d : float) (i : Id)
    (k_list : KFrame) :
  represents TRAJ_ID (pre ++ x :: post) k_list ->
  represents TRAJ_ID
    (pre ++ (d, coerce (map snd (pre ++ x :: post)) (KObj i)) :: post)
    (kl_set (kl_set k_list (length pre) "distance" (KNum d))
       (length pre) "traj_id" (KObj i)).
Proof.
  set (c := coerce (map snd (pre ++ x :: post)) (KObj i)).
  assert (Hdist : set_nth (length pre) (KNum d) (distances (pre ++ x :: post))
                  = distances (pre ++ (d, c) :: post)).
  { unfold distances. rewrite !map_app. cbn [map fst].
    apply set_nth_app. now rewrite length_map. }
  assert (Hid : set_nth (length pre) c (map snd (pre ++ x :: post))
                = map snd (pre ++ (d, c) :: post)).
  { rewrite !map_app. cbn [map snd].
    apply set_nth_app. now rewrite length_map. }
  intros H. inversion H as [Hs | es Hn Hd Hnan | es Hn Hd]; subst TRAJ_ID || idtac;
    unfold kl_set, named.
  - subst k_list. cbn -[coerce]. rewrite coerce_num, Hdist. fold c. rewrite Hid.
    now apply rep_same.
  - subst k_list. pose proof Hn as Hn'. pose proof Hd as Hd'.
    apply String.eqb_neq in Hn', Hd'.
    cbn [existsb map fst snd orb]. rewrite Hd'. cbn -[coerce].
    rewrite Hn'. cbn -[coerce]. rewrite coerce_num, Hdist, distances_length.
    replace (length (pre ++ (d, c) :: post)) with (length (pre ++ x :: post))
      by (rewrite !length_app; reflexivity).
    rewrite <- Hnan. fold c. rewrite Hid. now apply rep_added.
  - subst k_list. pose proof Hn as Hn'. pose proof Hd as Hd'.
    apply String.eqb_neq in Hn', Hd'.
    cbn [existsb map fst snd orb]. rewrite Hd'. cbn -[coerce].
    rewrite Hn'. cbn -[coerce]. rewrite coerce_num, Hdist. fold c. rewrite Hid.
    now apply rep_added.
Qed.

Lemma scan_overwrites (d : float) (i : Id) (c : kcell) (post : list Slot) :
  forall (pre : list Slot) (k_list : KFrame),
    represents TRAJ_ID (pre ++ post) k_list ->
    c = coerce (map snd (pre ++ post)) (KObj i) ->
    exists k_list',
      scan (seq (length pre) (length post)) k_list d i = Ok k_list' /\
      represents TRAJ_ID (pre ++ overwrite_with d c post) k_list'.
Proof.
  induction post as [|[x e] post IH]; intros pre k_list Hrep Hc.
  - exists k_list. split; [reflexivity | assumption].
  - cbn [length seq scan overwrite_with].
    rewrite (represents_distance _ _ (length pre) Hrep).
    unfold distances. rewrite map_app. cbn [map fst].
    rewrite nth_error_middle by now rewrite length_map.
    cbn [bind].
    destruct (PrimFloat.ltb d x).
    + eexists. split; [reflexivity|]. rewrite Hc.
      now apply represents_write with (x := (x, e)).
    + assert (Hrep' : represents TRAJ_ID ((pre ++ [(x, e)]) ++ post) k_list)
        by now rewrite <- app_assoc.
      destruct (IH (pre ++ [(x, e)]) k_list Hrep') as [k_list' [Hs Hr]].
      { now rewrite <- app_assoc. }
      rewrite length_app in Hs. cbn [length] in Hs.
      rewrite Nat.add_1_r in Hs.
      exists k_list'. split; [exact Hs|]. now rewrite <- app_assoc in Hr.
Qed.

Lemma new_k_list_represents (k : nat) :
  TRAJ_ID <> "distance"%string ->
  represents TRAJ_ID (repeat (infinity, sentinel TRAJ_ID) k) (new_k_list TRAJ_ID k).
Proof.
  intros Hd. unfold new_k_list, sentinel.
  assert (Hdist : forall c, distances (repeat (infinity, c) k) = repeat (KNum infinity) k).
  { intros c. unfold distances. now rewrite map_repeat. }
  destruct (String.eqb_spec TRAJ_ID "traj_id") as [-> | Hn].
  - rewrite <- (Hdist (KObj (IdStr "empty"))).
    replace (repeat (KObj (IdStr "empty")) k)
      with (map snd (repeat (infinity, KObj (IdStr "empty")) k))
      by now rewrite map_repeat.
    now apply rep_same.
  - rewrite <- (Hdist (KNum nan)). apply rep_fresh; try assumption.
    now rewrite map_repeat, repeat_length.
Qed.

Variable m : Measure.
Variables traj move_df : DataFrame.

Lemma knn_loop_overwrites (first : Row) (rest : list Row) (ids : list Id) :
  rows traj = first :: rest ->
  forall (v : list Slot) (k_list : KFrame) (trace : list Id),
    represents TRAJ_ID v k_list ->
    let others := filter (fun i => negb (Id_eqb i (traj_id first))) ids in
    exists k_list',
      knn_loop m traj move_df (length v) ids k_list trace
      = (Ok k_list', trace ++ others) /\
      represents TRAJ_ID
        (fold_left
           (fun l i => record_first_dominated (m traj (loc_id move_df i)) i l)
           others v)
        k_list'.
Proof.
  intros Hrows. induction ids as [|i ids IH]; intros v k_list trace Hrep; simpl.
  - exists k_list. rewrite app_nil_r. split; [reflexivity | assumption].
  - rewrite Hrows. destruct (negb (Id_eqb i (traj_id first))); simpl.
    + destruct (scan_overwrites (m traj (loc_id move_df i)) i
                  (coerce (map snd v) (KObj i)) v [] k_list Hrep eq_refl)
        as [kl1 [Hs Hr]].
      simpl in Hs, Hr. rewrite Hs.
      destruct (IH _ kl1 (trace ++ [i]) Hr) as [kl2 [Hl Hr2]].
      rewrite overwrite_with_length in Hl.
      exists kl2. rewrite Hl, <- app_assoc. split; [reflexivity | exact Hr2].
    + now apply IH.
Qed.

End TopK.

Section Gather.
Import Pandas Query Statements.

Variable TRAJ_ID : string.
Variable m : Measure.
Variables traj move_df : DataFrame.

Lemma top_k_length (ids : list Id) :
  forall v : list Slot,
    length (fold_left
              (fun l i => record_first_dominated (m traj (loc_id move_df i)) i l)
              ids v)
    = length v.
Proof.
  induction ids as [|i ids IH]; intros v; simpl; [reflexivity|].
  now rewrite IH, overwrite_length.
Qed.

(** Whatever the reference frame holds, a loop that ends without an error
    leaves a frame of one of the three shapes, with as many slots. *)
Lemma knn_loop_represents (ids : list Id) (v : list Slot) (k_list k_list' : KFrame)
    (trace : list Id) :
  represents TRAJ_ID v k_list ->
  fst (knn_loop m traj move_df (length v) ids k_list trace) = Ok k_list' ->
  exists v', length v' = length v /\ represents TRAJ_ID v' k_list'.
Proof.
  intros Hrep Hrun. destruct (rows traj) as [|first rest] eqn:Hrows.
  - destruct ids as [|i ids]; simpl in Hrun; rewrite ?Hrows in Hrun;
      [|discriminate].
    injection Hrun as <-. eauto.
  - destruct (knn_loop_overwrites TRAJ_ID m traj move_df first rest ids Hrows
                v k_list trace Hrep) as [kl [Hl Hr]].
    rewrite Hl in Hrun. injection Hrun as <-.
    eexists. split; [|exact Hr]. apply top_k_length.
Qed.

Lemma gather_written (ts : list kcell) (k_list : KFrame) (post : list kcell) :
  (forall n, kl_get k_list n "traj_id"
             = match nth_error ts n with
               | Some c => Ok c
               | None => Raise KeyError
               end) ->
  forall (pre : list kcell) (result_ : DataFrame),
    ts = pre ++ post ->
    exists out,
      gather (seq (length pre) (length post)) k_list move_df result_ = Ok out /\
      rows out
      = rows result_ ++ flat_map (fun c => filter (cell_is c) (rows move_df)) post.
Proof.
  intros Hget. induction post as [|c post IH]; intros pre result_ Hts.
  - exists result_. simpl. now rewrite app_nil_r.
  - cbn [length seq gather]. rewrite Hget, Hts.
    rewrite nth_error_middle by reflexivity. cbn [bind].
    destruct (IH (pre ++ [c]) (append result_ (loc_cell move_df c))) as [out [Hg Hr]].
    { now rewrite <- app_assoc. }
    rewrite length_app in Hg. cbn [length] in Hg. rewrite Nat.add_1_r in Hg.
    exists out. split; [exact Hg|]. rewrite Hr. simpl. now rewrite <- app_assoc.
Qed.

Lemma slot_points_cells (v : list Slot) :
  slot_points move_df (as_cells v)
  = flat_map (fun c => filter (cell_is c) (rows move_df)) (map snd v).
Proof.
  unfold slot_points, as_cells. induction v as [|s v IH]; simpl; [reflexivity|].
  now rewrite IH.
Qed.

Lemma gather_collects (v : list Slot) (k_list : KFrame) (result_ out : DataFrame) :
  represents TRAJ_ID v k_list ->
  gather (seq 0 (length v)) k_list move_df result_ = Ok out ->
  rows out = rows result_ ++ slot_points move_df (view k_list).
Proof.
  intros Hrep. rewrite (represents_view TRAJ_ID v k_list Hrep), slot_points_cells.
  assert (Hwritten :
            (forall n, kl_get k_list n "traj_id"
                       = match nth_error (map snd v) n with
                         | Some c => Ok c
                         | None => Raise KeyError
                         end) ->
            gather (seq 0 (length v)) k_list move_df result_ = Ok out ->
            rows out
            = rows result_
              ++ flat_map (fun c => filter (cell_is c) (rows move_df)) (map snd v)).
  { intros Hget Hg.
    destruct (gather_written (map snd v) k_list (map snd v) Hget [] result_ eq_refl)
      as [out' [Hg' Hr]].
    rewrite length_map in Hg'. cbn [length] in Hg'.
    assert (Heq : Ok out = Ok out') by (rewrite <- Hg; exact Hg').
    now injection Heq as ->. }
  inversion Hrep as [Hs | es Hn Hd Hnan | es Hn Hd]; subst.
  - apply Hwritten. intros n. reflexivity.
  - destruct v as [|s v]; simpl.
    + intros H. injection H as <-. now rewrite app_nil_r.
    + unfold kl_get, named. apply String.eqb_neq in Hn. cbn [filter fst].
      rewrite Hn. simpl. discriminate.
  - apply Hwritten. intros n. unfold kl_get, named.
    apply String.eqb_neq in Hn. cbn [filter fst]. rewrite Hn. reflexivity.
Qed.

End Gather.

Section Rule.
Import Pandas Query Statements.

Lemma overwrite_at_first (d : float) (i : Id) (pre post : list Slot)
    (x : float) (c : kcell) :
  (forall s, In s pre -> PrimFloat.ltb d (fst s) = false) ->
  PrimFloat.ltb d x = true ->
  overwrite_first_dominated d i (pre ++ (x, c) :: post) = pre ++ (d, KObj i) :: post.
Proof.
  induction pre as [|[y e] pre IH]; intros Hpre Hx; simpl.
  - now rewrite Hx.
  - pose proof (Hpre (y, e) (or_introl eq_refl)) as Hy. cbn [fst] in Hy.
    rewrite Hy. apply f_equal.
    apply IH; [|assumption]. intros s Hs. apply Hpre. now right.
Qed.

Lemma overwrite_none (d : float) (i : Id) (l : list Slot) :
  (forall s, In s l -> PrimFloat.ltb d (fst s) = false) ->
  overwrite_first_dominated d i l = l.
Proof.
  induction l as [|[y e] l IH]; intros Hl; simpl; [reflexivity|].
  pose proof (Hl (y, e) (or_introl eq_refl)) as Hy. cbn [fst] in Hy.
  rewrite Hy. apply f_equal.
  apply IH. intros s Hs. apply Hl. now right.
Qed.

Lemma record_string (d : float) (name : string) (l : list Slot) :
  record_first_dominated d (IdStr name) l = overwrite_first_dominated d (IdStr name) l.
Proof. unfold record_first_dominated. now rewrite overwrite_exact. Qed.

Lemma knn_k_list_recorded (MEDP MEDT TRAJ_ID : string) (medp medt : Measure)
    (traj move_df : DataFrame) (k : Z) (distance : string) (m : Measure)
    (first : Row) (rest : list Row) :
  TRAJ_ID <> "distance"%string ->
  dist_measure MEDP MEDT medp medt distance = Ok m ->
  rows traj = first :: rest ->
  let ids := unique (map traj_id (rows move_df)) in
  exists k_list,
    knn_k_list MEDP MEDT TRAJ_ID medp medt traj move_df k distance
    = {| returned := Ok k_list;
         measured := filter (fun i => negb (Id_eqb i (traj_id first))) ids |} /\
    represents TRAJ_ID
      (recorded TRAJ_ID m traj move_df (Z.to_nat k) (traj_id first) ids) k_list.
Proof.
  intros Hd Hm Hrows ids. unfold knn_k_list. rewrite Hm.
  destruct (knn_loop_overwrites TRAJ_ID m traj move_df first rest ids Hrows
              (repeat (infinity, sentinel TRAJ_ID) (Z.to_nat k))
              (new_k_list TRAJ_ID (Z.to_nat k)) []
              (new_k_list_represents TRAJ_ID (Z.to_nat k) Hd)) as [kl [Hl Hr]].
  rewrite repeat_length in Hl. fold ids. rewrite Hl.
  exists kl. split; [reflexivity | exact Hr].
Qed.

End Rule.

(** C3. What the code does. [knn_query] skips the reference's own id; for
    every other candidate it scans the Top-K list, [k] sentinel slots of
    infinite distance at the start, in slot order, overwrites the first slot
    whose distance strictly exceeds the candidate's with the candidate's
    distance and id (the id as the column of the recorded ids keeps it, a
    string as it is), and stops there, the slots before and after it
    untouched: the rule as stated. On the stated example the rule does not
    end where the claim says. The candidates arrive as A (5), B (2), C (9),
    D (1) and [k = 2]: A fills slot 0, B overwrites it, C fills slot 1, D
    overwrites slot 0. The list ends with D (1) in slot 0 and C (9) in slot
    1; B (2), strictly nearer than C, is lost, and the query returns the row
    of C and not the row of B. *)
Theorem knn_overwrites_first_dominated_slot :
  (forall (d : float) (i : Pandas.Id) (pre post : list Statements.Slot)
          (x : float) (c : Query.kcell),
     (forall s, In s pre -> PrimFloat.ltb d (fst s) = false) ->
     PrimFloat.ltb d x = true ->
     Statements.overwrite_first_dominated d i (pre ++ (x, c) :: post)
     = pre ++ (d, Query.KObj i) :: post) /\
  (forall (d : float) (i : Pandas.Id) (l : list Statements.Slot),
     (forall s, In s l -> PrimFloat.ltb d (fst s) = false) ->
     Statements.overwrite_first_dominated d i l = l) /\
  (forall (d : float) (name : string) (l : list Statements.Slot),
     Statements.record_first_dominated d (Pandas.IdStr name) l
     = Statements.overwrite_first_dominated d (Pandas.IdStr name) l) /\
  (forall (MEDP MEDT TRAJ_ID : string) (medp medt : Query.Measure)
          (traj move_df : Pandas.DataFrame) (k : Z) (distance : string)
          (m : Query.Measure) (first : Pandas.Row) (rest : list Pandas.Row),
     TRAJ_ID <> "distance"%string ->
     Query.dist_measure MEDP MEDT medp medt distance = Pandas.Ok m ->
     Pandas.rows traj = first :: rest ->
     let ids := Pandas.unique (map Pandas.traj_id (Pandas.rows move_df)) in
     exists k_list,
       Query.knn_k_list MEDP MEDT TRAJ_ID medp medt traj move_df k distance
       = {| Query.returned := Pandas.Ok k_list;
            Query.measured :=
              filter (fun i => negb (Pandas.Id_eqb i (Pandas.traj_id first))) ids |} /\
       Statements.view k_list
       = Statements.as_cells
           (Statements.recorded TRAJ_ID m traj move_df (Z.to_nat k)
              (Pandas.traj_id first) ids)) /\
  map (fun i => Examples.line_medp Examples.reference
                  (Pandas.loc_id Examples.neighbours (Pandas.IdStr i)))
    ["A"; "B"; "C"; "D"]%string
  = [5; 2; 9; 1]%float /\
  Query.knn_k_list Examples.MEDP Examples.MEDT Examples.TRAJ_ID
    Examples.line_medp Examples.line_medt Examples.reference
    Examples.neighbours 2 Examples.MEDP
  = {| Query.returned :=
         Pandas.Ok
           [("distance"%string, [Query.KNum 1%float; Query.KNum 9%float]);
            ("id"%string, [Query.KObj (Pandas.IdStr "empty");
                           Query.KObj (Pandas.IdStr "empty")]);
            ("traj_id"%string, [Query.KObj (Pandas.IdStr "D");
                                Query.KObj (Pandas.IdStr "C")])];
       Query.measured := [Pandas.IdStr "A"; Pandas.IdStr "B";
                          Pandas.IdStr "C"; Pandas.IdStr "D"] |} /\
  Statements.view
    [("distance"%string, [Query.KNum 1%float; Query.KNum 9%float]);
     ("id"%string, [Query.KObj (Pandas.IdStr "empty");
                    Query.KObj (Pandas.IdStr "empty")]);
     ("traj_id"%string, [Query.KObj (Pandas.IdStr "D");
                         Query.KObj (Pandas.IdStr "C")])]
  = [(Query.KNum 1%float, Query.KObj (Pandas.IdStr "D"));
     (Query.KNum 9%float, Query.KObj (Pandas.IdStr "C"))] /\
  Statements.top_k Examples.TRAJ_ID Examples.line_medp Examples.reference
    Examples.neighbours 2 (Pandas.IdStr "R")
    [Pandas.IdStr "A"; Pandas.IdStr "R"; Pandas.IdStr "B"; Pandas.IdStr "C";
     Pandas.IdStr "D"]
  = [(1%float, Query.KObj (Pandas.IdStr "D"));
     (9%float, Query.KObj (Pandas.IdStr "C"))] /\
  PrimFloat.ltb 2%float 9%float = true /\
  (exists out,
     Query.returned
       (Query.knn_query Examples.MEDP Examples.MEDT Examples.TRAJ_ID
          Examples.line_medp Examples.line_medt Examples.reference
          Examples.neighbours 2 Examples.MEDP) = Pandas.Ok out /\
     In Examples.KC0 (Pandas.rows out) /\ ~ In Examples.KB0 (Pandas.rows out)).
Proof.
  split; [exact overwrite_at_first|]. split; [exact overwrite_none|].
  split; [exact record_string|]. split.
  - intros MEDP MEDT TRAJ_ID medp medt traj move_df k distance m first rest
      Hd Hm Hrows ids.
    destruct (knn_k_list_recorded MEDP MEDT TRAJ_ID medp medt traj move_df k distance
                m first rest Hd Hm Hrows) as [kl [Hrun Hrep]].
    exists kl. split; [exact Hrun|]. exact (represents_view _ _ _ Hrep).
  - split; [reflexivity|]. split; [reflexivity|]. split; [reflexivity|].
    split; [reflexivity|]. split; [reflexivity|].
    eexists. split; [reflexivity|]. split.
    + cbn. right. right. left. reflexivity.
    + cbn. intros [H | [H | [H | []]]]; discriminate H.
Qed.

(** C6. What [knn_query] returns. A call that returns hands back the rows
    of the reference trajectory first and, after them, the rows of each
    slot's recorded id in slot order, the slots never written adding none.
    On the example (k = 2) the result is R0, then D's row, then C's row,
    where the stated result is D's row, then C's row. With no candidate but
    the reference itself and [k = 1] the column the closing loop reads was
    never created and the call ends in a KeyError. *)
Theorem knn_query_returns_reference_first :
  (forall (MEDP MEDT TRAJ_ID : string) (medp medt : Query.Measure)
          (traj move_df : Pandas.DataFrame) (k : Z) (distance : string)
          (out : Pandas.DataFrame),
     TRAJ_ID <> "distance"%string ->
     Query.returned
       (Query.knn_query MEDP MEDT TRAJ_ID medp medt traj move_df k distance)
     = Pandas.Ok out ->
     exists k_list,
       Query.returned
         (Query.knn_k_list MEDP MEDT TRAJ_ID medp medt traj move_df k distance)
       = Pandas.Ok k_list /\
       Pandas.rows out
       = Pandas.rows traj
         ++ Statements.slot_points move_df (Statements.view k_list)) /\
  (exists out,
     Query.returned
       (Query.knn_query Examples.MEDP Examples.MEDT Examples.TRAJ_ID
          Examples.line_medp Examples.line_medt Examples.reference
          Examples.neighbours 2 Examples.MEDP) = Pandas.Ok out /\
     Pandas.rows out = [Examples.R0; Examples.KD0; Examples.KC0] /\
     Statements.slot_points Examples.neighbours
       [(Query.KNum 1%float, Query.KObj (Pandas.IdStr "D"));
        (Query.KNum 9%float, Query.KObj (Pandas.IdStr "C"))]
     = [Examples.KD0; Examples.KC0]) /\
  Query.returned
    (Query.knn_query Examples.MEDP Examples.MEDT Examples.TRAJ_ID
       Examples.line_medp Examples.line_medt Examples.reference
       Examples.alone 1 Examples.MEDP) = Pandas.Raise Pandas.KeyError.
Proof.
  split; [|split].
  - intros MEDP MEDT TRAJ_ID medp medt traj move_df k distance out Hd Hout.
    unfold Query.knn_query in Hout. cbn [Query.returned] in Hout.
    destruct (Query.returned (Query.knn_k_list MEDP MEDT TRAJ_ID medp medt traj
                                move_df k distance)) as [kl|e] eqn:Hk;
      [|discriminate].
    cbn [Pandas.bind] in Hout. exists kl. split; [reflexivity|].
    unfold Query.knn_k_list in Hk.
    destruct (Query.dist_measure MEDP MEDT medp medt distance) as [m|e];
      [|discriminate].
    pose proof (knn_loop_represents TRAJ_ID m traj move_df
                  (Pandas.unique (map Pandas.traj_id (Pandas.rows move_df)))
                  (repeat (infinity, Statements.sentinel TRAJ_ID) (Z.to_nat k))
                  (Query.new_k_list TRAJ_ID (Z.to_nat k)) kl []
                  (new_k_list_represents TRAJ_ID (Z.to_nat k) Hd)) as Hinv.
    rewrite repeat_length in Hinv.
    destruct (Query.knn_loop _ _ _ _ _ _ _) as [r trace].
    cbn [Query.returned fst] in Hk, Hinv.
    destruct (Hinv Hk) as [v' [Hlen Hrep]].
    rewrite <- Hlen in Hout.
    exact (gather_collects TRAJ_ID move_df v' kl traj out Hrep Hout).
  - eexists. split; [reflexivity|]. split; reflexivity.
  - reflexivity.
Qed.

(* ===================================================================== *)
(** ** The order of the floats *)
(* ===================================================================== *)

Section FloatTransitivity.
Import SpecFloat.

Lemma lex_Lt (e1 e2 : Z) (m1 m2 : positive) :
  match Z.compare e1 e2 with
  | Lt => Lt | Gt => Gt | Eq => Pos.compare_cont Eq m1 m2
  end = Lt <-> (e1 < e2 \/ (e1 = e2 /\ (m1 < m2)%positive))%Z.
Proof.
  fold (Pos.compare m1 m2).
  destruct (Z.compare_spec e1 e2) as [He | He | He];
    destruct (Pos.compare_spec m1 m2) as [Hm | Hm | Hm];
    split; intros H; try discriminate; try reflexivity; try lia; auto.
Qed.

Lemma lex_Eq (e1 e2 : Z) (m1 m2 : positive) :
  match Z.compare e1 e2 with
  | Lt => Lt | Gt => Gt | Eq => Pos.compare_cont Eq m1 m2
  end = Eq <-> (e1 = e2 /\ m1 = m2).
Proof.
  fold (Pos.compare m1 m2).
  destruct (Z.compare_spec e1 e2) as [He | He | He];
    destruct (Pos.compare_spec m1 m2) as [Hm | Hm | Hm];
    split; intros H; try discriminate; try reflexivity; try lia; auto;
    destruct H; subst; lia.
Qed.

Lemma neglex_Lt (e1 e2 : Z) (m1 m2 : positive) :
  match Z.compare e1 e2 with
  | Lt => Gt | Gt => Lt | Eq => CompOpp (Pos.compare_cont Eq m1 m2)
  end = Lt <-> (e2 < e1 \/ (e1 = e2 /\ (m2 < m1)%positive))%Z.
Proof.
  fold (Pos.compare m1 m2).
  destruct (Z.compare_spec e1 e2) as [He | He | He];
    destruct (Pos.compare_spec m1 m2) as [Hm | Hm | Hm];
    split; intros H; try discriminate; try reflexivity; try lia; auto.
Qed.

Lemma neglex_Eq (e1 e2 : Z) (m1 m2 : positive) :
  match Z.compare e1 e2 with
  | Lt => Gt | Gt => Lt | Eq => CompOpp (Pos.compare_cont Eq m1 m2)
  end = Eq <-> (e1 = e2 /\ m1 = m2).
Proof.
  fold (Pos.compare m1 m2).
  destruct (Z.compare_spec e1 e2) as [He | He | He];
    destruct (Pos.compare_spec m1 m2) as [Hm | Hm | Hm];
    split; intros H; try discriminate; try reflexivity; try lia; auto;
    destruct H; subst; lia.
Qed.

(** The comparison of two floats composes: below-or-level twice is
    below-or-level, and below as soon as one step is. *)
Lemma SFcompare_trans (a b c : spec_float) (x y : comparison) :
  SFcompare a b = Some x -> SFcompare b c = Some y ->
  x <> Gt -> y <> Gt ->
  SFcompare a c = Some (match x, y with Eq, Eq => Eq | _, _ => Lt end).
Proof.
  destruct a as [sa|sa| |sa ma ea], b as [sb|sb| |sb mb eb],
           c as [sc|sc| |sc mc ec];
    simpl; intros H1 H2 Hx Hy; try discriminate;
    try (destruct sa); try (destruct sb); try (destruct sc);
    injection H1 as H1; injection H2 as H2; subst x y;
    try congruence; try reflexivity; f_equal.
  all: try (match goal with
            | |- Lt = match ?X with _ => _ end => destruct X; reflexivity
            end).
  - destruct (match Z.compare ea eb with
              | Lt => Gt | Gt => Lt
              | Eq => CompOpp (Pos.compare_cont Eq ma mb) end) eqn:E1;
      destruct (match Z.compare eb ec with
                | Lt => Gt | Gt => Lt
                | Eq => CompOpp (Pos.compare_cont Eq mb mc) end) eqn:E2;
      try congruence; cbn beta iota;
      first [ apply neglex_Lt in E1 | apply neglex_Eq in E1 ];
      first [ apply neglex_Lt in E2 | apply neglex_Eq in E2 ];
      first [ apply neglex_Eq | apply neglex_Lt ]; order_steps.
  - destruct (match Z.compare ea eb with
              | Lt => Lt | Gt => Gt
              | Eq => Pos.compare_cont Eq ma mb end) eqn:E1;
      destruct (match Z.compare eb ec with
                | Lt => Lt | Gt => Gt
                | Eq => Pos.compare_cont Eq mb mc end) eqn:E2;
      try congruence; cbn beta iota;
      first [ apply lex_Lt in E1 | apply lex_Eq in E1 ];
      first [ apply lex_Lt in E2 | apply lex_Eq in E2 ];
      first [ apply lex_Eq | apply lex_Lt ]; order_steps.
Qed.

End FloatTransitivity.

Section FloatFacts.

Lemma ltb_trans (a b c : float) :
  PrimFloat.ltb a b = true -> PrimFloat.ltb b c = true -> PrimFloat.ltb a c = true.
Proof.
  rewrite !FloatAxioms.ltb_spec. unfold SpecFloat.SFltb.
  destruct (SpecFloat.SFcompare (Prim2SF a) (Prim2SF b)) as [[| |]|] eqn:E1;
    try discriminate.
  destruct (SpecFloat.SFcompare (Prim2SF b) (Prim2SF c)) as [[| |]|] eqn:E2;
    try discriminate.
  intros _ _. rewrite (SFcompare_trans _ _ _ _ _ E1 E2); [reflexivity | discriminate ..].
Qed.

Lemma leb_trans (a b c : float) :
  PrimFloat.leb a b = true -> PrimFloat.leb b c = true -> PrimFloat.leb a c = true.
Proof.
  rewrite !FloatAxioms.leb_spec. unfold SpecFloat.SFleb.
  destruct (SpecFloat.SFcompare (Prim2SF a) (Prim2SF b)) as [[| |]|] eqn:E1;
    try discriminate;
    destruct (SpecFloat.SFcompare (Prim2SF b) (Prim2SF c)) as [[| |]|] eqn:E2;
    try discriminate; intros _ _;
    rewrite (SFcompare_trans _ _ _ _ _ E1 E2); try reflexivity; discriminate.
Qed.

Lemma ltb_irrefl (a : float) : PrimFloat.ltb a a = false.
Proof.
  rewrite FloatAxioms.ltb_spec. unfold SpecFloat.SFltb.
  pose proof (SFcompare_antisym (Prim2SF a) (Prim2SF a)) as H.
  destruct (SpecFloat.SFcompare (Prim2SF a) (Prim2SF a)) as [[| |]|];
    try reflexivity. discriminate.
Qed.

Lemma SFcompare_refl (s : SpecFloat.spec_float) :
  s <> SpecFloat.S754_nan -> SpecFloat.SFcompare s s = Some Eq.
Proof.
  destruct s as [b|b| |b m e]; simpl; intros H; try congruence;
    try (destruct b; reflexivity).
  rewrite Z.compare_refl.
  fold (Pos.compare m m). rewrite Pos.compare_refl. now destruct b.
Qed.

(** A NaN is a float that is not even equal to itself; it is neither below
    nor above anything. *)
Lemma is_nan_Prim2SF (x : float) :
  PrimFloat.is_nan x = true -> Prim2SF x = SpecFloat.S754_nan.
Proof.
  unfold PrimFloat.is_nan. rewrite FloatAxioms.eqb_spec. unfold SpecFloat.SFeqb.
  intros H. destruct (Prim2SF x) as [b|b| |b m e] eqn:E; try reflexivity;
    rewrite SFcompare_refl in H by discriminate; discriminate.
Qed.

Lemma leb_nan_r (a x : float) : PrimFloat.is_nan x = true -> PrimFloat.leb a x = false.
Proof.
  intros H. rewrite FloatAxioms.leb_spec, (is_nan_Prim2SF _ H).
  unfold SpecFloat.SFleb. now destruct (Prim2SF a).
Qed.

Lemma leb_nan_l (a x : float) : PrimFloat.is_nan x = true -> PrimFloat.leb x a = false.
Proof.
  intros H. rewrite FloatAxioms.leb_spec, (is_nan_Prim2SF _ H). reflexivity.
Qed.

Lemma ltb_nan_r (a x : float) : PrimFloat.is_nan x = true -> PrimFloat.ltb a x = false.
Proof.
  intros H. rewrite FloatAxioms.ltb_spec, (is_nan_Prim2SF _ H).
  unfold SpecFloat.SFltb. now destruct (Prim2SF a).
Qed.

Lemma ltb_nan_l (a x : float) : PrimFloat.is_nan x = true -> PrimFloat.ltb x a = false.
Proof.
  intros H. rewrite FloatAxioms.ltb_spec, (is_nan_Prim2SF _ H). reflexivity.
Qed.

Lemma ltb_infinity_l (a : float) : PrimFloat.ltb infinity a = false.
Proof.
  rewrite FloatAxioms.ltb_spec.
  change (Prim2SF infinity) with (SpecFloat.S754_infinity false).
  unfold SpecFloat.SFltb. destruct (Prim2SF a) as [b|b| |b m e]; simpl;
    try reflexivity. now destruct b.
Qed.

End FloatFacts.

(* ===================================================================== *)
(** ** The single-pass filters *)
(* ===================================================================== *)

Section DropOutside.
Import Pandas Filters Selection Statements.

Lemma NoDup_filter_labels (p : Row -> bool) (rs : list Row) :
  NoDup (map label rs) -> NoDup (map label (filter p rs)).
Proof.
  induction rs as [|r rs IH]; simpl; intros H; [constructor|].
  inversion H as [|? ? Hr Hrs]; subst.
  destruct (p r); simpl; [|now apply IH].
  constructor; [|now apply IH].
  intros Hin. apply Hr. apply in_map_iff in Hin as [x [Hx Hin]].
  apply filter_In in Hin as [Hin _]. rewrite <- Hx. now apply in_map.
Qed.

Lemma is_unique_of_NoDup (ls : list Z) : NoDup ls -> is_unique ls = true.
Proof.
  induction 1 as [|l ls Hl _ IH]; simpl; [reflexivity|].
  rewrite IH, andb_true_r. destruct (mem_label l ls) eqn:Hm; [|reflexivity].
  apply mem_label_In in Hm. contradiction.
Qed.

Lemma is_unique_filter (p : Row -> bool) (md : DataFrame) :
  is_unique (index md) = true ->
  is_unique (index (set_rows md (filter p (rows md)))) = true.
Proof.
  intros H. apply is_unique_of_NoDup. unfold index. simpl.
  apply NoDup_filter_labels. now apply is_unique_NoDup.
Qed.

(** The labels handed to the drop are labels of the frame, so the drop goes
    through; what stays passed the test; and with unique labels everything
    that passed the test stays. *)
Lemma drop_outside_keeps (p : Row -> bool) (md : DataFrame) (inplace : bool) :
  exists keep : Row -> bool,
    drop_outside md (map p (rows md)) inplace
    = Ok (outcome inplace md (set_rows md (filter keep (rows md)))) /\
    (forall r, In r (rows md) -> keep r = true -> p r = true) /\
    (NoDup (index md) -> filter keep (rows md) = filter p (rows md)).
Proof.
  set (gone := map label (filter (fun r => negb (p r)) (rows md))).
  exists (fun r => negb (mem_label (label r) gone)).
  assert (Hidx : index (mask md (map negb (map p (rows md)))) = gone).
  { unfold index, mask, gone. cbn [rows set_rows]. rewrite map_map.
    now rewrite (mask_rows_map (fun r => negb (p r))). }
  split; [|split].
  - unfold drop_outside. rewrite Hidx. unfold drop.
    replace (forallb _ gone) with true; [reflexivity|].
    symmetry. apply forallb_forall. intros l Hl. apply mem_label_In.
    unfold gone in Hl. apply in_map_iff in Hl as [r [Hr Hin]].
    apply filter_In in Hin as [Hin _]. rewrite <- Hr. unfold index. now apply in_map.
  - intros r Hin Hk. destruct (p r) eqn:Hp; [reflexivity|].
    assert (Hg : In (label r) gone).
    { unfold gone. apply in_map. apply filter_In. now rewrite Hp. }
    apply mem_label_In in Hg. rewrite Hg in Hk. discriminate.
  - intros Hnd. apply filter_ext_in. intros r Hin. unfold gone.
    rewrite (label_selected (fun r => negb (p r)) _ Hnd r Hin).
    now rewrite negb_involutive.
Qed.

Lemma drop_outside_exact (p : Row -> bool) (md : DataFrame) (inplace : bool) :
  is_unique (index md) = true ->
  drop_outside md (map p (rows md)) inplace
  = Ok (outcome inplace md (set_rows md (filter p (rows md)))).
Proof.
  intros Hu. destruct (drop_outside_keeps p md inplace) as [keep [Hrun [_ Hex]]].
  rewrite Hrun, (Hex (is_unique_NoDup _ Hu)). reflexivity.
Qed.

Lemma drop_outside_out (p : Row -> bool) (md : DataFrame) (inplace : bool) :
  is_unique (index md) = true ->
  drop_outside md (map negb (map p (rows md))) inplace
  = Ok (outcome inplace md (set_rows md (filter (fun r => negb (p r)) (rows md)))).
Proof.
  intros Hu. rewrite map_map. now apply (drop_outside_exact (fun r => negb (p r))).
Qed.

End DropOutside.

Section BBox.
Import Pandas Filters Selection Statements.

Lemma inside_bounds (b0 b1 b2 b3 : float) (r : Row) :
  inside (b0, b1, b2, b3) r = true ->
  PrimFloat.leb b0 b2 = true /\ PrimFloat.leb b1 b3 = true.
Proof.
  unfold inside. intros H.
  apply andb_prop in H as [H H3]. apply andb_prop in H as [H H2].
  apply andb_prop in H as [H0 H1].
  split; eapply leb_trans; eassumption.
Qed.

Lemma inside_not_nan (bbox : float * float * float * float) (r : Row) :
  PrimFloat.is_nan (lat r) = true \/ PrimFloat.is_nan (lon r) = true ->
  inside bbox r = false.
Proof.
  destruct bbox as [[[b0 b1] b2] b3]. unfold inside. intros [H | H].
  - now rewrite (leb_nan_r b0 _ H).
  - rewrite (leb_nan_r b1 _ H). now rewrite andb_false_r.
Qed.

End BBox.

(** X1. [by_bbox] never raises, whatever the index of the frame: the labels
    it drops are labels of the frame. Every row it keeps lies inside the box,
    bounds included (outside it with [filter_out]), in the order of the
    frame; with unique index labels it keeps all of them. *)
Theorem by_bbox_keeps_inside (move_data : Pandas.DataFrame)
    (bbox : float * float * float * float) (filter_out inplace : bool) :
  exists keep : Pandas.Row -> bool,
    Selection.by_bbox move_data bbox filter_out inplace
    = Pandas.Ok (Filters.outcome inplace move_data
                   (Pandas.set_rows move_data (filter keep (Pandas.rows move_data)))) /\
    (forall r, In r (Pandas.rows move_data) -> keep r = true ->
       Selection.inside bbox r = negb filter_out) /\
    (Statements.is_unique (Pandas.index move_data) = true ->
       filter keep (Pandas.rows move_data)
       = filter (fun r => xorb filter_out (Selection.inside bbox r))
           (Pandas.rows move_data)).
Proof.
  unfold Selection.by_bbox. destruct filter_out.
  - rewrite map_map.
    destruct (drop_outside_keeps (fun r => negb (Selection.inside bbox r))
                move_data inplace) as [keep [Hrun [Hk Hex]]].
    exists keep. split; [exact Hrun|]. split.
    + intros r Hin Hr. apply Hk in Hr; [|assumption]. now apply negb_true_iff in Hr.
    + intros Hu. rewrite (Hex (is_unique_NoDup _ Hu)). reflexivity.
  - destruct (drop_outside_keeps (Selection.inside bbox) move_data inplace)
      as [keep [Hrun [Hk Hex]]].
    exists keep. split; [exact Hrun|]. split.
    + intros r Hin Hr. now apply Hk.
    + intros Hu. rewrite (Hex (is_unique_NoDup _ Hu)). reflexivity.
Qed.

(** X2. A row whose latitude or longitude is NaN is inside no box: [by_bbox]
    never keeps it and, on a frame with unique index labels, [by_bbox] with
    [filter_out] always keeps it. *)
Theorem by_bbox_NaN_position (move_data : Pandas.DataFrame)
    (bbox : float * float * float * float) (inplace : bool) (r : Pandas.Row) :
  In r (Pandas.rows move_data) ->
  PrimFloat.is_nan (Pandas.lat r) = true \/ PrimFloat.is_nan (Pandas.lon r) = true ->
  (forall out,
     Selection.by_bbox move_data bbox false inplace
     = Pandas.Ok (Filters.outcome inplace move_data out) ->
     ~ In r (Pandas.rows out)) /\
  (Statements.is_unique (Pandas.index move_data) = true ->
   exists out,
     Selection.by_bbox move_data bbox true inplace
     = Pandas.Ok (Filters.outcome inplace move_data out) /\
     In r (Pandas.rows out)).
Proof.
  intros Hin Hnan. pose proof (inside_not_nan bbox r Hnan) as Hout.
  unfold Selection.by_bbox. split.
  - intros out Hrun Hr.
    destruct (drop_outside_keeps (Selection.inside bbox) move_data inplace)
      as [keep [Hrun' [Hk _]]].
    rewrite Hrun' in Hrun.
    assert (Heq : out = Pandas.set_rows move_data
                          (filter keep (Pandas.rows move_data))).
    { destruct inplace; simpl in Hrun; congruence. }
    subst out. simpl in Hr. apply filter_In in Hr as [_ Hr].
    specialize (Hk r Hin Hr). congruence.
  - intros Hu. rewrite (drop_outside_out _ _ inplace Hu).
    eexists. split; [reflexivity|]. cbn [Pandas.rows Pandas.set_rows].
    apply filter_In. split; [assumption|]. now rewrite Hout.
Qed.

Section FilterFacts.

Lemma filter_nil {A : Type} (p : A -> bool) (l : list A) :
  (forall x, In x l -> p x = false) -> filter p l = [].
Proof.
  induction l as [|x l IH]; simpl; intros H; [reflexivity|].
  rewrite (H x (or_introl eq_refl)). apply IH. intros y Hy. apply H. now right.
Qed.

Lemma filter_both {A : Type} (p q : A -> bool) (l : list A) :
  filter q (filter p l) = filter (fun x => p x && q x) l.
Proof.
  induction l as [|x l IH]; simpl; [reflexivity|].
  destruct (p x); simpl; [|assumption]. destruct (q x); now rewrite IH.
Qed.

Lemma filter_split {A : Type} (p : A -> bool) (l : list A) :
  Permutation (filter p l ++ filter (fun x => negb (p x)) l) l.
Proof.
  induction l as [|x l IH]; simpl; [constructor|].
  destruct (p x); simpl.
  - now constructor.
  - apply Permutation_sym.
    apply Permutation_cons_app. now apply Permutation_sym.
Qed.

End FilterFacts.

(** X3. A box whose upper bound lies strictly below its lower bound, in
    latitude or in longitude, holds no point: [by_bbox] returns the frame
    with all its rows removed, whatever the frame. *)
Theorem by_bbox_empty_box (move_data : Pandas.DataFrame) (b0 b1 b2 b3 : float)
    (inplace : bool) :
  PrimFloat.ltb b2 b0 = true \/ PrimFloat.ltb b3 b1 = true ->
  Selection.by_bbox move_data (b0, b1, b2, b3) false inplace
  = Pandas.Ok (Filters.outcome inplace move_data (Pandas.set_rows move_data [])).
Proof.
  intros Hbox. unfold Selection.by_bbox.
  destruct (drop_outside_keeps (Selection.inside (b0, b1, b2, b3)) move_data inplace)
    as [keep [Hrun [Hk _]]].
  rewrite Hrun. rewrite (filter_nil keep); [reflexivity|].
  intros r Hin. destruct (keep r) eqn:Hr; [|reflexivity].
  destruct (inside_bounds b0 b1 b2 b3 r (Hk r Hin Hr)) as [Hlat Hlon].
  apply leb_excludes_ltb in Hlat, Hlon. destruct Hbox; congruence.
Qed.

Lemma by_bbox_empty_box_witness :
  (PrimFloat.ltb 1%float 4%float = true \/ PrimFloat.ltb 9%float 0%float = true) /\
  Selection.by_bbox Samples.scattered (4%float, 0%float, 1%float, 9%float) false false
  = Pandas.Ok (Samples.scattered, Some (Samples.bare [])).
Proof.
  split; [left; reflexivity|].
  exact (by_bbox_empty_box Samples.scattered 4%float 0%float 1%float 9%float false
           (or_introl eq_refl)).
Defined.

Lemma by_bbox_NaN_position_witness :
  In Samples.S1 (Pandas.rows Samples.scattered) /\
  (PrimFloat.is_nan (Pandas.lat Samples.S1) = true
   \/ PrimFloat.is_nan (Pandas.lon Samples.S1) = true) /\
  exists out,
    Selection.by_bbox Samples.scattered (0%float, 0%float, 9%float, 9%float) true false
    = Pandas.Ok (Samples.scattered, Some out) /\
    In Samples.S1 (Pandas.rows out).
Proof.
  assert (Hin : In Samples.S1 (Pandas.rows Samples.scattered))
    by (simpl; right; left; reflexivity).
  split; [exact Hin|]. split; [left; reflexivity|].
  exact (proj2 (by_bbox_NaN_position Samples.scattered
                  (0%float, 0%float, 9%float, 9%float) false Samples.S1
                  Hin (or_introl eq_refl)) eq_refl).
Defined.

(** X4. On a frame with unique index labels two boxes applied one after the
    other keep the rows inside both, whatever the order; the same box twice
    keeps what it kept once. *)
Theorem by_bbox_twice (move_data : Pandas.DataFrame)
    (b b' : float * float * float * float) :
  Statements.is_unique (Pandas.index move_data) = true ->
  exists d1 d1' d2,
    Selection.by_bbox move_data b false false = Pandas.Ok (move_data, Some d1) /\
    Selection.by_bbox d1 b' false false = Pandas.Ok (d1, Some d2) /\
    Selection.by_bbox move_data b' false false = Pandas.Ok (move_data, Some d1') /\
    Selection.by_bbox d1' b false false = Pandas.Ok (d1', Some d2) /\
    Pandas.rows d2
    = filter (fun r => Selection.inside b r && Selection.inside b' r)
        (Pandas.rows move_data) /\
    Selection.by_bbox d1 b false false = Pandas.Ok (d1, Some d1).
Proof.
  intros Hu. unfold Selection.by_bbox.
  set (d1 := Pandas.set_rows move_data
               (filter (Selection.inside b) (Pandas.rows move_data))).
  set (d1' := Pandas.set_rows move_data
                (filter (Selection.inside b') (Pandas.rows move_data))).
  assert (Hu1 : Statements.is_unique (Pandas.index d1) = true)
    by now apply is_unique_filter.
  assert (Hu1' : Statements.is_unique (Pandas.index d1') = true)
    by now apply is_unique_filter.
  exists d1, d1', (Pandas.set_rows d1 (filter (Selection.inside b') (Pandas.rows d1))).
  rewrite (drop_outside_exact (Selection.inside b) move_data false Hu).
  rewrite (drop_outside_exact (Selection.inside b') d1 false Hu1).
  rewrite (drop_outside_exact (Selection.inside b') move_data false Hu).
  rewrite (drop_outside_exact (Selection.inside b) d1' false Hu1').
  rewrite (drop_outside_exact (Selection.inside b) d1 false Hu1).
  split; [reflexivity|]. split; [reflexivity|]. split; [reflexivity|].
  assert (Hrows : forall p q : Pandas.Row -> bool,
            Pandas.set_rows (Pandas.set_rows move_data (filter p (Pandas.rows move_data)))
              (filter q (Pandas.rows (Pandas.set_rows move_data
                                        (filter p (Pandas.rows move_data)))))
            = Pandas.set_rows move_data
                (filter (fun r => p r && q r) (Pandas.rows move_data))).
  { intros p q. unfold Pandas.set_rows. simpl. now rewrite filter_both. }
  unfold d1, d1'. rewrite !Hrows. split; [|split].
  - replace (filter (fun r => Selection.inside b' r && Selection.inside b r)
               (Pandas.rows move_data))
      with (filter (fun r => Selection.inside b r && Selection.inside b' r)
              (Pandas.rows move_data))
      by (apply filter_ext; intros r; apply andb_comm).
    reflexivity.
  - reflexivity.
  - replace (filter (fun r => Selection.inside b r && Selection.inside b r)
               (Pandas.rows move_data))
      with (filter (Selection.inside b) (Pandas.rows move_data))
      by (apply filter_ext; intros r; now destruct (Selection.inside b r)).
    reflexivity.
Qed.

Lemma by_bbox_twice_witness :
  Statements.is_unique (Pandas.index Samples.scattered) = true /\
  exists d1 d1' d2,
    Selection.by_bbox Samples.scattered (0%float, 0%float, 5%float, 5%float) false false
    = Pandas.Ok (Samples.scattered, Some d1) /\
    Selection.by_bbox d1 (2%float, 2%float, 9%float, 9%float) false false
    = Pandas.Ok (d1, Some d2) /\
    Selection.by_bbox Samples.scattered (2%float, 2%float, 9%float, 9%float) false false
    = Pandas.Ok (Samples.scattered, Some d1') /\
    Selection.by_bbox d1' (0%float, 0%float, 5%float, 5%float) false false
    = Pandas.Ok (d1', Some d2) /\
    Pandas.rows d2 = [Samples.S2; Samples.S3].
Proof.
  split; [reflexivity|].
  destruct (by_bbox_twice Samples.scattered (0%float, 0%float, 5%float, 5%float)
              (2%float, 2%float, 9%float, 9%float) eq_refl)
    as [d1 [d1' [d2 [H1 [H2 [H3 [H4 [H5 _]]]]]]]].
  exists d1, d1', d2. repeat split; assumption.
Defined.

(** X5. [by_datetime] on a frame with unique index labels keeps the rows
    whose time lies between the two bounds, both included; with the end
    bound alone the rows up to it, with the start bound alone the rows from
    it on; [filter_out] keeps the others. A window that ends strictly before
    it starts keeps no row of any frame. *)
Theorem by_datetime_window
    (compared_with_None : Pandas.DataFrame -> Pandas.result (list bool))
    (move_data : Pandas.DataFrame) (filter_out inplace : bool) :
  (Statements.is_unique (Pandas.index move_data) = true ->
   (forall s e,
      Selection.by_datetime compared_with_None move_data (Some s) (Some e)
        filter_out inplace
      = Pandas.Ok (Filters.outcome inplace move_data
          (Pandas.set_rows move_data
             (filter (fun r => xorb filter_out
                                 (PrimFloat.leb s (Pandas.datetime r)
                                  && PrimFloat.leb (Pandas.datetime r) e))
                (Pandas.rows move_data))))) /\
   (forall e,
      Selection.by_datetime compared_with_None move_data None (Some e)
        filter_out inplace
      = Pandas.Ok (Filters.outcome inplace move_data
          (Pandas.set_rows move_data
             (filter (fun r => xorb filter_out (PrimFloat.leb (Pandas.datetime r) e))
                (Pandas.rows move_data))))) /\
   (forall s,
      Selection.by_datetime compared_with_None move_data (Some s) None
        filter_out inplace
      = Pandas.Ok (Filters.outcome inplace move_data
          (Pandas.set_rows move_data
             (filter (fun r => xorb filter_out (PrimFloat.leb s (Pandas.datetime r)))
                (Pandas.rows move_data)))))) /\
  (forall s e,
     PrimFloat.ltb e s = true ->
     Selection.by_datetime compared_with_None move_data (Some s) (Some e) false inplace
     = Pandas.Ok (Filters.outcome inplace move_data (Pandas.set_rows move_data []))).
Proof.
  assert (Hmode : forall p : Pandas.Row -> bool,
            Statements.is_unique (Pandas.index move_data) = true ->
            Selection.drop_outside move_data
              (if filter_out then map negb (map p (Pandas.rows move_data))
               else map p (Pandas.rows move_data)) inplace
            = Pandas.Ok (Filters.outcome inplace move_data
                (Pandas.set_rows move_data
                   (filter (fun r => xorb filter_out (p r)) (Pandas.rows move_data))))).
  { intros p Hu. destruct filter_out.
    - now rewrite (drop_outside_out p move_data inplace Hu).
    - now rewrite (drop_outside_exact p move_data inplace Hu). }
  split.
  - intros Hu. repeat split; intros; unfold Selection.by_datetime; cbn [Pandas.bind];
      now rewrite Hmode.
  - intros s e Hlt. unfold Selection.by_datetime. cbn [Pandas.bind].
    destruct (drop_outside_keeps
                (fun r => PrimFloat.leb s (Pandas.datetime r)
                          && PrimFloat.leb (Pandas.datetime r) e)
                move_data inplace) as [keep [Hrun [Hk _]]].
    rewrite Hrun, (filter_nil keep); [reflexivity|].
    intros r Hin. destruct (keep r) eqn:Hr; [|reflexivity].
    apply Hk in Hr; [|assumption]. apply andb_prop in Hr as [H1 H2].
    pose proof (leb_trans _ _ _ H1 H2) as Hse.
    apply leb_excludes_ltb in Hse. congruence.
Qed.

Lemma by_datetime_window_witness :
  Statements.is_unique (Pandas.index Samples.scattered) = true /\
  Selection.by_datetime (fun _ => Pandas.Raise Pandas.TypeError) Samples.scattered
    (Some 10%float) (Some 20%float) false false
  = Pandas.Ok (Samples.scattered, Some (Samples.bare [Samples.S1; Samples.S2])) /\
  PrimFloat.ltb 5%float 10%float = true /\
  Selection.by_datetime (fun _ => Pandas.Raise Pandas.TypeError) Samples.scattered
    (Some 10%float) (Some 5%float) false false
  = Pandas.Ok (Samples.scattered, Some (Samples.bare [])).
Proof.
  split; [reflexivity|]. split.
  - exact (proj1 (proj1 (by_datetime_window (fun _ => Pandas.Raise Pandas.TypeError)
                           Samples.scattered false false) eq_refl)
             10%float 20%float).
  - split; [reflexivity|].
    exact (proj2 (by_datetime_window (fun _ => Pandas.Raise Pandas.TypeError)
                    Samples.scattered false false) 10%float 5%float eq_refl).
Defined.

Section ByLabelFacts.
Import Pandas Filters Selection Statements.

Variable V : Type.
Variable eqb : V -> V -> bool.

Lemma by_label_exact (md : DataFrame) (value : V) (column : Row -> V)
    (filter_out inplace : bool) :
  is_unique (index md) = true ->
  by_label eqb md value (Some column) filter_out inplace
  = Ok (outcome inplace md
          (set_rows md
             (filter (fun r => xorb filter_out (eqb (column r) value)) (rows md)))).
Proof.
  intros Hu. unfold by_label. destruct filter_out.
  - now rewrite (drop_outside_out (fun r => eqb (column r) value) md inplace Hu).
  - now rewrite (drop_outside_exact (fun r => eqb (column r) value) md inplace Hu).
Qed.

End ByLabelFacts.

(** X6. [by_label] raises KeyError for a label the frame does not carry,
    in both modes. For a column of the frame it never raises and keeps only
    rows whose cell equals the value (differs from it with [filter_out]);
    with unique index labels it keeps all of them, in order, and the rows of
    the two modes together are the rows of the frame. *)
Theorem by_label_selects (V : Type) (eqb : V -> V -> bool)
    (move_data : Pandas.DataFrame) (value : V) (column : Pandas.Row -> V)
    (inplace : bool) :
  (forall filter_out,
     Selection.by_label eqb move_data value None filter_out inplace
     = Pandas.Raise Pandas.KeyError) /\
  (forall filter_out, exists keep,
     Selection.by_label eqb move_data value (Some column) filter_out inplace
     = Pandas.Ok (Filters.outcome inplace move_data
                    (Pandas.set_rows move_data (filter keep (Pandas.rows move_data)))) /\
     forall r, In r (Pandas.rows move_data) -> keep r = true ->
               eqb (column r) value = negb filter_out) /\
  (Statements.is_unique (Pandas.index move_data) = true ->
   exists same other,
     Selection.by_label eqb move_data value (Some column) false inplace
     = Pandas.Ok (Filters.outcome inplace move_data same) /\
     Selection.by_label eqb move_data value (Some column) true inplace
     = Pandas.Ok (Filters.outcome inplace move_data other) /\
     Pandas.rows same
     = filter (fun r => eqb (column r) value) (Pandas.rows move_data) /\
     Pandas.rows other
     = filter (fun r => negb (eqb (column r) value)) (Pandas.rows move_data) /\
     Permutation (Pandas.rows same ++ Pandas.rows other) (Pandas.rows move_data)).
Proof.
  split; [reflexivity|]. split.
  - intros filter_out. unfold Selection.by_label. destruct filter_out.
    + rewrite map_map.
      destruct (drop_outside_keeps (fun r => negb (eqb (column r) value))
                  move_data inplace) as [keep [Hrun [Hk _]]].
      exists keep. split; [exact Hrun|]. intros r Hin Hr.
      apply Hk in Hr; [|assumption]. now apply negb_true_iff in Hr.
    + destruct (drop_outside_keeps (fun r => eqb (column r) value)
                  move_data inplace) as [keep [Hrun [Hk _]]].
      exists keep. split; [exact Hrun|]. intros r Hin Hr. now apply Hk.
  - intros Hu. do 2 eexists.
    split; [apply by_label_exact; assumption|].
    split; [apply by_label_exact; assumption|].
    cbn [Pandas.rows Pandas.set_rows xorb]. repeat split.
    apply filter_split.
Qed.

Lemma by_label_selects_witness :
  Statements.is_unique (Pandas.index Samples.scattered) = true /\
  exists same other,
    Selection.by_id Samples.scattered (Pandas.IdInt 2) Selection.TRAJ_ID false false
    = Pandas.Ok (Samples.scattered, Some same) /\
    Selection.by_id Samples.scattered (Pandas.IdInt 2) Selection.TRAJ_ID true false
    = Pandas.Ok (Samples.scattered, Some other) /\
    Pandas.rows same = [Samples.S3; Samples.S4] /\
    Pandas.rows other = [Samples.S0; Samples.S1; Samples.S2].
Proof.
  split; [reflexivity|].
  destruct (proj2 (proj2 (by_label_selects Pandas.Id Pandas.Id_eqb Samples.scattered
                            (Pandas.IdInt 2) Pandas.traj_id false)) eq_refl)
    as [same [other [H1 [H2 [H3 [H4 _]]]]]].
  exists same, other. repeat split; assumption.
Defined.

(** X7. Selecting one id and then another one from a frame with unique index
    labels leaves no row; selecting the same id again changes nothing; and a
    selection by an id that does not occur empties the frame. *)
Theorem by_id_twice (move_data : Pandas.DataFrame) (i j : Pandas.Id) :
  Statements.is_unique (Pandas.index move_data) = true ->
  exists d,
    Selection.by_id move_data i Selection.TRAJ_ID false false
    = Pandas.Ok (move_data, Some d) /\
    Pandas.rows d = Pandas.rows_of_id move_data i /\
    Selection.by_id d i Selection.TRAJ_ID false false = Pandas.Ok (d, Some d) /\
    (i <> j ->
     Selection.by_id d j Selection.TRAJ_ID false false
     = Pandas.Ok (d, Some (Pandas.set_rows d []))) /\
    (~ In i (map Pandas.traj_id (Pandas.rows move_data)) -> Pandas.rows d = []).
Proof.
  intros Hu. unfold Selection.by_id, Selection.TRAJ_ID.
  set (d := Pandas.set_rows move_data (Pandas.rows_of_id move_data i)).
  assert (Hud : Statements.is_unique (Pandas.index d) = true)
    by (apply is_unique_filter; assumption).
  exists d. rewrite !by_label_exact by assumption. cbn [xorb].
  split; [reflexivity|]. split; [reflexivity|]. split; [|split].
  - unfold d, Pandas.rows_of_id. cbn [Pandas.rows Pandas.set_rows].
    rewrite filter_both.
    replace (filter (fun r => Pandas.Id_eqb (Pandas.traj_id r) i
                              && Pandas.Id_eqb (Pandas.traj_id r) i)
               (Pandas.rows move_data))
      with (filter (fun r => Pandas.Id_eqb (Pandas.traj_id r) i)
              (Pandas.rows move_data))
      by (apply filter_ext; intros r;
          now destruct (Pandas.Id_eqb (Pandas.traj_id r) i)).
    reflexivity.
  - intros Hij. unfold d, Pandas.rows_of_id. cbn [Pandas.rows Pandas.set_rows].
    rewrite filter_both.
    rewrite (filter_nil (fun r => Pandas.Id_eqb (Pandas.traj_id r) i
                                  && Pandas.Id_eqb (Pandas.traj_id r) j));
      [reflexivity|].
    intros r _.
    destruct (Pandas.Id_eqb (Pandas.traj_id r) i) eqn:Hi; [|reflexivity].
    destruct (Pandas.Id_eqb (Pandas.traj_id r) j) eqn:Hj; [|reflexivity].
    apply Id_eqb_eq in Hi, Hj. congruence.
  - intros Hno. unfold d, Pandas.rows_of_id. cbn [Pandas.rows Pandas.set_rows].
    apply filter_nil. intros r Hin.
    destruct (Pandas.Id_eqb (Pandas.traj_id r) i) eqn:Hi; [|reflexivity].
    apply Id_eqb_eq in Hi. exfalso. apply Hno. rewrite <- Hi. now apply in_map.
Qed.

Lemma by_id_twice_witness :
  Statements.is_unique (Pandas.index Samples.scattered) = true /\
  exists d,
    Selection.by_id Samples.scattered (Pandas.IdInt 1) Selection.TRAJ_ID false false
    = Pandas.Ok (Samples.scattered, Some d) /\
    Pandas.rows d = [Samples.S0; Samples.S1; Samples.S2] /\
    Selection.by_id d (Pandas.IdInt 2) Selection.TRAJ_ID false false
    = Pandas.Ok (d, Some (Pandas.set_rows d [])).
Proof.
  split; [reflexivity|].
  destruct (by_id_twice Samples.scattered (Pandas.IdInt 1) (Pandas.IdInt 2) eq_refl)
    as [d [H1 [H2 [_ [H4 _]]]]].
  exists d. split; [exact H1|]. split; [exact H2|]. apply H4. discriminate.
Defined.

(* ===================================================================== *)
(** ** Consecutive duplicates *)
(* ===================================================================== *)

Section MaskByPosition.
Import Pandas Filters Selection Statements.

Lemma mask_rows_labels (rs : list Row) (m : list bool) (l : Z) :
  In l (map label (mask_rows rs m)) -> In l (map label rs).
Proof.
  revert m. induction rs as [|r rs IH]; intros m; simpl; [now destruct m|].
  destruct m as [|b m]; simpl; [contradiction|].
  destruct b; simpl; intros H.
  - destruct H as [H | H]; [now left | right; eauto].
  - right. eauto.
Qed.

(** Dropping the labels of the rows a mask leaves out keeps the rows the
    mask selects, when no label occurs twice. *)
Lemma drop_unmasked (rs : list Row) :
  forall (m : list bool) (pre : list Z),
    NoDup (map label rs) ->
    length m = length rs ->
    (forall l, In l (map label rs) -> ~ In l pre) ->
    filter
      (fun r => negb (mem_label (label r)
                        (pre ++ map label (mask_rows rs (map negb m)))))
      rs
    = mask_rows rs m.
Proof.
  induction rs as [|r rs IH]; intros m pre Hnd Hlen Hpre; [reflexivity|].
  destruct m as [|b m]; [discriminate|].
  inversion Hnd as [|? ? Hr Hnd']; subst.
  injection Hlen as Hlen. cbn [map negb mask_rows filter].
  destruct b; cbn [negb].
  - assert (Hkept : mem_label (label r)
                      (pre ++ map label (mask_rows rs (map negb m))) = false).
    { destruct (mem_label _ _) eqn:Hm; [|reflexivity].
      apply mem_label_In in Hm. apply in_app_or in Hm as [Hm | Hm].
      - exfalso. apply (Hpre (label r)); [now left | assumption].
      - exfalso. apply Hr. eapply mask_rows_labels; eassumption. }
    rewrite Hkept. cbn [negb]. f_equal.
    apply IH; try assumption. intros l Hl. apply Hpre. now right.
  - assert (Hgone : mem_label (label r)
                      (pre ++ map label (r :: mask_rows rs (map negb m))) = true).
    { apply mem_label_In. apply in_or_app. right. now left. }
    rewrite Hgone. cbn [negb].
    replace (pre ++ map label (r :: mask_rows rs (map negb m)))
      with ((pre ++ [label r]) ++ map label (mask_rows rs (map negb m)))
      by (rewrite <- app_assoc; reflexivity).
    apply IH; try assumption.
    intros l Hl Hin. apply in_app_or in Hin as [Hin | [<- | []]].
    + apply (Hpre l); [now right | assumption].
    + contradiction.
Qed.

Lemma forallb_labels_in (rs : list Row) (m : list bool) :
  forallb (fun l => mem_label l (map label rs)) (map label (mask_rows rs m)) = true.
Proof.
  apply forallb_forall. intros l Hl. apply mem_label_In.
  eapply mask_rows_labels; eassumption.
Qed.

Lemma drop_outside_mask (md : DataFrame) (m : list bool) (inplace : bool) :
  is_unique (index md) = true ->
  length m = length (rows md) ->
  drop_outside md m inplace
  = Ok (outcome inplace md (set_rows md (mask_rows (rows md) m))).
Proof.
  intros Hu Hlen. unfold drop_outside, drop, index, mask.
  cbn [rows set_rows]. rewrite forallb_labels_in. cbn [bind].
  do 3 f_equal.
  apply (drop_unmasked (rows md) m [] (is_unique_NoDup _ Hu) Hlen).
  intros l _ [].
Qed.

Lemma differs_from_previous_length (f64 : bool) (cs : list ColName) (rs : list Row) :
  forall prev, length (differs_from_previous f64 cs prev rs) = length rs.
Proof.
  induction rs as [|r rs IH]; intros prev; simpl; [reflexivity | now rewrite IH].
Qed.

Lemma differs_from_next_length (f64 : bool) (cs : list ColName) (rs : list Row) :
  length (differs_from_next f64 cs rs) = length rs.
Proof.
  induction rs as [|r rs IH]; simpl; [reflexivity | now rewrite IH].
Qed.

(** Membership in the rows a mask selects, for the row that stands after
    [pre], when no label occurs twice. *)
Lemma mask_rows_middle (pre post : list Row) (r : Row) (mpre mpost : list bool)
    (b : bool) :
  NoDup (map label (pre ++ r :: post)) ->
  length mpre = length pre ->
  (In r (mask_rows (pre ++ r :: post) (mpre ++ b :: mpost)) <-> b = true).
Proof.
  intros Hnd Hlen.
  assert (Hout : forall rs m, In r (mask_rows rs m) -> In (label r) (map label rs)).
  { intros rs m Hin. apply (mask_rows_labels rs m). now apply in_map. }
  revert mpre Hlen Hnd. induction pre as [|x pre IH]; intros mpre Hlen Hnd.
  - destruct mpre; [|discriminate]. simpl in *.
    inversion Hnd as [|? ? Hr _]; subst. destruct b; simpl.
    + split; [reflexivity | now left].
    + split; [|discriminate]. intros Hin. exfalso. apply Hr. eapply Hout; eassumption.
  - destruct mpre as [|c mpre]; [discriminate|]. injection Hlen as Hlen.
    simpl in Hnd. inversion Hnd as [|? ? Hx Hnd']; subst.
    cbn [app mask_rows]. rewrite <- (IH mpre Hlen Hnd').
    destruct c; [|reflexivity]. split; [|now right].
    intros [Heq | Hin]; [|assumption].
    exfalso. apply Hx. subst x. rewrite map_app. apply in_or_app. right. now left.
Qed.

Lemma differs_from_previous_middle (f64 : bool) (cs : list ColName) (pre : list Row)
    (p r : Row) (post : list Row) :
  forall prev, exists mpre mpost,
    differs_from_previous f64 cs prev (pre ++ p :: r :: post)
    = mpre ++ differs f64 cs (Some p) r :: mpost /\
    length mpre = length (pre ++ [p]).
Proof.
  induction pre as [|x pre IH]; intros prev.
  - exists [differs f64 cs prev p], (differs_from_previous f64 cs (Some r) post).
    split; reflexivity.
  - destruct (IH (Some x)) as [mpre [mpost [Heq Hlen]]].
    exists (differs f64 cs prev x :: mpre), mpost.
    cbn [app differs_from_previous length]. rewrite Heq. split; [reflexivity|].
    now rewrite Hlen.
Qed.

Lemma differs_from_next_middle (f64 : bool) (cs : list ColName) (pre : list Row) (r : Row)
    (post : list Row) :
  exists mpre mpost,
    differs_from_next f64 cs (pre ++ r :: post)
    = mpre ++ differs f64 cs (hd_error post) r :: mpost /\
    length mpre = length pre.
Proof.
  induction pre as [|x pre IH].
  - exists [], (differs_from_next f64 cs post). split; reflexivity.
  - destruct IH as [mpre [mpost [Heq Hlen]]].
    exists (differs f64 cs (hd_error (pre ++ r :: post)) x :: mpre), mpost.
    cbn [app differs_from_next length]. rewrite Heq. split; [reflexivity|].
    now rewrite Hlen.
Qed.

End MaskByPosition.

Section DuplicateFacts.
Import Pandas Filters Selection Statements.

Lemma eqb_nan_r (y x : float) : PrimFloat.is_nan x = true -> PrimFloat.eqb y x = false.
Proof.
  intros H. rewrite FloatAxioms.eqb_spec, (is_nan_Prim2SF _ H).
  unfold SpecFloat.SFeqb. now destruct (Prim2SF y).
Qed.

Lemma compared_num (f64 : bool) (c : ColName) (r : Row) (x : float) :
  value_of c r = VNum x -> compared f64 c r = VNum x.
Proof.
  destruct c; simpl; try discriminate; destruct (traj_id r); trivial.
Qed.

Lemma differs_exists (f64 : bool) (cs : list ColName) (partner : option Row) (r : Row) :
  differs f64 cs partner r = true <->
  exists c, In c cs /\
    ne (match partner with Some p => compared f64 c p | None => VNaN end)
      (compared f64 c r)
    = true.
Proof.
  destruct partner as [p|]; unfold differs; rewrite existsb_exists; reflexivity.
Qed.

(** A NaN in a compared column makes the row differ from any partner. *)
Lemma differs_NaN (f64 : bool) (cs : list ColName) (partner : option Row) (r : Row)
    (c : ColName) (x : float) :
  In c cs -> value_of c r = VNum x -> PrimFloat.is_nan x = true ->
  differs f64 cs partner r = true.
Proof.
  intros Hc Hv Hnan. apply differs_exists. exists c. split; [assumption|].
  rewrite (compared_num f64 c r x Hv). destruct partner as [p|]; [|reflexivity].
  destruct (compared f64 c p); try reflexivity.
  cbn [ne]. now rewrite (eqb_nan_r _ _ Hnan).
Qed.

Lemma duplicates_first_rows (md : DataFrame) (subset : Subset) (cs : list ColName)
    (inplace : bool) :
  compared_columns md subset = Ok cs ->
  is_unique (index md) = true ->
  clean_consecutive_duplicates md subset keep_first inplace
  = Ok (outcome inplace md
          (set_rows md
             (mask_rows (rows md)
                (differs_from_previous (int64_ids md) cs None (rows md))))).
Proof.
  intros Hcs Hu. unfold clean_consecutive_duplicates. rewrite Hcs. cbn [bind].
  apply drop_outside_mask; [assumption | apply differs_from_previous_length].
Qed.

Lemma duplicates_next_rows (md : DataFrame) (subset : Subset) (cs : list ColName)
    (keep : Keep) (inplace : bool) :
  compared_columns md subset = Ok cs ->
  is_unique (index md) = true ->
  keep <> keep_first ->
  clean_consecutive_duplicates md subset keep inplace
  = Ok (outcome inplace md
          (set_rows md
             (mask_rows (rows md) (differs_from_next (int64_ids md) cs (rows md))))).
Proof.
  intros Hcs Hu Hk. unfold clean_consecutive_duplicates. rewrite Hcs. cbn [bind].
  destruct keep; [congruence | |];
    (apply drop_outside_mask; [assumption | apply differs_from_next_length]).
Qed.

End DuplicateFacts.

(** X8. [clean_consecutive_duplicates] with [keep='first'], on a frame with
    unique index labels: a row that follows another one stays exactly when
    it differs from the row just before it in at least one compared column,
    and the first row of the frame stays as soon as a column is compared.
    The cells are compared as the shifted frame holds them: in an int64 id
    column two ids differ when their float64 values do. *)
Theorem consecutive_duplicates_keep_first (move_data : Pandas.DataFrame)
    (subset : Selection.Subset) (cs : list Selection.ColName) (inplace : bool) :
  Selection.compared_columns move_data subset = Pandas.Ok cs ->
  Statements.is_unique (Pandas.index move_data) = true ->
  let as_float64 := Selection.int64_ids move_data in
  exists out,
    Selection.clean_consecutive_duplicates move_data subset Selection.keep_first inplace
    = Pandas.Ok (Filters.outcome inplace move_data out) /\
    (forall pre p r post,
       Pandas.rows move_data = pre ++ p :: r :: post ->
       (In r (Pandas.rows out) <->
        exists c, In c cs /\
          Selection.ne (Selection.compared as_float64 c p)
            (Selection.compared as_float64 c r) = true)) /\
    (forall first rest,
       Pandas.rows move_data = first :: rest -> cs <> [] ->
       In first (Pandas.rows out)).
Proof.
  intros Hcs Hu f64. eexists. split; [apply duplicates_first_rows; eassumption|].
  cbn [Pandas.rows Pandas.set_rows]. fold f64.
  pose proof (is_unique_NoDup _ Hu) as Hnd. unfold Pandas.index in Hnd.
  clearbody f64. split.
  - intros pre p r post Hrows. rewrite Hrows in *.
    destruct (differs_from_previous_middle f64 cs pre p r post None)
      as [mpre [mpost [Hm Hlen]]].
    rewrite Hm.
    replace (pre ++ p :: r :: post) with ((pre ++ [p]) ++ r :: post) in *
      by (rewrite <- app_assoc; reflexivity).
    rewrite (mask_rows_middle _ _ _ _ mpost _ Hnd Hlen).
    apply (differs_exists f64 cs (Some p) r).
  - intros first rest Hrows Hne. rewrite Hrows in *.
    cbn [Selection.differs_from_previous].
    apply (mask_rows_middle [] rest first [] _ _ Hnd eq_refl).
    apply differs_exists. destruct cs as [|c cs']; [congruence|].
    exists c. split; [now left | reflexivity].
Qed.

(** A point recorded twice: the second record goes. And three points alike
    but for their ids 2^53, 2^53 + 1 and 2^53 + 3: float64 holds the first
    two as one number, so the second point goes as a duplicate of the
    first, and the third stays. *)
Lemma consecutive_duplicates_keep_first_witness :
  Selection.compared_columns Samples.repeated Selection.no_subset
  = Pandas.Ok (Selection.all_columns Samples.repeated) /\
  Statements.is_unique (Pandas.index Samples.repeated) = true /\
  (exists out,
     Selection.clean_consecutive_duplicates Samples.repeated Selection.no_subset
       Selection.keep_first false
     = Pandas.Ok (Samples.repeated, Some out) /\
     In Samples.D0 (Pandas.rows out) /\ ~ In Samples.D1 (Pandas.rows out)) /\
  Selection.clean_consecutive_duplicates Samples.close_ids Selection.no_subset
    Selection.keep_first false
  = Pandas.Ok (Samples.close_ids, Some (Samples.bare [Samples.G0; Samples.G2])).
Proof.
  split; [reflexivity|]. split; [reflexivity|]. split; [|reflexivity].
  destruct (consecutive_duplicates_keep_first Samples.repeated Selection.no_subset
              (Selection.all_columns Samples.repeated) false eq_refl eq_refl)
    as [out [Hrun [Hnext Hfirst]]].
  exists out. split; [exact Hrun|]. split.
  - apply (Hfirst Samples.D0 [Samples.D1; Samples.D2; Samples.D3] eq_refl).
    discriminate.
  - intros Hin.
    apply (Hnext [] Samples.D0 Samples.D1 [Samples.D2; Samples.D3] eq_refl) in Hin.
    destruct Hin as [c [Hc Hne]].
    simpl in Hc.
    repeat (destruct Hc as [<- | Hc]; [vm_compute in Hne; discriminate Hne|]).
    exact Hc.
Defined.

(** X9. [clean_consecutive_duplicates] with [keep='last'], and just the same
    with [keep=False], on a frame with unique index labels: a row that
    precedes another one stays exactly when it differs from the row just
    after it in at least one compared column, and the last row of the frame
    stays as soon as a column is compared. The cells are compared as the
    shifted frame holds them: in an int64 id column two ids differ when
    their float64 values do. *)
Theorem consecutive_duplicates_keep_last (move_data : Pandas.DataFrame)
    (subset : Selection.Subset) (cs : list Selection.ColName) (inplace : bool) :
  Selection.compared_columns move_data subset = Pandas.Ok cs ->
  Statements.is_unique (Pandas.index move_data) = true ->
  let as_float64 := Selection.int64_ids move_data in
  exists out,
    Selection.clean_consecutive_duplicates move_data subset Selection.keep_last inplace
    = Pandas.Ok (Filters.outcome inplace move_data out) /\
    Selection.clean_consecutive_duplicates move_data subset Selection.keep_False inplace
    = Pandas.Ok (Filters.outcome inplace move_data out) /\
    (forall pre r n post,
       Pandas.rows move_data = pre ++ r :: n :: post ->
       (In r (Pandas.rows out) <->
        exists c, In c cs /\
          Selection.ne (Selection.compared as_float64 c n)
            (Selection.compared as_float64 c r) = true)) /\
    (forall pre r,
       Pandas.rows move_data = pre ++ [r] -> cs <> [] -> In r (Pandas.rows out)).
Proof.
  intros Hcs Hu f64. eexists.
  split; [apply (duplicates_next_rows _ _ _ _ _ Hcs Hu); discriminate|].
  split; [apply (duplicates_next_rows _ _ _ _ _ Hcs Hu); discriminate|].
  cbn [Pandas.rows Pandas.set_rows]. fold f64.
  pose proof (is_unique_NoDup _ Hu) as Hnd. unfold Pandas.index in Hnd.
  clearbody f64. split.
  - intros pre r n post Hrows. rewrite Hrows in *.
    destruct (differs_from_next_middle f64 cs pre r (n :: post))
      as [mpre [mpost [Hm Hlen]]].
    rewrite Hm, (mask_rows_middle _ _ _ _ mpost _ Hnd Hlen).
    apply (differs_exists f64 cs (Some n) r).
  - intros pre r Hrows Hne. rewrite Hrows in *.
    destruct (differs_from_next_middle f64 cs pre r []) as [mpre [mpost [Hm Hlen]]].
    rewrite Hm. apply (mask_rows_middle _ _ _ _ mpost _ Hnd Hlen).
    apply differs_exists. destruct cs as [|c cs']; [congruence|].
    exists c. split; [now left | reflexivity].
Qed.

(** The last record of the repeated point stays. And of the three points
    with the ids 2^53, 2^53 + 1 and 2^53 + 3 the first goes as a duplicate
    of the second. *)
Lemma consecutive_duplicates_keep_last_witness :
  Selection.compared_columns Samples.repeated Selection.no_subset
  = Pandas.Ok (Selection.all_columns Samples.repeated) /\
  Statements.is_unique (Pandas.index Samples.repeated) = true /\
  (exists out,
     Selection.clean_consecutive_duplicates Samples.repeated Selection.no_subset
       Selection.keep_False false
     = Pandas.Ok (Samples.repeated, Some out) /\
     In Samples.D3 (Pandas.rows out)) /\
  Selection.clean_consecutive_duplicates Samples.close_ids Selection.no_subset
    Selection.keep_last false
  = Pandas.Ok (Samples.close_ids, Some (Samples.bare [Samples.G1; Samples.G2])).
Proof.
  split; [reflexivity|]. split; [reflexivity|]. split; [|reflexivity].
  destruct (consecutive_duplicates_keep_last Samples.repeated Selection.no_subset
              (Selection.all_columns Samples.repeated) false eq_refl eq_refl)
    as [out [_ [Hrun [_ Hlast]]]].
  exists out. split; [exact Hrun|].
  apply (Hlast [Samples.D0; Samples.D1; Samples.D2] Samples.D3 eq_refl).
  discriminate.
Defined.

(** X10. A row with a NaN in a compared numeric column is never taken for a
    duplicate: on a frame with unique index labels it stays, with either
    value of [keep], however equal its neighbours are. *)
Theorem consecutive_duplicates_keep_NaN (move_data : Pandas.DataFrame)
    (subset : Selection.Subset) (cs : list Selection.ColName)
    (keep : Selection.Keep) (inplace : bool)
    (pre post : list Pandas.Row) (r : Pandas.Row) (c : Selection.ColName) (x : float) :
  Selection.compared_columns move_data subset = Pandas.Ok cs ->
  Statements.is_unique (Pandas.index move_data) = true ->
  Pandas.rows move_data = pre ++ r :: post ->
  In c cs -> Selection.value_of c r = Selection.VNum x ->
  PrimFloat.is_nan x = true ->
  exists out,
    Selection.clean_consecutive_duplicates move_data subset keep inplace
    = Pandas.Ok (Filters.outcome inplace move_data out) /\
    In r (Pandas.rows out).
Proof.
  intros Hcs Hu Hrows Hc Hv Hnan.
  pose proof (is_unique_NoDup _ Hu) as Hnd. unfold Pandas.index in Hnd.
  assert (Hnext : In r (Pandas.mask_rows (Pandas.rows move_data)
                          (Selection.differs_from_next
                             (Selection.int64_ids move_data) cs
                             (Pandas.rows move_data)))).
  { set (f64 := Selection.int64_ids move_data). clearbody f64. rewrite Hrows in *.
    destruct (differs_from_next_middle f64 cs pre r post) as [mpre [mpost [Hm Hlen]]].
    rewrite Hm. apply (mask_rows_middle _ _ _ _ mpost _ Hnd Hlen).
    eapply differs_NaN; eassumption. }
  destruct keep.
  - eexists. split; [apply duplicates_first_rows; eassumption|].
    cbn [Pandas.rows Pandas.set_rows].
    set (f64 := Selection.int64_ids move_data). clearbody f64. clear Hnext.
    rewrite Hrows in *.
    destruct pre as [|p pre] using rev_ind.
    + cbn [app Selection.differs_from_previous].
      apply (mask_rows_middle [] post r [] _ _ Hnd eq_refl).
      eapply differs_NaN; eassumption.
    + rewrite <- app_assoc in *. cbn [app] in *.
      destruct (differs_from_previous_middle f64 cs pre p r post None)
        as [mpre [mpost [Hm Hlen]]].
      rewrite Hm.
      replace (pre ++ p :: r :: post) with ((pre ++ [p]) ++ r :: post) in *
        by (rewrite <- app_assoc; reflexivity).
      apply (mask_rows_middle _ _ _ _ mpost _ Hnd Hlen).
      eapply differs_NaN; eassumption.
  - eexists. split; [apply (duplicates_next_rows _ _ _ _ _ Hcs Hu); discriminate|].
    exact Hnext.
  - eexists. split; [apply (duplicates_next_rows _ _ _ _ _ Hcs Hu); discriminate|].
    exact Hnext.
Qed.

Lemma consecutive_duplicates_keep_NaN_witness :
  Selection.compared_columns Samples.scattered Selection.no_subset
  = Pandas.Ok (Selection.all_columns Samples.scattered) /\
  Statements.is_unique (Pandas.index Samples.scattered) = true /\
  Pandas.rows Samples.scattered
  = [Samples.S0] ++ Samples.S1 :: [Samples.S2; Samples.S3; Samples.S4] /\
  In Selection.C_LATITUDE (Selection.all_columns Samples.scattered) /\
  Selection.value_of Selection.C_LATITUDE Samples.S1 = Selection.VNum nan /\
  PrimFloat.is_nan nan = true /\
  exists out,
    Selection.clean_consecutive_duplicates Samples.scattered Selection.no_subset
      Selection.keep_first false
    = Pandas.Ok (Samples.scattered, Some out) /\
    In Samples.S1 (Pandas.rows out).
Proof.
  assert (Hc : In Selection.C_LATITUDE (Selection.all_columns Samples.scattered))
    by (simpl; right; left; reflexivity).
  repeat (split; [first [reflexivity | exact Hc]|]).
  exact (consecutive_duplicates_keep_NaN Samples.scattered Selection.no_subset
           (Selection.all_columns Samples.scattered) Selection.keep_first false
           [Samples.S0] [Samples.S2; Samples.S3; Samples.S4] Samples.S1
           Selection.C_LATITUDE nan eq_refl eq_refl eq_refl Hc eq_refl eq_refl).
Defined.

Section SubsetEdges.
Import Pandas Filters Selection Statements.

Lemma differs_nothing_previous (f64 : bool) (rs : list Row) :
  forall prev, differs_from_previous f64 [] prev rs = map (fun _ => false) rs.
Proof.
  induction rs as [|r rs IH]; intros prev; [reflexivity|].
  cbn [differs_from_previous map]. rewrite IH. now destruct prev.
Qed.

Lemma differs_nothing_next (f64 : bool) (rs : list Row) :
  differs_from_next f64 [] rs = map (fun _ => false) rs.
Proof.
  induction rs as [|r rs IH]; [reflexivity|].
  cbn [differs_from_next map]. rewrite IH. now destruct (hd_error rs).
Qed.

Lemma drop_outside_nothing (md : DataFrame) (inplace : bool) :
  drop_outside md (map (fun _ => false) (rows md)) inplace
  = Ok (outcome inplace md (set_rows md [])).
Proof.
  destruct (drop_outside_keeps (fun _ => false) md inplace) as [keep [Hrun [Hk _]]].
  rewrite Hrun, (filter_nil keep); [reflexivity|].
  intros r Hin. destruct (keep r) eqn:Hr; [|reflexivity].
  specialize (Hk r Hin Hr). discriminate.
Qed.

End SubsetEdges.

(** X11. The subset of [clean_consecutive_duplicates]: a list with a label
    the frame does not carry raises KeyError and removes nothing; an empty
    list makes every row a duplicate, and all the rows of the frame go,
    whatever [keep] and whatever the index. *)
Theorem consecutive_duplicates_subset_edges (move_data : Pandas.DataFrame)
    (keep : Selection.Keep) (inplace : bool) :
  (forall cs,
     forallb (Selection.present move_data) cs = false ->
     Selection.clean_consecutive_duplicates move_data (Selection.labels cs) keep inplace
     = Pandas.Raise Pandas.KeyError) /\
  Selection.clean_consecutive_duplicates move_data (Selection.labels []) keep inplace
  = Pandas.Ok (Filters.outcome inplace move_data (Pandas.set_rows move_data [])).
Proof.
  split.
  - intros cs Hcs. unfold Selection.clean_consecutive_duplicates,
      Selection.compared_columns. now rewrite Hcs.
  - unfold Selection.clean_consecutive_duplicates, Selection.compared_columns.
    cbn [forallb Pandas.bind].
    destruct keep; rewrite ?differs_nothing_previous, ?differs_nothing_next;
      apply drop_outside_nothing.
Qed.

(* ===================================================================== *)
(** ** The filters on whole trajectories *)
(* ===================================================================== *)

Section Groups2.
Import Pandas Filters Selection Trajectories Statements.

Lemma relabel_from (rs : list Row) :
  forall n l, In l (map label (relabel n rs)) -> (n <= l)%Z.
Proof.
  induction rs as [|r rs IH]; intros n l; simpl; [contradiction|].
  intros [<- | H]; [lia|]. apply IH in H. lia.
Qed.

Lemma relabel_NoDup (rs : list Row) : forall n, NoDup (map label (relabel n rs)).
Proof.
  induction rs as [|r rs IH]; intros n; simpl; constructor; [|apply IH].
  intros H. apply relabel_from in H. lia.
Qed.

(** The frame the filters work on has unique labels as soon as the caller's
    index has a name (it is reset) or unique labels of its own. *)
Lemma entry_unique (md : DataFrame) :
  index_name md <> None \/ is_unique (index md) = true ->
  is_unique (index (entry md)) = true.
Proof.
  unfold entry. destruct (index_name md) as [n|].
  - intros _. apply is_unique_of_NoDup. apply relabel_NoDup.
  - intros [H | H]; [congruence | exact H].
Qed.

Lemma entry_entry (md : DataFrame) : entry (entry md) = entry md.
Proof.
  unfold entry. destruct (index_name md) eqn:E; [reflexivity | now rewrite E].
Qed.

Lemma entry_name (md : DataFrame) : index_name (entry md) = None.
Proof. unfold entry. now destruct (index_name md) eqn:E. Qed.

Lemma filter_group_kept (column : Row -> Id) (keep : Id -> bool) (rs : list Row)
    (i : Id) :
  filter (fun r => Id_eqb (column r) i) (filter (fun r => keep (column r)) rs)
  = if keep i then filter (fun r => Id_eqb (column r) i) rs else [].
Proof.
  rewrite filter_both. destruct (keep i) eqn:Hk.
  - apply filter_ext. intros r.
    destruct (Id_eqb (column r) i) eqn:He; [|apply andb_false_r].
    apply Id_eqb_eq in He. now rewrite He, Hk.
  - apply filter_nil. intros r _.
    destruct (Id_eqb (column r) i) eqn:He; [|apply andb_false_r].
    apply Id_eqb_eq in He. now rewrite He, Hk.
Qed.

Lemma is_in_filter (column : Row -> Id) (p : Id -> bool) (rs : list Row) (r : Row) :
  In r rs ->
  is_in column (filter p (unique (map column rs))) r = p (column r).
Proof.
  intros Hin. unfold is_in. destruct (p (column r)) eqn:Hp.
  - apply seen_In. apply filter_In. split; [|assumption].
    apply unique_In. now apply in_map.
  - destruct (existsb _ _) eqn:He; [|reflexivity].
    apply seen_In in He. apply filter_In in He as [_ He]. congruence.
Qed.

(** Dropping the rows of the selected groups, by label. *)
Lemma drop_groups (column : Row -> Id) (p : Id -> bool) (md : DataFrame)
    (inplace : bool) (original : DataFrame) :
  is_unique (index md) = true ->
  match index (mask md (map (is_in column (filter p (unique (map column (rows md)))))
                          (rows md))) with
  | _ :: _ =>
      md' <- drop (index (mask md (map (is_in column
                                          (filter p (unique (map column (rows md)))))
                                     (rows md)))) md ;;
      Ok (outcome inplace original md')
  | [] => Ok (outcome inplace original md)
  end
  = Ok (outcome inplace original
          (set_rows md (filter (fun r => negb (p (column r))) (rows md)))).
Proof.
  intros Hu. pose proof (is_unique_NoDup _ Hu) as Hnd.
  set (sel := is_in column (filter p (unique (map column (rows md))))).
  assert (Hsel : filter sel (rows md) = filter (fun r => p (column r)) (rows md)).
  { apply filter_ext_in. intros r Hin. now apply is_in_filter. }
  unfold mask, index. cbn [rows set_rows]. rewrite mask_rows_map, Hsel.
  destruct (filter (fun r => p (column r)) (rows md)) as [|x xs] eqn:Hf.
  - cbn [map]. apply filter_none in Hf. rewrite Hf. now destruct md.
  - rewrite <- Hf. cbn [map].
    destruct (map label (filter (fun r => p (column r)) (rows md))) eqn:Hl;
      [rewrite Hf in Hl; discriminate|].
    rewrite <- Hl.
    rewrite (drop_selected (fun r => p (column r)) md Hnd). reflexivity.
Qed.

End Groups2.

Section FewPoints.
Import Pandas Filters Selection Trajectories Statements Grouping.

Variable tid : Row -> Id.
Variable min_points : Z.

Lemma few_points_rows (md : DataFrame) (inplace : bool) :
  enter md = Ok (entry md) ->
  is_unique (index (entry md)) = true ->
  clean_trajectories_with_few_points md (Some tid) min_points inplace
  = Ok (outcome inplace md
          (set_rows (entry md)
             (filter (fun r => negb (too_few tid min_points (entry md) (tid r)))
                (rows (entry md))))).
Proof.
  intros He Hu. unfold clean_trajectories_with_few_points. rewrite He. cbn [bind].
  apply (drop_groups tid (too_few tid min_points (entry md)) (entry md) inplace md Hu).
Qed.

(** A call that returns went through the index reset. *)
Lemma few_points_entered (md : DataFrame) (inplace : bool)
    (r : DataFrame * option DataFrame) :
  clean_trajectories_with_few_points md (Some tid) min_points inplace = Ok r ->
  enter md = Ok (entry md).
Proof.
  unfold clean_trajectories_with_few_points.
  destruct (enter md) as [md'|e] eqn:He; [|discriminate].
  intros _. now rewrite (enter_entry _ _ He).
Qed.


Lemma group_size_kept (md : DataFrame) (i : Id) :
  group_size tid
    (set_rows md
       (filter (fun r => negb (too_few tid min_points md (tid r))) (rows md))) i
  = if too_few tid min_points md i then 0%nat else group_size tid md i.
Proof.
  unfold group_size at 1. cbn [rows set_rows].
  rewrite (filter_group_kept tid (fun i => negb (too_few tid min_points md i))).
  now destruct (too_few tid min_points md i).
Qed.

End FewPoints.

Section FewPointsFacts.
Import Pandas Filters Selection Trajectories Statements Grouping.

Variable tid : Row -> Id.
Variable min_points : Z.

Lemma filter_all {A : Type} (p : A -> bool) (l : list A) :
  (forall x, In x l -> p x = true) -> filter p l = l.
Proof.
  induction l as [|x l IH]; simpl; intros H; [reflexivity|].
  rewrite (H x (or_introl eq_refl)). f_equal. apply IH. intros y Hy. apply H. now right.
Qed.

Lemma set_rows_same (md : DataFrame) : set_rows md (rows md) = md.
Proof. now destruct md. Qed.

(** A group that stays keeps all its rows, so it is counted as before. *)
Lemma too_few_kept (md : DataFrame) (r : Row) :
  In r (filter (fun r => negb (too_few tid min_points md (tid r))) (rows md)) ->
  too_few tid min_points
    (set_rows md (filter (fun r => negb (too_few tid min_points md (tid r))) (rows md)))
    (tid r) = false.
Proof.
  intros Hin. apply filter_In in Hin as [_ Hk]. apply negb_true_iff in Hk.
  unfold too_few at 1. rewrite group_size_kept, Hk. exact Hk.
Qed.


End FewPointsFacts.





(** X14. Cleaning again changes nothing: on the frame a call of
    [clean_trajectories_with_few_points] returned, a second call with the
    same bound returns that frame as it is. *)
Theorem few_points_twice (move_data out : Pandas.DataFrame)
    (tid : Pandas.Row -> Pandas.Id) (min_points : Z) (inplace : bool) :
  Pandas.index_name move_data <> None \/
  Statements.is_unique (Pandas.index move_data) = true ->
  Trajectories.clean_trajectories_with_few_points move_data (Some tid) min_points false
  = Pandas.Ok (move_data, Some out) ->
  Trajectories.clean_trajectories_with_few_points out (Some tid) min_points inplace
  = Pandas.Ok (Filters.outcome inplace out out).
Proof.
  intros Hidx Hrun. apply entry_unique in Hidx.
  pose proof (few_points_entered tid min_points move_data false _ Hrun) as Hent.
  rewrite (few_points_rows tid min_points move_data false Hent Hidx) in Hrun.
  injection Hrun as Hout.
  set (md := Filters.entry move_data) in *.
  assert (Hname : Pandas.index_name out = None).
  { rewrite <- Hout. apply entry_name. }
  assert (He : Filters.entry out = out).
  { unfold Filters.entry. now rewrite Hname. }
  assert (Hu : Statements.is_unique (Pandas.index (Filters.entry out)) = true).
  { rewrite He, <- Hout. now apply is_unique_filter. }
  rewrite (few_points_rows tid min_points out inplace), He;
    [|rewrite He; now apply enter_unnamed | exact Hu].
  rewrite filter_all; [now rewrite set_rows_same|].
  intros r Hin. rewrite <- Hout in *. cbn [Pandas.rows Pandas.set_rows] in Hin.
  now rewrite (too_few_kept tid min_points md r Hin).
Qed.

Lemma few_points_twice_witness :
  (Pandas.index_name Samples.legs <> None \/
   Statements.is_unique (Pandas.index Samples.legs) = true) /\
  Trajectories.clean_trajectories_with_few_points Samples.legs Selection.TRAJ_ID 2 false
  = Pandas.Ok (Samples.legs,
               Some (Samples.with_dist [Samples.L0; Samples.L1; Samples.L3; Samples.L4]))
  /\
  Trajectories.clean_trajectories_with_few_points
    (Samples.with_dist [Samples.L0; Samples.L1; Samples.L3; Samples.L4])
    Selection.TRAJ_ID 2 true
  = Pandas.Ok (Samples.with_dist [Samples.L0; Samples.L1; Samples.L3; Samples.L4], None).
Proof.
  split; [right; reflexivity|]. split; [reflexivity|].
  exact (few_points_twice Samples.legs _ Pandas.traj_id 2 true
           (or_intror eq_refl) eq_refl).
Defined.

Section ShortFacts.
Import Pandas Filters Selection Trajectories Statements Grouping.

Variable gen : DataFrame -> result DataFrame.
Variable group_sum : list float -> float.
Variable column : Row -> Id.
Variable min_distance : float.
Variable min_points : Z.




End ShortFacts.



(* ===================================================================== *)
(** ** The cleaning loop on any index *)
(* ===================================================================== *)

Section SelectingLoop.
Import Pandas Filters Statements.

(** A predicate that answers with rows of the frame it is given, on every
    frame that carries the column it reads. *)
Variable f : Callable.
Variable kw : kwargs.
Variable c : Column.
Variable sel : list Row -> list bool.
Hypothesis plain : outliers_ kw = false.
Hypothesis f_selects :
  forall md, has_column c md = true ->
    f md (arg1 kw) (arg2 kw) = Ok (mask md (sel (rows md))).

Lemma drop_masked (md : DataFrame) (m : list bool) :
  exists md', drop (index (mask md m)) md = Ok md' /\ columns md' = columns md.
Proof.
  unfold drop, index, mask. cbn [rows set_rows]. rewrite forallb_labels_in.
  eexists. split; reflexivity.
Qed.

Lemma selecting_filter_data (md : DataFrame) :
  has_column c md = true ->
  _filter_data md f kw
  = Ok (mask md (sel (rows md)), shape0 (mask md (sel (rows md)))).
Proof.
  intros Hc. unfold _filter_data. rewrite plain, (f_selects md Hc). reflexivity.
Qed.

Lemma selecting_loop (fuel : nat) :
  forall md, shape0 md < fuel -> has_column c md = true ->
    exists out,
      _clean_gps_loop fuel f kw md (mask md (sel (rows md)))
        (shape0 (mask md (sel (rows md)))) = Some (Ok out) /\
      mask_rows (rows out) (sel (rows out)) = [].
Proof.
  induction fuel as [|fuel IH]; intros md Hlt Hc; [lia|].
  destruct (shape0 (mask md (sel (rows md)))) as [|n] eqn:Hn.
  - exists md. split; [reflexivity|].
    unfold shape0, mask in Hn. cbn [rows set_rows] in Hn.
    now destruct (mask_rows (rows md) (sel (rows md))).
  - cbn [_clean_gps_loop].
    destruct (drop_masked md (sel (rows md))) as [md' [Hd Hcols]].
    rewrite Hd.
    assert (Hc' : has_column c md' = true).
    { unfold has_column in *. now rewrite Hcols. }
    rewrite (selecting_filter_data md' Hc').
    apply IH; [|exact Hc'].
    assert (shape0 md' < shape0 md); [|lia].
    apply drop_shrinks with (labels := index (mask md (sel (rows md)))); [|exact Hd].
    unfold index, shape0 in *. destruct (rows (mask md (sel (rows md))));
      [discriminate | simpl; discriminate].
Qed.

(** The run returns, and on the frame it returns the predicate selects
    nothing. *)
Lemma selecting_run (md : DataFrame) :
  has_column c md = true ->
  index_clashes md = false ->
  exists out,
    _clean_gps md f kw = Some (Ok out) /\
    incl (rows out) (rows (entry md)) /\
    mask_rows (rows out) (sel (rows out)) = [].
Proof.
  intros Hc Hclear.
  assert (Hc' : has_column c (entry md) = true).
  { unfold entry. now destruct (index_name md). }
  assert (Hrun : exists out,
             _clean_gps md f kw = Some (Ok out) /\
             mask_rows (rows out) (sel (rows out)) = []).
  { rewrite (clean_gps_from_entry f kw md (enter_clear md Hclear)).
    rewrite (selecting_filter_data _ Hc'). apply selecting_loop; [lia | exact Hc']. }
  destruct Hrun as [out [Hrun Hend]]. exists out.
  split; [exact Hrun|]. split; [|exact Hend].
  exact (clean_gps_rows_kept f kw md out Hrun).
Qed.

End SelectingLoop.

Section Postconditions.
Import Pandas Filters Statements.

Lemma filter_empty {A : Type} (p : A -> bool) (l : list A) :
  filter p l = [] -> forall x, In x l -> p x = false.
Proof.
  induction l as [|y l IH]; simpl; intros H x Hin; [contradiction|].
  destruct (p y) eqn:Hp; [discriminate|].
  destruct Hin as [<- | Hin]; [exact Hp | now apply IH].
Qed.

Lemma own_or_previous_none (a2 : float) (c : Column) (rs : list Row) :
  forall prev,
    mask_rows rs (own_or_previous a2 prev (map (cell c) rs)) = [] ->
    forall r, In r rs -> exceeds a2 (cell c r) = false.
Proof.
  induction rs as [|x rs IH]; intros prev H r Hin; [contradiction|].
  cbn [map own_or_previous mask_rows] in H.
  destruct (exceeds a2 prev || exceeds a2 (cell c x)) eqn:Hx; [discriminate|].
  apply orb_false_elim in Hx as [_ Hx].
  destruct Hin as [<- | Hin]; [exact Hx | exact (IH _ H r Hin)].
Qed.

Lemma max_threshold_returns (c : Column) (thr : float) (md : DataFrame) :
  has_column c md = true ->
  index_clashes md = false ->
  exists out,
    _clean_gps md _filter_single_by_max (threshold_kwargs c thr) = Some (Ok out) /\
    incl (rows out) (rows (entry md)) /\
    (forall r, In r (rows out) -> PrimFloat.leb (cell c r) thr = false).
Proof.
  intros Hc Hclear.
  destruct (selecting_run _filter_single_by_max (threshold_kwargs c thr) c
              (map (at_or_below c thr)) eq_refl) with (md := md)
    as [out [Hrun [Hin Hend]]]; [|exact Hc|exact Hclear|].
  - intros m Hm. cbn [arg1 arg2 threshold_kwargs].
    rewrite (filter_single_by_max_selects _ _ _ Hm).
    unfold mask. now rewrite mask_rows_map.
  - exists out. split; [exact Hrun|]. split; [exact Hin|].
    rewrite mask_rows_map in Hend. exact (filter_empty _ _ Hend).
Qed.

Lemma speed_max_returns (c : Column) (a2 : float) (md : DataFrame) :
  has_column c md = true ->
  index_clashes md = false ->
  exists out,
    _clean_gps md _filter_speed_max_radius (threshold_kwargs c a2) = Some (Ok out) /\
    incl (rows out) (rows (entry md)) /\
    (forall r, In r (rows out) -> exceeds a2 (cell c r) = false).
Proof.
  intros Hc Hclear.
  destruct (selecting_run _filter_speed_max_radius (threshold_kwargs c a2) c
              (fun rs => own_or_previous a2 nan (map (cell c) rs)) eq_refl)
    with (md := md) as [out [Hrun [Hin Hend]]]; [|exact Hc|exact Hclear|].
  - intros m Hm. cbn [arg1 arg2 threshold_kwargs].
    exact (speed_max_radius_mask c a2 m Hm).
  - exists out. split; [exact Hrun|]. split; [exact Hin|].
    exact (own_or_previous_none a2 c _ nan Hend).
Qed.

(** With the index named like a column the run ends at the index reset. *)
Lemma clean_gps_clash (f : Callable) (kw : kwargs) (md : DataFrame) :
  index_clashes md = true ->
  exists msg, _clean_gps md f kw = Some (Raise (ValueError msg)).
Proof.
  intros Hc. destruct (enter_clash md Hc) as [msg He]. exists msg.
  unfold _clean_gps. now rewrite He.
Qed.

(** The frame a run returns has an index without a name. *)
Lemma drop_name (labels : list Z) (md md' : DataFrame) :
  drop labels md = Ok md' -> index_name md' = index_name md.
Proof.
  unfold drop. destruct (forallb _ labels); [|discriminate].
  intros H. now injection H as <-.
Qed.

Lemma passes_name (f : Callable) (kw : kwargs) (md out : DataFrame) :
  clos_refl_trans _ (iteration f kw) md out -> index_name out = index_name md.
Proof.
  induction 1 as [x y Hit | x | x y z _ IH1 _ IH2].
  - destruct Hit as [m fdp m' n _ Hd]. exact (drop_name _ _ _ Hd).
  - reflexivity.
  - congruence.
Qed.

End Postconditions.

(** X16. [clean_gps_nearby_points_by_distances] on a frame that carries [dist_to_prev],
    whatever its index labels: when the index is not named like a column of
    the frame the call returns without raising and without calling the
    generator, the rows it leaves are rows of the frame it started from, and
    no row it leaves has a [dist_to_prev] at or below [radius_area] (each is
    larger, or NaN); when the
    index is named like a column of the frame the call raises the
    ValueError of the index reset. *)
Theorem nearby_points_by_distances_leaves_far
    (gen : Pandas.DataFrame -> Pandas.result Pandas.DataFrame)
    (move_data : Pandas.DataFrame) (radius_area : float) (inplace : bool) :
  Pandas.has_column Pandas.DIST_TO_PREV move_data = true ->
  (Pandas.index_clashes move_data = false ->
     exists out,
       Filters.clean_gps_nearby_points_by_distances gen move_data radius_area inplace
       = Some (Pandas.Ok (Filters.outcome inplace move_data out)) /\
       incl (Pandas.rows out) (Pandas.rows (Filters.entry move_data)) /\
       (forall r, In r (Pandas.rows out) ->
          PrimFloat.leb (Pandas.dist_to_prev r) radius_area = false)) /\
  (Pandas.index_clashes move_data = true ->
     exists msg,
       Filters.clean_gps_nearby_points_by_distances gen move_data radius_area inplace
       = Some (Pandas.Raise (Pandas.ValueError msg))).
Proof.
  intros Hc. split.
  - intros Hclear.
    destruct (max_threshold_returns Pandas.DIST_TO_PREV radius_area move_data Hc Hclear)
      as [out [Hrun Hpost]].
    exists out. split; [|exact Hpost].
    unfold Filters.clean_gps_nearby_points_by_distances, Filters.ensure.
    rewrite Hc. unfold Statements.threshold_kwargs in Hrun. now rewrite Hrun.
  - intros Hclash.
    destruct (clean_gps_clash Filters._filter_single_by_max
                (Statements.threshold_kwargs Pandas.DIST_TO_PREV radius_area) move_data Hclash)
      as [msg Hrun].
    exists msg. unfold Filters.clean_gps_nearby_points_by_distances, Filters.ensure.
    rewrite Hc. unfold Statements.threshold_kwargs in Hrun. now rewrite Hrun.
Qed.

(** Two rows under the label 0: the second is within 10 m of the first, and
    the drop of its label takes the first along. What stays is above the
    radius. The same rows under an index named 'lat' raise. *)
Lemma nearby_points_by_distances_leaves_far_witness :
  Pandas.has_column Pandas.DIST_TO_PREV Samples.shared_labels = true /\
  Pandas.index_clashes Samples.shared_labels = false /\
  (exists out,
     Filters.clean_gps_nearby_points_by_distances Examples.generate_dist_features
       Samples.shared_labels 10%float false
     = Some (Pandas.Ok (Samples.shared_labels, Some out)) /\
     Pandas.rows out = [Samples.H2]) /\
  Filters.clean_gps_nearby_points_by_distances Examples.generate_dist_features
    Samples.by_lat 10%float false
  = Some (Pandas.Raise (Pandas.ValueError "cannot insert lat, already exists")).
Proof.
  split; [reflexivity|]. split; [reflexivity|]. split; [|reflexivity].
  destruct (proj1 (nearby_points_by_distances_leaves_far
                     Examples.generate_dist_features Samples.shared_labels 10%float
                     false eq_refl) eq_refl) as [out [Hrun _]].
  exists out. split; [exact Hrun|].
  assert (H : Some (Pandas.Ok (Samples.shared_labels, Some out))
              = Some (Pandas.Ok (Samples.shared_labels,
                                 Some (Examples.with_all [Samples.H2])))).
  { etransitivity; [symmetry; exact Hrun | reflexivity]. }
  now injection H as ->.
Defined.

(** X17. [clean_gps_nearby_points_by_speed] on a frame that carries [speed_to_prev],
    whatever its index labels: when the index is not named like a column of
    the frame the call returns without raising and without calling the
    generator, the rows it leaves are rows of the frame it started from, and
    no row it leaves has a [speed_to_prev] at or below [speed_radius] (each
    is larger, or NaN); when the
    index is named like a column of the frame the call raises the
    ValueError of the index reset. *)
Theorem nearby_points_by_speed_leaves_fast
    (gen : Pandas.DataFrame -> Pandas.result Pandas.DataFrame)
    (move_data : Pandas.DataFrame) (speed_radius : float) (inplace : bool) :
  Pandas.has_column Pandas.SPEED_TO_PREV move_data = true ->
  (Pandas.index_clashes move_data = false ->
     exists out,
       Filters.clean_gps_nearby_points_by_speed gen move_data speed_radius inplace
       = Some (Pandas.Ok (Filters.outcome inplace move_data out)) /\
       incl (Pandas.rows out) (Pandas.rows (Filters.entry move_data)) /\
       (forall r, In r (Pandas.rows out) ->
          PrimFloat.leb (Pandas.speed_to_prev r) speed_radius = false)) /\
  (Pandas.index_clashes move_data = true ->
     exists msg,
       Filters.clean_gps_nearby_points_by_speed gen move_data speed_radius inplace
       = Some (Pandas.Raise (Pandas.ValueError msg))).
Proof.
  intros Hc. split.
  - intros Hclear.
    destruct (max_threshold_returns Pandas.SPEED_TO_PREV speed_radius move_data Hc Hclear)
      as [out [Hrun Hpost]].
    exists out. split; [|exact Hpost].
    unfold Filters.clean_gps_nearby_points_by_speed, Filters.ensure.
    rewrite Hc. unfold Statements.threshold_kwargs in Hrun. now rewrite Hrun.
  - intros Hclash.
    destruct (clean_gps_clash Filters._filter_single_by_max
                (Statements.threshold_kwargs Pandas.SPEED_TO_PREV speed_radius) move_data Hclash)
      as [msg Hrun].
    exists msg. unfold Filters.clean_gps_nearby_points_by_speed, Filters.ensure.
    rewrite Hc. unfold Statements.threshold_kwargs in Hrun. now rewrite Hrun.
Qed.

(** With speeds NaN, 10, 100 and the radius 50, the row that arrived at
    10 m/s goes. *)
Lemma nearby_points_by_speed_leaves_fast_witness :
  Pandas.has_column Pandas.SPEED_TO_PREV Examples.slow_then_fast = true /\
  Pandas.index_clashes Examples.slow_then_fast = false /\
  exists out,
    Filters.clean_gps_nearby_points_by_speed
      Examples.generate_dist_time_speed_features Examples.slow_then_fast 50%float true
    = Some (Pandas.Ok (out, None)) /\
    Pandas.rows out = [Examples.SA; Examples.SC].
Proof.
  split; [reflexivity|]. split; [reflexivity|].
  destruct (proj1 (nearby_points_by_speed_leaves_fast
                     Examples.generate_dist_time_speed_features
                     Examples.slow_then_fast 50%float true eq_refl) eq_refl)
    as [out [Hrun _]].
  exists out. split; [exact Hrun|].
  assert (H : Some (Pandas.Ok (out, @None Pandas.DataFrame))
              = Some (Pandas.Ok (Examples.with_all [Examples.SA; Examples.SC], None))).
  { etransitivity; [symmetry; exact Hrun | reflexivity]. }
  now injection H as ->.
Defined.

(** X18. [clean_gps_speed_max_radius] on a frame that carries [speed_to_prev],
    whatever its index labels: when the index is not named like a column of
    the frame the call returns without raising and without calling the
    generator, the rows it leaves are rows of the frame it started from, and
    no row it leaves has a [speed_to_prev] above [speed_max], NaN and the
    infinities read as [nan_to_num] reads them; when the
    index is named like a column of the frame the call raises the
    ValueError of the index reset. *)
Theorem speed_max_radius_leaves_no_fast_row
    (gen : Pandas.DataFrame -> Pandas.result Pandas.DataFrame)
    (move_data : Pandas.DataFrame) (speed_max : float) (inplace : bool) :
  Pandas.has_column Pandas.SPEED_TO_PREV move_data = true ->
  (Pandas.index_clashes move_data = false ->
     exists out,
       Filters.clean_gps_speed_max_radius gen move_data speed_max inplace
       = Some (Pandas.Ok (Filters.outcome inplace move_data out)) /\
       incl (Pandas.rows out) (Pandas.rows (Filters.entry move_data)) /\
       (forall r, In r (Pandas.rows out) ->
          PrimFloat.ltb speed_max (Pandas.nan_to_num (Pandas.speed_to_prev r)) = false)) /\
  (Pandas.index_clashes move_data = true ->
     exists msg,
       Filters.clean_gps_speed_max_radius gen move_data speed_max inplace
       = Some (Pandas.Raise (Pandas.ValueError msg))).
Proof.
  intros Hc. split.
  - intros Hclear.
    destruct (speed_max_returns Pandas.SPEED_TO_PREV speed_max move_data Hc Hclear)
      as [out [Hrun Hpost]].
    exists out. split; [|exact Hpost].
    unfold Filters.clean_gps_speed_max_radius, Filters.ensure.
    rewrite Hc. unfold Statements.threshold_kwargs in Hrun. now rewrite Hrun.
  - intros Hclash.
    destruct (clean_gps_clash Filters._filter_speed_max_radius
                (Statements.threshold_kwargs Pandas.SPEED_TO_PREV speed_max) move_data Hclash)
      as [msg Hrun].
    exists msg. unfold Filters.clean_gps_speed_max_radius, Filters.ensure.
    rewrite Hc. unfold Statements.threshold_kwargs in Hrun. now rewrite Hrun.
Qed.

(** With speeds NaN, 10, 100 and the maximum 50, the last row goes. *)
Lemma speed_max_radius_leaves_no_fast_row_witness :
  Pandas.has_column Pandas.SPEED_TO_PREV Examples.slow_then_fast = true /\
  Pandas.index_clashes Examples.slow_then_fast = false /\
  exists out,
    Filters.clean_gps_speed_max_radius
      Examples.generate_dist_time_speed_features Examples.slow_then_fast 50%float false
    = Some (Pandas.Ok (Examples.slow_then_fast, Some out)) /\
    Pandas.rows out = [Examples.SA; Examples.SB].
Proof.
  split; [reflexivity|]. split; [reflexivity|].
  destruct (proj1 (speed_max_radius_leaves_no_fast_row
                     Examples.generate_dist_time_speed_features
                     Examples.slow_then_fast 50%float false eq_refl) eq_refl)
    as [out [Hrun _]].
  exists out. split; [exact Hrun|].
  assert (H : Some (Pandas.Ok (Examples.slow_then_fast, Some out))
              = Some (Pandas.Ok (Examples.slow_then_fast,
                                 Some (Examples.with_all [Examples.SA; Examples.SB])))).
  { etransitivity; [symmetry; exact Hrun | reflexivity]. }
  now injection H as ->.
Defined.

(** X19. Whatever the predicate, a second run of [_clean_gps] on the frame
    a first run returned returns that frame as it is: the loop stops on a
    frame on which the predicate selects nothing, and the features on it
    are the ones the predicate has already read. *)
Theorem clean_gps_twice (f : Filters.Callable) (kw : Filters.kwargs)
    (move_data out : Pandas.DataFrame) :
  Filters._clean_gps move_data f kw = Some (Pandas.Ok out) ->
  Filters._clean_gps out f kw = Some (Pandas.Ok out).
Proof.
  intros Hrun.
  assert (H : clos_refl_trans _ (Filters.iteration f kw) (Filters.entry move_data) out /\
              exists fdp, Filters._filter_data out f kw = Pandas.Ok (fdp, O)).
  { pose proof (clean_gps_entered f kw move_data out Hrun) as He.
    rewrite (clean_gps_from_entry f kw move_data He) in Hrun.
    destruct (Filters._filter_data (Filters.entry move_data) f kw) as [[fdp n]|e] eqn:Hf;
      [|discriminate].
    exact (loop_reaches _ _ _ _ _ _ _ Hf Hrun). }
  destruct H as [Hsteps [fdp Hend]].
  apply passes_name in Hsteps. rewrite entry_name in Hsteps.
  unfold Filters._clean_gps. rewrite (enter_unnamed _ Hsteps), Hend. reflexivity.
Qed.

Lemma clean_gps_twice_witness :
  Filters._clean_gps Examples.near_then_far Filters._filter_single_by_max
    (Statements.threshold_kwargs Pandas.DIST_TO_PREV 10%float)
  = Some (Pandas.Ok (Examples.with_all [Examples.P0; Examples.P2])) /\
  Filters._clean_gps (Examples.with_all [Examples.P0; Examples.P2])
    Filters._filter_single_by_max
    (Statements.threshold_kwargs Pandas.DIST_TO_PREV 10%float)
  = Some (Pandas.Ok (Examples.with_all [Examples.P0; Examples.P2])).
Proof.
  split; [reflexivity|].
  exact (clean_gps_twice Filters._filter_single_by_max
           (Statements.threshold_kwargs Pandas.DIST_TO_PREV 10%float)
           Examples.near_then_far _ eq_refl).
Defined.

Section TimeMaxFacts.
Import Pandas Filters Statements.

Variable group_sum : list float -> float.
Variable time_max : float.

(** A group that stays keeps all its rows, so its sum is the same. *)
Lemma total_time_kept (md : DataFrame) (i : Id) :
  PrimFloat.ltb (total_time group_sum md i) time_max = false ->
  total_time group_sum
    (set_rows md
       (filter
          (fun r => negb (PrimFloat.ltb (total_time group_sum md (traj_id r)) time_max))
          (rows md))) i
  = total_time group_sum md i.
Proof.
  intros Hk. unfold total_time at 1, rows_of_id. cbn [rows set_rows].
  rewrite (filter_group_kept traj_id
             (fun i => negb (PrimFloat.ltb (total_time group_sum md i) time_max))).
  now rewrite Hk.
Qed.

End TimeMaxFacts.

(** X20. On the frame [clean_id_by_time_max] returns, no trajectory has a
    summed [time_to_prev] below [time_max], the sums taken over the result
    itself; and a second call with the same bound returns that frame as it
    is. Stated for a frame that carries [time_to_prev] and has unique index
    labels, and a bound that is a number. *)
Theorem time_max_twice
    (gen : Pandas.DataFrame -> Pandas.result Pandas.DataFrame)
    (group_sum : list float -> float) (move_data out : Pandas.DataFrame)
    (time_max : float) (inplace : bool) :
  Pandas.has_column Pandas.TIME_TO_PREV move_data = true ->
  Statements.is_unique (Pandas.index move_data) = true ->
  PrimFloat.is_nan time_max = false ->
  Filters.clean_id_by_time_max gen group_sum move_data time_max false
  = Pandas.Ok (move_data, Some out) ->
  (forall r, In r (Pandas.rows out) ->
     PrimFloat.ltb (Statements.total_time group_sum out (Pandas.traj_id r)) time_max
     = false) /\
  Filters.clean_id_by_time_max gen group_sum out time_max inplace
  = Pandas.Ok (Filters.outcome inplace out out).
Proof.
  intros Hc Hu Hnum Hrun.
  assert (He : Filters.ensure Pandas.TIME_TO_PREV gen move_data = Pandas.Ok move_data).
  { unfold Filters.ensure. now rewrite Hc. }
  assert (Hi : Filters.id_is_index move_data = false).
  { unfold Filters.clean_id_by_time_max in Hrun. rewrite He in Hrun.
    cbn [Pandas.bind] in Hrun.
    destruct (Filters.id_is_index move_data); [discriminate | reflexivity]. }
  rewrite (clean_id_by_time_max_rows group_sum gen move_data move_data time_max false
             He Hi Hc (is_unique_NoDup _ Hu) Hnum) in Hrun.
  injection Hrun as Hout.
  assert (Hpost : forall r, In r (Pandas.rows out) ->
            PrimFloat.ltb (Statements.total_time group_sum out (Pandas.traj_id r))
              time_max = false).
  { intros r Hin. rewrite <- Hout in *. cbn [Pandas.rows Pandas.set_rows] in Hin.
    apply filter_In in Hin as [_ Hk]. apply negb_true_iff in Hk.
    now rewrite (total_time_kept group_sum time_max move_data _ Hk). }
  split; [exact Hpost|].
  assert (Hc' : Pandas.has_column Pandas.TIME_TO_PREV out = true).
  { rewrite <- Hout. exact Hc. }
  assert (He' : Filters.ensure Pandas.TIME_TO_PREV gen out = Pandas.Ok out).
  { unfold Filters.ensure. now rewrite Hc'. }
  assert (Hu' : Statements.is_unique (Pandas.index out) = true).
  { rewrite <- Hout. now apply is_unique_filter. }
  assert (Hi' : Filters.id_is_index out = false).
  { rewrite <- Hout. exact Hi. }
  rewrite (clean_id_by_time_max_rows group_sum gen out out time_max inplace
             He' Hi' Hc' (is_unique_NoDup _ Hu') Hnum).
  rewrite filter_all; [now rewrite set_rows_same|].
  intros r Hin. now rewrite (Hpost r Hin).
Qed.

(** Two ids gathering 30 s and 4000 s, [time_max = 3600]: the first goes,
    and a second call leaves the second where it is. *)
Lemma time_max_twice_witness :
  Pandas.has_column Pandas.TIME_TO_PREV Examples.short_and_long = true /\
  Statements.is_unique (Pandas.index Examples.short_and_long) = true /\
  PrimFloat.is_nan 3600%float = false /\
  Filters.clean_id_by_time_max Examples.generate_dist_time_speed_features
    Examples.nansum Examples.short_and_long 3600%float false
  = Pandas.Ok (Examples.short_and_long,
               Some (Examples.with_all [Examples.T2; Examples.T3])) /\
  Filters.clean_id_by_time_max Examples.generate_dist_time_speed_features
    Examples.nansum (Examples.with_all [Examples.T2; Examples.T3]) 3600%float true
  = Pandas.Ok (Examples.with_all [Examples.T2; Examples.T3], None).
Proof.
  split; [reflexivity|]. split; [reflexivity|]. split; [reflexivity|].
  split; [reflexivity|].
  exact (proj2 (time_max_twice Examples.generate_dist_time_speed_features
                  Examples.nansum Examples.short_and_long _ 3600%float true
                  eq_refl eq_refl eq_refl eq_refl)).
Defined.

(* ===================================================================== *)
(** ** The queries: what the result holds *)
(* ===================================================================== *)

Section RangeRows.
Import Pandas Query Statements.

Lemma filter_disjoint {A : Type} (p q : A -> bool) (l : list A) :
  (forall x, In x l -> p x = true -> q x = false) ->
  Permutation (filter p l ++ filter q l) (filter (fun x => p x || q x) l).
Proof.
  induction l as [|x l IH]; intros H; simpl; [constructor|].
  assert (IH' := IH (fun y Hy => H y (or_intror Hy))).
  destruct (p x) eqn:Hp; simpl.
  - rewrite (H x (or_introl eq_refl) Hp). now constructor.
  - destruct (q x); simpl; [|exact IH'].
    apply Permutation_sym. apply Permutation_cons_app. apply Permutation_sym.
    exact IH'.
Qed.

(** The groups of distinct ids, one after the other, hold every row of
    these ids once. *)
Lemma groups_partition (rs : list Row) (ids : list Id) :
  NoDup ids ->
  Permutation
    (flat_map (fun i => filter (fun r => Id_eqb (traj_id r) i) rs) ids)
    (filter (fun r => existsb (Id_eqb (traj_id r)) ids) rs).
Proof.
  induction 1 as [|i ids Hi _ IH]; simpl.
  - rewrite filter_nil; [constructor | reflexivity].
  - eapply Permutation_trans; [apply Permutation_app_head; exact IH|].
    apply filter_disjoint. intros r _ He. apply Id_eqb_eq in He.
    destruct (existsb _ ids) eqn:Hs; [|reflexivity].
    apply seen_In in Hs. now rewrite He in Hs.
Qed.

Variable m : Measure.
Variables traj move_df : DataFrame.
Variable min_dist : float.

Lemma near_groups_rows :
  Permutation
    (flat_map (rows_of_id move_df)
       (filter (near m traj move_df min_dist)
          (unique (map traj_id (rows move_df)))))
    (filter (fun r => near m traj move_df min_dist (traj_id r)) (rows move_df)).
Proof.
  eapply Permutation_trans.
  - apply groups_partition. apply NoDup_filter, unique_NoDup.
  - erewrite filter_ext_in; [apply Permutation_refl|].
    intros r Hin.
    exact (is_in_filter traj_id (near m traj move_df min_dist) (rows move_df) r Hin).
Qed.

End RangeRows.

(** X21. The result of [range_query] holds every row of the candidate frame
    whose trajectory is strictly within [min_dist] of the reference exactly
    once, and nothing else: no row of the reference frame is carried over,
    and no row is repeated. With a NaN for [min_dist] the result is
    empty. *)
Theorem range_query_returns_each_near_row_once (MEDP MEDT : string)
    (medp medt : Query.Measure) (traj move_df : Pandas.DataFrame)
    (min_dist : float) (distance : string) (m : Query.Measure) :
  Query.dist_measure MEDP MEDT medp medt distance = Pandas.Ok m ->
  exists out,
    Query.returned (Query.range_query MEDP MEDT medp medt traj move_df min_dist distance)
    = Pandas.Ok out /\
    Permutation (Pandas.rows out)
      (filter (fun r => PrimFloat.ltb
                          (m traj (Pandas.loc_id move_df (Pandas.traj_id r))) min_dist)
         (Pandas.rows move_df)) /\
    (forall r, In r (Pandas.rows out) <->
       In r (Pandas.rows move_df) /\
       PrimFloat.ltb (m traj (Pandas.loc_id move_df (Pandas.traj_id r))) min_dist
       = true) /\
    (PrimFloat.is_nan min_dist = true -> Pandas.rows out = []).
Proof.
  intros Hm.
  destruct (range_query_collects MEDP MEDT medp medt m traj move_df min_dist
              distance Hm) as [_ [out [Hout Hrows]]].
  pose proof (near_groups_rows m traj move_df min_dist) as Hperm.
  rewrite <- Hrows in Hperm. unfold Statements.near in Hperm.
  exists out. split; [exact Hout|]. split; [exact Hperm|]. split.
  - intros r. split.
    + intros Hin. apply (Permutation_in _ Hperm) in Hin.
      now apply filter_In in Hin.
    + intros Hin. apply (Permutation_in _ (Permutation_sym Hperm)).
      now apply filter_In.
  - intros Hnan. apply Permutation_nil. apply Permutation_sym.
    rewrite filter_nil in Hperm; [exact Hperm|].
    intros r _. now apply ltb_nan_r.
Qed.

(** With distances A: 800, B: 1500, C: 950 and [min_dist = 1000] the result
    holds the two rows of A and the two rows of C. *)
Lemma range_query_returns_each_near_row_once_witness :
  exists out,
    Query.returned (Query.range_query Examples.MEDP Examples.MEDT
                      Examples.line_medp Examples.line_medt Examples.reference
                      Examples.in_range 1000%float Examples.MEDP) = Pandas.Ok out /\
    Permutation (Pandas.rows out)
      [Examples.RA0; Examples.RC0; Examples.RA1; Examples.RC1].
Proof.
  destruct (range_query_returns_each_near_row_once Examples.MEDP Examples.MEDT
              Examples.line_medp Examples.line_medt Examples.reference
              Examples.in_range 1000%float Examples.MEDP Examples.line_medp eq_refl)
    as [out [Hout [Hperm _]]].
  exists out. split; [exact Hout | exact Hperm].
Defined.

Section KnnSlots.
Import Pandas Query Statements Slots.

Variable TRAJ_ID : string.
Variable m : Measure.
Variables traj move_df : DataFrame.

Lemma ltb_not_below (a b c : float) :
  PrimFloat.ltb a b = false -> PrimFloat.ltb c b = true -> PrimFloat.ltb a c = false.
Proof.
  intros Hab Hcb. destruct (PrimFloat.ltb a c) eqn:Hac; [|reflexivity].
  now rewrite (ltb_trans _ _ _ Hac Hcb) in Hab.
Qed.

Lemma ltb_asym (a b : float) :
  PrimFloat.ltb a b = true -> PrimFloat.ltb b a = false.
Proof.
  intros Hab. destruct (PrimFloat.ltb b a) eqn:Hba; [|reflexivity].
  pose proof (ltb_trans _ _ _ Hab Hba) as H. now rewrite ltb_irrefl in H.
Qed.

(** What is below anything is below infinity. *)
Lemma ltb_below_infinity (d x : float) :
  PrimFloat.ltb d x = true -> PrimFloat.ltb d infinity = true.
Proof.
  rewrite !FloatAxioms.ltb_spec.
  change (Prim2SF infinity) with (SpecFloat.S754_infinity false).
  unfold SpecFloat.SFltb.
  destruct (Prim2SF d) as [b|b| |b e1 e2], (Prim2SF x) as [b'|b'| |b' e1' e2'];
    simpl; try discriminate; try reflexivity;
    try (destruct b; try discriminate; try reflexivity;
         destruct b'; try discriminate; reflexivity).
Qed.

Lemma coerce_holds (cells : list kcell) (i : Id) : holds (coerce cells (KObj i)) i.
Proof.
  unfold holds, coerce. destruct i as [z|name]; [|now left].
  destruct (forallb is_num cells); [right; eauto | now left].
Qed.

(** The first slot through the candidates [cs]: no candidate is strictly
    closer than what it ends with, and it ends as it started or with a
    candidate that was strictly closer. *)
Lemma first_slot_nearest (cs : list Id) :
  forall (d : float) (c : kcell) (l : list Slot),
  exists d' c' l',
    fold_left
      (fun l i => record_first_dominated (m traj (loc_id move_df i)) i l)
      cs ((d, c) :: l) = (d', c') :: l' /\
    (forall i, In i cs -> PrimFloat.ltb (m traj (loc_id move_df i)) d' = false) /\
    ((d' = d /\ c' = c) \/
     (PrimFloat.ltb d' d = true /\
      exists i, In i cs /\ d' = m traj (loc_id move_df i) /\ holds c' i)).
Proof.
  induction cs as [|i cs IH]; intros d c l.
  - exists d, c, l. split; [reflexivity|]. split; [intros i []|]. now left.
  - cbn [fold_left]. unfold record_first_dominated at 2. cbn [overwrite_with].
    set (ci := coerce (map snd ((d, c) :: l)) (KObj i)).
    assert (Hci : holds ci i) by apply coerce_holds. clearbody ci.
    destruct (PrimFloat.ltb (m traj (loc_id move_df i)) d) eqn:Hlt.
    + destruct (IH (m traj (loc_id move_df i)) ci l)
        as [d' [c' [l' [Hrun [Hall Hfrom]]]]].
      exists d', c', l'. split; [exact Hrun|]. split.
      * intros j [<- | Hj]; [|now apply Hall].
        destruct Hfrom as [[-> _] | [Hlt' _]]; [apply ltb_irrefl | now apply ltb_asym].
      * right. destruct Hfrom as [[-> ->] | [Hlt' [j [Hj [Hd Hc]]]]].
        -- split; [exact Hlt|]. exists i. split; [now left | now split].
        -- split; [exact (ltb_trans _ _ _ Hlt' Hlt)|].
           exists j. split; [now right | now split].
    + destruct (IH d c (overwrite_with (m traj (loc_id move_df i)) ci l))
        as [d' [c' [l' [Hrun [Hall Hfrom]]]]].
      exists d', c', l'. split; [exact Hrun|]. split.
      * intros j [<- | Hj]; [|now apply Hall].
        destruct Hfrom as [[-> _] | [Hlt' _]];
          [exact Hlt | exact (ltb_not_below _ _ _ Hlt Hlt')].
      * destruct Hfrom as [Hsame | [Hlt' [j [Hj [Hd Hc]]]]]; [now left|].
        right. split; [exact Hlt'|]. exists j. split; [now right | now split].
Qed.

Lemma overwrite_slot_of (all : list Id) (i : Id) (c : kcell) (l : list Slot) :
  In i all -> holds c i ->
  Forall (slot_of TRAJ_ID m traj move_df all) l ->
  Forall (slot_of TRAJ_ID m traj move_df all)
    (overwrite_with (m traj (loc_id move_df i)) c l).
Proof.
  intros Hi Hc. induction 1 as [|[x e] l Hs Hl IH]; simpl; [constructor|].
  destruct (PrimFloat.ltb (m traj (loc_id move_df i)) x) eqn:Hlt.
  - constructor; [|exact Hl]. right. exists i. cbn [fst snd].
    repeat split; [exact Hi | exact Hc |]. exact (ltb_below_infinity _ _ Hlt).
  - constructor; assumption.
Qed.

Lemma top_k_slot_of (all cs : list Id) :
  incl cs all ->
  forall l, Forall (slot_of TRAJ_ID m traj move_df all) l ->
    Forall (slot_of TRAJ_ID m traj move_df all)
      (fold_left
         (fun l i => record_first_dominated (m traj (loc_id move_df i)) i l) cs l).
Proof.
  induction cs as [|i cs IH]; intros Hincl l Hl; [exact Hl|].
  cbn [fold_left]. apply IH.
  - intros j Hj. apply Hincl. now right.
  - apply overwrite_slot_of; [|apply coerce_holds|exact Hl]. apply Hincl. now left.
Qed.

End KnnSlots.

Section KnnRuns.
Import Pandas Query Statements Slots.

Variables MEDP MEDT TRAJ_ID : string.
Variables medp medt : Measure.
Variable m : Measure.
Variables traj move_df : DataFrame.
Variable first : Row.
Variable rest : list Row.
Hypothesis reference_rows : rows traj = first :: rest.

Lemma knn_loop_no_slots (ids : list Id) :
  forall k_list trace,
    knn_loop m traj move_df 0 ids k_list trace
    = (Ok k_list, trace ++ filter (fun i => negb (Id_eqb i (traj_id first))) ids).
Proof.
  induction ids as [|i ids IH]; intros k_list trace; simpl.
  - now rewrite app_nil_r.
  - rewrite reference_rows. destruct (Id_eqb i (traj_id first)); simpl.
    + apply IH.
    + rewrite IH. now rewrite <- app_assoc.
Qed.

Lemma new_k_list_distance (k n : nat) :
  TRAJ_ID <> "distance"%string -> n < k ->
  kl_get (new_k_list TRAJ_ID k) n "distance" = Ok (KNum infinity).
Proof.
  intros Hd Hn. apply String.eqb_neq in Hd.
  unfold kl_get, new_k_list, named. cbn [filter fst String.eqb Ascii.eqb Bool.eqb andb].
  rewrite Hd. now rewrite nth_error_repeat.
Qed.

Lemma scan_out_of_reach (k : nat) (d : float) (i : Id) :
  TRAJ_ID <> "distance"%string ->
  PrimFloat.ltb d infinity = false ->
  forall b a, a + b <= k ->
    scan (seq a b) (new_k_list TRAJ_ID k) d i = Ok (new_k_list TRAJ_ID k).
Proof.
  intros Hd Hlt. induction b as [|b IH]; intros a Hab; [reflexivity|].
  cbn [seq scan]. rewrite new_k_list_distance by (assumption || lia).
  cbn [bind]. rewrite Hlt. apply IH. lia.
Qed.

Lemma knn_loop_out_of_reach (k : nat) (ids : list Id) :
  TRAJ_ID <> "distance"%string ->
  (forall i, In i ids -> i <> traj_id first ->
     PrimFloat.ltb (m traj (loc_id move_df i)) infinity = false) ->
  forall trace,
    fst (knn_loop m traj move_df k ids (new_k_list TRAJ_ID k) trace)
    = Ok (new_k_list TRAJ_ID k).
Proof.
  intros Hd. induction ids as [|i ids IH]; intros Hfar trace; [reflexivity|].
  cbn [knn_loop]. rewrite reference_rows.
  assert (Hrest : forall j, In j ids -> j <> traj_id first ->
            PrimFloat.ltb (m traj (loc_id move_df j)) infinity = false).
  { intros j Hj. apply Hfar. now right. }
  destruct (Id_eqb i (traj_id first)) eqn:He; cbn [negb]; [now apply IH|].
  assert (Hi : i <> traj_id first).
  { intros ->. now rewrite Id_eqb_refl in He. }
  rewrite (scan_out_of_reach k _ i Hd (Hfar i (or_introl eq_refl) Hi) k 0) by lia.
  now apply IH.
Qed.

Lemma knn_query_rows (k : Z) (distance : string) (out : DataFrame) :
  TRAJ_ID <> "distance"%string ->
  dist_measure MEDP MEDT medp medt distance = Ok m ->
  returned (knn_query MEDP MEDT TRAJ_ID medp medt traj move_df k distance) = Ok out ->
  rows out
  = rows traj
    ++ slot_points move_df
         (as_cells (recorded TRAJ_ID m traj move_df (Z.to_nat k) (traj_id first)
                      (unique (map traj_id (rows move_df))))).
Proof.
  intros Hd Hm Hout.
  destruct (knn_k_list_recorded MEDP MEDT TRAJ_ID medp medt traj move_df k distance
              m first rest Hd Hm reference_rows) as [kl [Hrun Hrep]].
  unfold knn_query in Hout. rewrite Hrun in Hout. cbn [returned bind] in Hout.
  assert (Hlen : length (recorded TRAJ_ID m traj move_df (Z.to_nat k) (traj_id first)
                           (unique (map traj_id (rows move_df)))) = Z.to_nat k).
  { unfold recorded. now rewrite top_k_length, repeat_length. }
  rewrite <- Hlen in Hout.
  rewrite (gather_collects TRAJ_ID move_df _ kl traj out Hrep Hout).
  now rewrite (represents_view _ _ _ Hrep).
Qed.

End KnnRuns.

(** X22. With [k] at most 0 the Top-K frame has no slot: [knn_query] still
    measures every candidate but the reference's own id, records none, and
    returns the reference frame as it is. Stated for a reference with at
    least one row. *)
Theorem knn_query_without_slots (MEDP MEDT TRAJ_ID : string)
    (medp medt : Query.Measure) (traj move_df : Pandas.DataFrame) (k : Z)
    (distance : string) (m : Query.Measure) (first : Pandas.Row)
    (rest : list Pandas.Row) :
  (k <= 0)%Z ->
  Query.dist_measure MEDP MEDT medp medt distance = Pandas.Ok m ->
  Pandas.rows traj = first :: rest ->
  Query.knn_query MEDP MEDT TRAJ_ID medp medt traj move_df k distance
  = {| Query.returned := Pandas.Ok traj;
       Query.measured := Slots.candidates move_df (Pandas.traj_id first) |}.
Proof.
  intros Hk Hm Hrows. unfold Query.knn_query, Query.knn_k_list. rewrite Hm.
  assert (H0 : Z.to_nat k = 0%nat) by lia. rewrite H0.
  rewrite (knn_loop_no_slots m traj move_df first rest Hrows). reflexivity.
Qed.

Lemma knn_query_without_slots_witness :
  (0 <= 0)%Z /\
  Query.knn_query Examples.MEDP Examples.MEDT Examples.TRAJ_ID Examples.line_medp
    Examples.line_medt Examples.reference Examples.neighbours 0 Examples.MEDP
  = {| Query.returned := Pandas.Ok Examples.reference;
       Query.measured := [Pandas.IdStr "A"; Pandas.IdStr "B"; Pandas.IdStr "C";
                          Pandas.IdStr "D"] |}.
Proof.
  split; [lia|].
  exact (knn_query_without_slots Examples.MEDP Examples.MEDT Examples.TRAJ_ID
           Examples.line_medp Examples.line_medt Examples.reference
           Examples.neighbours 0 Examples.MEDP Examples.line_medp Examples.R0 []
           (Z.le_refl 0) eq_refl eq_refl).
Defined.

(** X23. With at least one slot, slot 0 of the Top-K frame ends with a
    nearest candidate: no candidate is strictly closer to the reference than
    the distance slot 0 holds, and slot 0 holds either a candidate's
    distance together with its id as the column keeps it (the id itself, or
    the float of an integer id written to a float64 column) or, when no
    candidate came below infinity, the sentinel under infinity. Stated for
    a reference with at least one row and an id column not labelled
    'distance'. *)
Theorem knn_first_slot_is_nearest (MEDP MEDT TRAJ_ID : string)
    (medp medt : Query.Measure) (traj move_df : Pandas.DataFrame) (k : Z)
    (distance : string) (m : Query.Measure) (first : Pandas.Row)
    (rest : list Pandas.Row) :
  TRAJ_ID <> "distance"%string ->
  Query.dist_measure MEDP MEDT medp medt distance = Pandas.Ok m ->
  Pandas.rows traj = first :: rest ->
  (0 < k)%Z ->
  let candidates := Slots.candidates move_df (Pandas.traj_id first) in
  exists k_list d c others,
    Query.returned
      (Query.knn_k_list MEDP MEDT TRAJ_ID medp medt traj move_df k distance)
    = Pandas.Ok k_list /\
    Statements.view k_list = (Query.KNum d, c) :: others /\
    (forall i, In i candidates ->
       PrimFloat.ltb (m traj (Pandas.loc_id move_df i)) d = false) /\
    ((d = infinity /\ c = Statements.sentinel TRAJ_ID) \/
     exists i, In i candidates /\ d = m traj (Pandas.loc_id move_df i) /\
       (c = Query.KObj i \/
        exists z, i = Pandas.IdInt z /\ c = Query.KNum (Pandas.float_of_int z))).
Proof.
  intros Hd Hm Hrows Hk candidates.
  destruct (knn_k_list_recorded MEDP MEDT TRAJ_ID medp medt traj move_df k distance
              m first rest Hd Hm Hrows) as [kl [Hrun Hrep]].
  apply represents_view in Hrep. unfold Statements.recorded in Hrep.
  destruct (Z.to_nat k) as [|n] eqn:Hn; [lia|]. cbn [repeat] in Hrep.
  fold (Slots.candidates move_df (Pandas.traj_id first)) in Hrep. fold candidates in Hrep.
  destruct (first_slot_nearest m traj move_df candidates infinity
              (Statements.sentinel TRAJ_ID)
              (repeat (infinity, Statements.sentinel TRAJ_ID) n))
    as [d [c [l [Hfold [Hall Hfrom]]]]].
  rewrite Hfold in Hrep.
  exists kl, d, c, (Statements.as_cells l).
  split; [now rewrite Hrun|]. split; [exact Hrep|]. split; [exact Hall|].
  destruct Hfrom as [Hsame | [_ Hwritten]]; [now left | now right].
Qed.

(** Among the candidates 1 (5 m), 2 (2 m) and 3 (9 m) of the reference 0,
    slot 0 ends with the distance 2 and the id 2 as a float. *)
Lemma knn_first_slot_is_nearest_witness :
  Examples.TRAJ_ID <> "distance"%string /\
  (0 < 2)%Z /\
  Query.returned
    (Query.knn_k_list Examples.MEDP Examples.MEDT Examples.TRAJ_ID
       Examples.line_medp Examples.line_medt Samples.numbered_reference
       Samples.numbered 2 Examples.MEDP)
  = Pandas.Ok
      [("distance"%string, [Query.KNum 2%float; Query.KNum 9%float]);
       ("id"%string, [Query.KObj (Pandas.IdStr "empty");
                      Query.KObj (Pandas.IdStr "empty")]);
       ("traj_id"%string, [Query.KNum 2%float; Query.KNum 3%float])] /\
  exists k_list d c others,
    Query.returned
      (Query.knn_k_list Examples.MEDP Examples.MEDT Examples.TRAJ_ID
         Examples.line_medp Examples.line_medt Samples.numbered_reference
         Samples.numbered 2 Examples.MEDP) = Pandas.Ok k_list /\
    Statements.view k_list = (Query.KNum d, c) :: others /\
    (forall i, In i (Slots.candidates Samples.numbered (Pandas.IdInt 0)) ->
       PrimFloat.ltb
         (Examples.line_medp Samples.numbered_reference
            (Pandas.loc_id Samples.numbered i))
         d = false).
Proof.
  assert (Hd : Examples.TRAJ_ID <> "distance"%string) by discriminate.
  split; [exact Hd|]. split; [lia|]. split; [reflexivity|].
  destruct (knn_first_slot_is_nearest Examples.MEDP Examples.MEDT Examples.TRAJ_ID
              Examples.line_medp Examples.line_medt Samples.numbered_reference
              Samples.numbered 2 Examples.MEDP Examples.line_medp
              (Samples.at_ 0 0 0 0 0) [] Hd eq_refl eq_refl eq_refl)
    as [kl [d [c [others [Hrun [Hview [Hall _]]]]]]].
  exists kl, d, c, others. split; [exact Hrun|]. split; [exact Hview | exact Hall].
Defined.

(** X24. When no candidate comes strictly below infinity (there is none but
    the reference itself, or every distance is infinite or NaN), nothing is
    written to the Top-K frame, the column 'traj_id' the closing loop reads
    is never created, and [knn_query] ends in a KeyError. Stated for at
    least one slot, a reference with at least one row and an id column
    labelled neither 'traj_id' nor 'distance'. *)
Theorem knn_query_nothing_recorded (MEDP MEDT TRAJ_ID : string)
    (medp medt : Query.Measure) (traj move_df : Pandas.DataFrame) (k : Z)
    (distance : string) (m : Query.Measure) (first : Pandas.Row)
    (rest : list Pandas.Row) :
  TRAJ_ID <> "traj_id"%string ->
  TRAJ_ID <> "distance"%string ->
  (0 < k)%Z ->
  Query.dist_measure MEDP MEDT medp medt distance = Pandas.Ok m ->
  Pandas.rows traj = first :: rest ->
  (forall i, In i (Slots.candidates move_df (Pandas.traj_id first)) ->
     PrimFloat.ltb (m traj (Pandas.loc_id move_df i)) infinity = false) ->
  Query.returned (Query.knn_query MEDP MEDT TRAJ_ID medp medt traj move_df k distance)
  = Pandas.Raise Pandas.KeyError.
Proof.
  intros Hn Hd Hk Hm Hrows Hfar.
  unfold Query.knn_query, Query.knn_k_list. rewrite Hm.
  pose proof (knn_loop_out_of_reach TRAJ_ID m traj move_df first rest Hrows
                (Z.to_nat k) (Pandas.unique (map Pandas.traj_id (Pandas.rows move_df)))
                Hd) as Hloop.
  destruct (Query.knn_loop _ _ _ _ _ _ _) as [r trace] eqn:Hrun.
  cbn [Query.returned].
  assert (Hr : r = Pandas.Ok (Query.new_k_list TRAJ_ID (Z.to_nat k))).
  { assert (Hfar' : forall i,
              In i (Pandas.unique (map Pandas.traj_id (Pandas.rows move_df))) ->
              i <> Pandas.traj_id first ->
              PrimFloat.ltb (m traj (Pandas.loc_id move_df i)) infinity = false).
    { intros i Hi Hown. apply Hfar. apply filter_In. split; [exact Hi|].
      apply negb_true_iff.
      destruct (Pandas.Id_eqb i (Pandas.traj_id first)) eqn:He; [|reflexivity].
      apply Id_eqb_eq in He. contradiction. }
    specialize (Hloop Hfar' []).
    now rewrite Hrun in Hloop. }
  rewrite Hr. cbn [Pandas.bind].
  destruct (Z.to_nat k) as [|n] eqn:Hnat; [lia|].
  cbn [seq Query.gather]. unfold Query.kl_get, Query.new_k_list, Query.named.
  apply String.eqb_neq in Hn.
  cbn [filter fst String.eqb Ascii.eqb Bool.eqb andb]. rewrite Hn. reflexivity.
Qed.

(** The only candidate next to the reference is infinitely far. *)
Lemma knn_query_nothing_recorded_witness :
  Examples.TRAJ_ID <> "traj_id"%string /\
  Examples.TRAJ_ID <> "distance"%string /\
  (0 < 3)%Z /\
  (forall i, In i (Slots.candidates Samples.out_of_reach (Pandas.IdStr "R")) ->
     PrimFloat.ltb
       (Examples.line_medp Examples.reference (Pandas.loc_id Samples.out_of_reach i))
       infinity = false) /\
  Query.returned
    (Query.knn_query Examples.MEDP Examples.MEDT Examples.TRAJ_ID Examples.line_medp
       Examples.line_medt Examples.reference Samples.out_of_reach 3 Examples.MEDP)
  = Pandas.Raise Pandas.KeyError.
Proof.
  assert (Hn : Examples.TRAJ_ID <> "traj_id"%string) by discriminate.
  assert (Hd : Examples.TRAJ_ID <> "distance"%string) by discriminate.
  assert (Hfar : forall i,
            In i (Slots.candidates Samples.out_of_reach (Pandas.IdStr "R")) ->
            PrimFloat.ltb
              (Examples.line_medp Examples.reference
                 (Pandas.loc_id Samples.out_of_reach i)) infinity = false).
  { intros i [<- | []]. reflexivity. }
  split; [exact Hn|]. split; [exact Hd|]. split; [lia|]. split; [exact Hfar|].
  exact (knn_query_nothing_recorded Examples.MEDP Examples.MEDT Examples.TRAJ_ID
           Examples.line_medp Examples.line_medt Examples.reference
           Samples.out_of_reach 3 Examples.MEDP Examples.line_medp Examples.R0 []
           Hn Hd eq_refl eq_refl eq_refl Hfar).
Defined.

(** X25. What [knn_query] returns after the rows of the reference are rows
    of the candidate frame only, each of a trajectory other than the
    reference's whose distance to the reference is strictly below infinity:
    a candidate at an infinite or NaN distance is never returned, however
    many slots are free. Stated for a candidate frame in which no two
    integer ids are one number to float64 (the recorded ids go through a
    float64 column), a reference with at least one row and an id column
    labelled neither 'traj_id' nor 'distance'. *)
Theorem knn_query_returns_reachable_candidates (MEDP MEDT TRAJ_ID : string)
    (medp medt : Query.Measure) (traj move_df : Pandas.DataFrame) (k : Z)
    (distance : string) (m : Query.Measure) (first : Pandas.Row)
    (rest : list Pandas.Row) (out : Pandas.DataFrame) :
  TRAJ_ID <> "traj_id"%string ->
  TRAJ_ID <> "distance"%string ->
  Slots.float64_distinct (map Pandas.traj_id (Pandas.rows move_df)) ->
  Query.dist_measure MEDP MEDT medp medt distance = Pandas.Ok m ->
  Pandas.rows traj = first :: rest ->
  Query.returned (Query.knn_query MEDP MEDT TRAJ_ID medp medt traj move_df k distance)
  = Pandas.Ok out ->
  exists found,
    Pandas.rows out = Pandas.rows traj ++ found /\
    (forall r, In r found ->
       In r (Pandas.rows move_df) /\
       Pandas.traj_id r <> Pandas.traj_id first /\
       PrimFloat.ltb (m traj (Pandas.loc_id move_df (Pandas.traj_id r))) infinity
       = true).
Proof.
  intros Hn Hd Hdist Hm Hrows Hout.
  eexists. split;
    [exact (knn_query_rows MEDP MEDT TRAJ_ID medp medt m traj move_df first rest
              Hrows k distance out Hd Hm Hout)|].
  intros r Hin. unfold Statements.slot_points, Statements.as_cells in Hin.
  apply in_flat_map in Hin as [s [Hs Hr]].
  apply in_map_iff in Hs as [s0 [<- Hs0]]. cbn [snd] in Hr.
  apply filter_In in Hr as [Hr Hcell]. split; [exact Hr|].
  assert (Hall : Forall (Slots.slot_of TRAJ_ID m traj move_df
                           (Slots.candidates move_df (Pandas.traj_id first)))
                   (Statements.recorded TRAJ_ID m traj move_df (Z.to_nat k)
                      (Pandas.traj_id first)
                      (Pandas.unique (map Pandas.traj_id (Pandas.rows move_df))))).
  { unfold Statements.recorded. apply top_k_slot_of; [apply incl_refl|].
    apply Forall_forall. intros s Hs. apply repeat_spec in Hs. subst s. now left. }
  rewrite Forall_forall in Hall.
  destruct (Hall s0 Hs0) as [[_ Hc] | [i [Hi [Hdi [Hc Hlt]]]]].
  - rewrite Hc in Hcell. unfold Statements.sentinel in Hcell.
    apply String.eqb_neq in Hn. rewrite Hn in Hcell.
    unfold Query.cell_is in Hcell.
    destruct (Pandas.traj_id r); [|discriminate].
    now rewrite eqb_nan_r in Hcell.
  - assert (Hid : Pandas.traj_id r = i).
    { destruct Hc as [Hc | [z [Hz Hc]]]; rewrite Hc in Hcell.
      - unfold Query.cell_is in Hcell. now apply Id_eqb_eq.
      - unfold Query.cell_is in Hcell.
        destruct (Pandas.traj_id r) as [z'|name] eqn:Hr'; [|discriminate].
        rewrite Hz. f_equal. apply Hdist; [| |exact Hcell].
        + rewrite <- Hr'. now apply in_map.
        + rewrite <- Hz. apply filter_In in Hi as [Hi _].
          now apply (proj1 (unique_In _ _)). }
    rewrite Hid. apply filter_In in Hi as [_ Hown]. split.
    + intros He. rewrite He, Id_eqb_refl in Hown. discriminate.
    + now rewrite <- Hdi.
Qed.

(** With two slots and the candidates 1 (5 m), 2 (2 m) and 3 (9 m) of the
    reference 0, the result is the reference, then 2, then 3. Where two ids
    are one number to float64 the statement does not hold: with the
    reference 2^53 and the candidate 2^53 + 1 the row of the reference in
    the candidate frame comes back with the candidate's. *)
Lemma knn_query_returns_reachable_candidates_witness :
  Examples.TRAJ_ID <> "traj_id"%string /\
  Examples.TRAJ_ID <> "distance"%string /\
  Slots.float64_distinct (map Pandas.traj_id (Pandas.rows Samples.numbered)) /\
  (exists out found,
     Query.returned
       (Query.knn_query Examples.MEDP Examples.MEDT Examples.TRAJ_ID
          Examples.line_medp Examples.line_medt Samples.numbered_reference
          Samples.numbered 2 Examples.MEDP) = Pandas.Ok out /\
     Pandas.rows out = Pandas.rows Samples.numbered_reference ++ found /\
     Pandas.rows out = [Samples.at_ 0 0 0 0 0; Samples.N2; Samples.N3] /\
     (forall r, In r found -> Pandas.traj_id r <> Pandas.IdInt 0)) /\
  (exists out,
     Query.returned
       (Query.knn_query Examples.MEDP Examples.MEDT Examples.TRAJ_ID
          Examples.line_medp Examples.line_medt Samples.twin_reference
          Samples.twins 1 Examples.MEDP) = Pandas.Ok out /\
     Pandas.rows out
     = Pandas.rows Samples.twin_reference ++ [Samples.W0; Samples.W1]).
Proof.
  assert (Hn : Examples.TRAJ_ID <> "traj_id"%string) by discriminate.
  assert (Hd : Examples.TRAJ_ID <> "distance"%string) by discriminate.
  assert (Hdist : Slots.float64_distinct
                    (map Pandas.traj_id (Pandas.rows Samples.numbered))).
  { intros z z' H H' E. simpl in H, H'.
    repeat match goal with
           | H : _ \/ _ |- _ => destruct H
           | H : Pandas.IdInt _ = Pandas.IdInt _ |- _ => injection H as <-
           | H : False |- _ => destruct H
           end;
      first [reflexivity | vm_compute in E; discriminate E]. }
  split; [exact Hn|]. split; [exact Hd|]. split; [exact Hdist|].
  split; [|eexists; split; reflexivity].
  destruct (knn_query_returns_reachable_candidates Examples.MEDP Examples.MEDT
              Examples.TRAJ_ID Examples.line_medp Examples.line_medt
              Samples.numbered_reference Samples.numbered 2 Examples.MEDP
              Examples.line_medp (Samples.at_ 0 0 0 0 0) [] _ Hn Hd Hdist
              eq_refl eq_refl eq_refl)
    as [found [Hrows Hfound]].
  eexists. exists found. split; [reflexivity|]. split; [exact Hrows|].
  split; [vm_compute; reflexivity|].
  intros r Hr. exact (proj1 (proj2 (Hfound r Hr))).
Defined.
